(** * PostdataPoem: metadata accessors, stanza grouping and analysis aggregation

    A shallow embedding of [src/pd_poem.py] (class [PostdataPoem]).  Python
    values are modelled by small inductive types, raised exceptions by an
    error type, and the mutable poem object together with the query store by
    an explicit state that every method threads. *)

From Stdlib Require Import ZArith List String Ascii Bool Lia DecimalString.
Import ListNotations.
Local Open Scope string_scope.
Local Open Scope Z_scope.

Set Implicit Arguments.
Set Warnings "-register-all".

(** ** Exceptions and results *)

Module Py.

(** The exceptions the module can raise: [Exception] with a message is what
    [pd_poem.py] raises itself; the others are the built-in errors of the
    interpreter on indexing and conversion, the binding error of a query
    template and whatever the execution adapter fails with. *)
Inductive exn : Type :=
| Exception (msg : string)
| ParameterMismatch
| StoreError (msg : string)
| KeyError (key : string)
| IndexError
| TypeError
| ValueError
| AttributeError.

Inductive result (A : Type) : Type :=
| Ok (a : A)
| Raise (e : exn).

Arguments Ok {A} a.
Arguments Raise {A} e.

Definition rbind {A B} (r : result A) (f : A -> result B) : result B :=
  match r with
  | Ok a => f a
  | Raise e => Raise e
  end.

Definition rmap {A B} (f : A -> B) (r : result A) : result B :=
  rbind r (fun a => Ok (f a)).

Fixpoint traverse {A B} (f : A -> result B) (l : list A) : result (list B) :=
  match l with
  | [] => Ok []
  | a :: l' => rbind (f a) (fun b => rbind (traverse f l') (fun bs => Ok (b :: bs)))
  end.

(** ** Values *)

(** What a cell of a simplified result holds: an [int] or a [str]. *)
Inductive scalar : Type :=
| SInt (z : Z)
| SStr (s : string).

(** An element of the list [simplify()] returns: the bare value when the
    result set has one field, a dict from field name to value otherwise. *)
Inductive binding : Type :=
| Plain (v : scalar)
| Row (fields : list (string * scalar)).

(** Serialisable values: what [get_metadata] and [get_analysis] hand to the
    HTTP layer. *)
Inductive pyval : Type :=
| PyNone
| PyInt (z : Z)
| PyStr (s : string)
| PyList (items : list pyval)
| PyDict (entries : list (string * pyval)).

Definition of_scalar (v : scalar) : pyval :=
  match v with
  | SInt z => PyInt z
  | SStr s => PyStr s
  end.

Definition of_binding (b : binding) : pyval :=
  match b with
  | Plain v => of_scalar v
  | Row fs => PyDict (map (fun kv => (fst kv, of_scalar (snd kv))) fs)
  end.

Definition of_option {A} (f : A -> pyval) (o : option A) : pyval :=
  match o with
  | Some a => f a
  | None => PyNone
  end.

(** Dict access by key, first match. *)
Fixpoint lookup {V} (k : string) (d : list (string * V)) : option V :=
  match d with
  | [] => None
  | (k', v) :: d' => if String.eqb k k' then Some v else lookup k d'
  end.

(** [d[k] = v] on a dict: replaces the value of an existing key in place,
    appends a new key at the end. *)
Fixpoint setitem {V} (k : string) (v : V) (d : list (string * V)) : list (string * V) :=
  match d with
  | [] => [(k, v)]
  | (k', v') :: d' => if String.eqb k k' then (k', v) :: d' else (k', v') :: setitem k v d'
  end.

(** ** Built-ins *)

(** [a == b] on scalars: an [int] never equals a [str]. *)
Definition py_eq (a b : scalar) : bool :=
  match a, b with
  | SInt x, SInt y => Z.eqb x y
  | SStr s, SStr t => String.eqb s t
  | _, _ => false
  end.

(** Truthiness. *)
Definition truthy_str (s : string) : bool :=
  match s with
  | EmptyString => false
  | _ => true
  end.

Definition truthy_scalar (v : scalar) : bool :=
  match v with
  | SInt z => negb (Z.eqb z 0)
  | SStr s => truthy_str s
  end.

Definition truthy_list {A} (l : list A) : bool :=
  match l with
  | [] => false
  | _ => true
  end.

Definition truthy_binding (b : binding) : bool :=
  match b with
  | Plain v => truthy_scalar v
  | Row fs => truthy_list fs
  end.

Definition truthy (v : pyval) : bool :=
  match v with
  | PyNone => false
  | PyInt z => negb (Z.eqb z 0)
  | PyStr s => truthy_str s
  | PyList l => truthy_list l
  | PyDict d => truthy_list d
  end.

Definition truthy_opt {A} (t : A -> bool) (o : option A) : bool :=
  match o with
  | Some a => t a
  | None => false
  end.

(** [int(s)] on a string, base ten, as CPython 3.11 computes it.  A [str]
    is held as its UTF-8 bytes.  The string is first brought to ASCII: a
    character above 127 that is a Unicode blank becomes a space, one that
    is a Unicode decimal digit becomes that ASCII digit, any other becomes
    "?"; characters up to 127 stay as they are.  Then blanks (tab to
    carriage return, and space) are stripped on both sides, one sign is
    allowed, digits may be separated by single underscores, and more than
    4300 digits are refused.  Every failure is a [ValueError]. *)
Definition byte (c : ascii) : Z := Z.of_nat (nat_of_ascii c).

Definition continuation (b : Z) : bool := (128 <=? b) && (b <? 192).

(** The code points of a UTF-8 string; a byte that starts no well-formed
    sequence stands for itself. *)
Fixpoint code_points (s : string) : list Z :=
  match s with
  | EmptyString => []
  | String c1 s1 =>
      let b1 := byte c1 in
      if b1 <? 128 then b1 :: code_points s1
      else
        match s1 with
        | String c2 s2 =>
            let b2 := byte c2 in
            if (192 <=? b1) && (b1 <? 224) && continuation b2 then
              ((b1 - 192) * 64 + (b2 - 128)) :: code_points s2
            else
              match s2 with
              | String c3 s3 =>
                  let b3 := byte c3 in
                  if (224 <=? b1) && (b1 <? 240) && continuation b2 && continuation b3 then
                    ((b1 - 224) * 4096 + (b2 - 128) * 64 + (b3 - 128)) :: code_points s3
                  else
                    match s3 with
                    | String c4 s4 =>
                        let b4 := byte c4 in
                        if (240 <=? b1) && (b1 <? 248) && continuation b2
                           && continuation b3 && continuation b4 then
                          ((b1 - 240) * 262144 + (b2 - 128) * 4096
                           + (b3 - 128) * 64 + (b4 - 128)) :: code_points s4
                        else b1 :: code_points s1
                    | EmptyString => b1 :: code_points s1
                    end
              | EmptyString => b1 :: code_points s1
              end
        | EmptyString => [b1]
        end
  end.

(** The blanks above 127 ([Py_UNICODE_ISSPACE]). *)
Definition unicode_space (cp : Z) : bool :=
  existsb (Z.eqb cp) [133; 160; 5760; 8232; 8233; 8239; 8287; 12288]
  || ((8192 <=? cp) && (cp <=? 8202)).

(** The code points above 127 of the digit zero of every script (Unicode
    14.0); the nine code points after each are its digits one to nine. *)
Definition decimal_zeros : list Z :=
  [ 1632; 1776; 1984; 2406; 2534; 2662; 2790; 2918;
    3046; 3174; 3302; 3430; 3558; 3664; 3792; 3872;
    4160; 4240; 6112; 6160; 6470; 6608; 6784; 6800;
    6992; 7088; 7232; 7248; 42528; 43216; 43264; 43472;
    43504; 43600; 44016; 65296; 66720; 68912; 69734; 69872;
    69942; 70096; 70384; 70736; 70864; 71248; 71360; 71472;
    71904; 72016; 72784; 73040; 73120; 92768; 92864; 93008;
    120782; 120792; 120802; 120812; 120822; 123200; 123632; 125264;
    130032 ].

(** The value of a decimal digit above 127 ([Py_UNICODE_TODECIMAL]). *)
Definition unicode_decimal (cp : Z) : option Z :=
  match find (fun zero => (zero <=? cp) && (cp <? zero + 10)) decimal_zeros with
  | Some zero => Some (cp - zero)
  | None => None
  end.

Definition to_ascii (cp : Z) : ascii :=
  if cp <? 128 then ascii_of_nat (Z.to_nat cp)
  else if unicode_space cp then " "%char
  else match unicode_decimal cp with
       | Some d => ascii_of_nat (Z.to_nat (48 + d))
       | None => "?"%char
       end.

Definition transform (s : string) : string :=
  string_of_list_ascii (map to_ascii (code_points s)).

Definition is_space (c : ascii) : bool :=
  let n := nat_of_ascii c in
  (((9 <=? n) && (n <=? 13)) || (n =? 32))%nat.

Definition digit_of (c : ascii) : option Z :=
  let n := nat_of_ascii c in
  if ((48 <=? n) && (n <=? 57))%nat then Some (Z.of_nat n - 48) else None.

Fixpoint lstrip (s : string) : string :=
  match s with
  | String c s' => if is_space c then lstrip s' else s
  | EmptyString => EmptyString
  end.

Fixpoint all_space (s : string) : bool :=
  match s with
  | String c s' => is_space c && all_space s'
  | EmptyString => true
  end.

(** [digits acc after_digit s]: reads the digit run [s]; [after_digit] tells
    whether the previous character was a digit, which is where an
    underscore or the end of the number may stand. *)
Fixpoint digits (acc : Z) (after_digit : bool) (s : string) : option Z :=
  match s with
  | EmptyString => if after_digit then Some acc else None
  | String c s' =>
      match digit_of c with
      | Some d => digits (10 * acc + d) true s'
      | None =>
          if after_digit then
            if Ascii.eqb c "_" then
              match s' with
              | String c' _ =>
                  match digit_of c' with
                  | Some _ => digits acc false s'
                  | None => None
                  end
              | EmptyString => None
              end
            else if all_space s then Some acc else None
          else None
      end
  end.

Fixpoint count_digits (s : string) : Z :=
  match s with
  | EmptyString => 0
  | String c s' =>
      match digit_of c with
      | Some _ => 1 + count_digits s'
      | None => count_digits s'
      end
  end.

(** The default of [sys.get_int_max_str_digits()]. *)
Definition max_str_digits : Z := 4300.

Definition int_of_str (s : string) : result Z :=
  let body := lstrip (transform s) in
  let parsed :=
    match body with
    | String "-" s' => option_map Z.opp (digits 0 false s')
    | String "+" s' => digits 0 false s'
    | _ => digits 0 false body
    end in
  match parsed with
  | Some z => if max_str_digits <? count_digits body then Raise ValueError else Ok z
  | None => Raise ValueError
  end.

(** [int(v)] *)
Definition py_int (v : scalar) : result Z :=
  match v with
  | SInt z => Ok z
  | SStr s => int_of_str s
  end.

(** [str(v)]: an [int] is written in decimal, and refused with a
    [ValueError] when it has more than 4300 digits; a [str] is returned as
    it is. *)
Definition str_of_int (z : Z) : string :=
  NilZero.string_of_int (Z.to_int z).

Definition py_str (v : scalar) : result string :=
  match v with
  | SInt z =>
      if max_str_digits <? Z.of_nat (String.length (str_of_int (Z.abs z)))
      then Raise ValueError
      else Ok (str_of_int z)
  | SStr s => Ok s
  end.

(** [s.split(sep)] with a one-character separator. *)
Fixpoint split (sep : ascii) (s : string) : list string :=
  match s with
  | EmptyString => [EmptyString]
  | String c s' =>
      if Ascii.eqb c sep then EmptyString :: split sep s'
      else match split sep s' with
           | h :: t => String c h :: t
           | [] => [String c EmptyString]
           end
  end.

(** [sep.join(parts)] *)
Fixpoint join (sep : string) (parts : list string) : string :=
  match parts with
  | [] => EmptyString
  | [p] => p
  | p :: ps => p ++ sep ++ join sep ps
  end.

(** [l[i]] on a list. *)
Definition getitem_list {A} (l : list A) (i : nat) : result A :=
  match nth_error l i with
  | Some a => Ok a
  | None => Raise IndexError
  end.

(** [binding[key]] with a string key: a dict is looked up, anything else
    cannot be indexed by a string. *)
Definition getitem (b : binding) (key : string) : result scalar :=
  match b with
  | Row fs =>
      match lookup key fs with
      | Some v => Ok v
      | None => Raise (KeyError key)
      end
  | Plain _ => Raise TypeError
  end.

End Py.

(** ** The query catalog and the store *)

Module Store.
Import Py.

(** The query templates of [pd_stardog_queries] that [pd_poem.py] imports. *)
Inductive Query : Type :=
| PoemTitle
| PoemCreationYear
| PoemAuthorUris
| PoemAutomaticScansionUri
| PoemCountStanzas
| PoemCountLines
| PoemCountWords
| PoemCountLinesInStanzas
| PoemRhymeSchemesOfStanzas
| PoemCountSyllables
| PoemCountSyllablesInStanzas
| PoemCountWordsInStanzas
| PoemGrammaticalStressPatternsInStanzas
| PoemMetricalPatternsInStanzas.

(** Modelled from the spec: the number of positional parameters a template
    declares ([pd_stardog_queries] is not among the sources): one for the
    URI-only queries, two for those that also select the syllable kind. *)
Definition arity (q : Query) : nat :=
  match q with
  | PoemCountSyllables | PoemCountSyllablesInStanzas => 2%nat
  | _ => 1%nat
  end.

(** Modelled from the spec: a row of a tabular result of the absent
    [sparql] module, a mapping from field name to raw string. *)
Definition ResultRow := list (string * string).

(** Modelled from the spec: the tabular result [SparqlResults], its rows in
    store order. *)
Definition SparqlResults := list ResultRow.

(** One round trip to the store. *)
Definition Call : Type := Query * list string.

(** Modelled from the spec: the connection object [DB] of the absent
    [sparql] module, as far as the poem uses it: the execution adapter's
    answer to a bound template, a result set or a failure.  What the store
    answers may depend on the calls it received before. *)
Record DB : Type := {
  answer : list Call -> Query -> list string -> result SparqlResults
}.

(** Modelled from the spec: a query object of the class [template] of the
    absent [pd_stardog_queries], with the parameters bound last and the
    result fetched last. *)
Record PdStardogQuery (template : Query) : Type := {
  parameters : list string;
  results : option SparqlResults
}.

Arguments parameters {template} _.
Arguments results {template} _.

(** Modelled from the spec: [PoemTitle()] and the like, a fresh object with
    nothing bound or fetched. *)
Definition new_query (template : Query) : PdStardogQuery template :=
  {| parameters := []; results := None |}.

(** Modelled from the spec: [query.inject(params)] of the absent
    [pd_stardog_queries]; positional binding that fails on a wrong count. *)
Definition inject {template} (q : PdStardogQuery template) (params : list string)
  : result (PdStardogQuery template) :=
  if Nat.eqb (List.length params) (arity template)
  then Ok {| parameters := params; results := results q |}
  else Raise ParameterMismatch.

(** Modelled from the spec: [query.execute(database)] of the absent
    [pd_stardog_queries]; one call to the adapter, whose failure propagates
    and whose result set is kept on the query object. *)
Definition execute {template} (q : PdStardogQuery template) (db : DB) (calls : list Call)
  : result (PdStardogQuery template) * list Call :=
  let calls' := (calls ++ [(template, parameters q)])%list in
  match answer db calls template (parameters q) with
  | Ok rs => (Ok {| parameters := parameters q; results := Some rs |}, calls')
  | Raise e => (Raise e, calls')
  end.

(** Modelled from the spec: the field type map of [simplify], a field name
    with the datatype asked for it. *)
Definition Mapping := list (string * string).

(** Modelled from the spec: a field the mapping gives the datatype [int] is
    converted with [int()], the others stay strings. *)
Definition simplify_cell (mapping : Mapping) (cell : string * string) : result scalar :=
  match lookup (fst cell) mapping with
  | Some dt => if String.eqb dt "int" then rmap SInt (int_of_str (snd cell)) else Ok (SStr (snd cell))
  | None => Ok (SStr (snd cell))
  end.

(** Modelled from the spec: the result set has exactly one field per row. *)
Definition one_field (rs : SparqlResults) : bool :=
  forallb (fun row : ResultRow => Nat.eqb (List.length row) 1) rs.

(** Modelled from the spec: a row comes out as the bare value of its one
    field, or as a dict from field name to value. *)
Definition simplify_row (flat : bool) (mapping : Mapping) (row : ResultRow) : result binding :=
  match flat, row with
  | true, [cell] => rmap Plain (simplify_cell mapping cell)
  | _, _ => rmap Row (traverse (fun cell => rmap (pair (fst cell)) (simplify_cell mapping cell)) row)
  end.

(** Modelled from the spec: [SparqlResults.simplify(mapping)] of the absent
    [sparql] module.  Rows keep their order and number; an empty result set
    gives an empty list. *)
Definition simplify (mapping : Mapping) (rs : SparqlResults) : result (list binding) :=
  traverse (simplify_row (one_field rs) mapping) rs.

End Store.

(** ** The poem object *)

Module Poem.
Import Py Store.

(** Modelled from the spec: an instance of the Author collaborator of the
    absent [pd_author], [PostdataAuthor(uri, database)]. *)
Record PostdataAuthor : Type := {
  author_uri : binding;
  author_database : option DB
}.

(** The attributes of a [PostdataPoem] instance.  [title] and
    [creation_year] are read before they are ever assigned, so the base
    class [Poem] (not among the sources) is taken to declare them with the
    default [None], like the attributes declared here. *)
Record PostdataPoem : Type := {
  uri : option string;
  database : option DB;
  id : option string;
  name : option string;
  title : option binding;
  creation_year : option binding;
  poetry_lab_url : option string;
  author_uris : option (list binding);
  authors : option (list PostdataAuthor);
  automatic_analysis : option pyval;
  sparql_title : PdStardogQuery PoemTitle;
  sparql_creation_year : PdStardogQuery PoemCreationYear;
  sparql_author_uris : PdStardogQuery PoemAuthorUris
}.

(** Attribute assignment, [self.x = v]. *)
Definition set_title (v : option binding) (p : PostdataPoem) : PostdataPoem :=
  {| uri := uri p;
     database := database p;
     id := id p;
     name := name p;
     title := v;
     creation_year := creation_year p;
     poetry_lab_url := poetry_lab_url p;
     author_uris := author_uris p;
     authors := authors p;
     automatic_analysis := automatic_analysis p;
     sparql_title := sparql_title p;
     sparql_creation_year := sparql_creation_year p;
     sparql_author_uris := sparql_author_uris p |}.

Definition set_creation_year (v : option binding) (p : PostdataPoem) : PostdataPoem :=
  {| uri := uri p;
     database := database p;
     id := id p;
     name := name p;
     title := title p;
     creation_year := v;
     poetry_lab_url := poetry_lab_url p;
     author_uris := author_uris p;
     authors := authors p;
     automatic_analysis := automatic_analysis p;
     sparql_title := sparql_title p;
     sparql_creation_year := sparql_creation_year p;
     sparql_author_uris := sparql_author_uris p |}.

Definition set_poetry_lab_url (v : option string) (p : PostdataPoem) : PostdataPoem :=
  {| uri := uri p;
     database := database p;
     id := id p;
     name := name p;
     title := title p;
     creation_year := creation_year p;
     poetry_lab_url := v;
     author_uris := author_uris p;
     authors := authors p;
     automatic_analysis := automatic_analysis p;
     sparql_title := sparql_title p;
     sparql_creation_year := sparql_creation_year p;
     sparql_author_uris := sparql_author_uris p |}.

Definition set_author_uris (v : option (list binding)) (p : PostdataPoem) : PostdataPoem :=
  {| uri := uri p;
     database := database p;
     id := id p;
     name := name p;
     title := title p;
     creation_year := creation_year p;
     poetry_lab_url := poetry_lab_url p;
     author_uris := v;
     authors := authors p;
     automatic_analysis := automatic_analysis p;
     sparql_title := sparql_title p;
     sparql_creation_year := sparql_creation_year p;
     sparql_author_uris := sparql_author_uris p |}.

Definition set_authors (v : option (list PostdataAuthor)) (p : PostdataPoem) : PostdataPoem :=
  {| uri := uri p;
     database := database p;
     id := id p;
     name := name p;
     title := title p;
     creation_year := creation_year p;
     poetry_lab_url := poetry_lab_url p;
     author_uris := author_uris p;
     authors := v;
     automatic_analysis := automatic_analysis p;
     sparql_title := sparql_title p;
     sparql_creation_year := sparql_creation_year p;
     sparql_author_uris := sparql_author_uris p |}.

Definition set_automatic_analysis (v : option pyval) (p : PostdataPoem) : PostdataPoem :=
  {| uri := uri p;
     database := database p;
     id := id p;
     name := name p;
     title := title p;
     creation_year := creation_year p;
     poetry_lab_url := poetry_lab_url p;
     author_uris := author_uris p;
     authors := authors p;
     automatic_analysis := v;
     sparql_title := sparql_title p;
     sparql_creation_year := sparql_creation_year p;
     sparql_author_uris := sparql_author_uris p |}.

Definition set_sparql_title (v : PdStardogQuery PoemTitle) (p : PostdataPoem) : PostdataPoem :=
  {| uri := uri p;
     database := database p;
     id := id p;
     name := name p;
     title := title p;
     creation_year := creation_year p;
     poetry_lab_url := poetry_lab_url p;
     author_uris := author_uris p;
     authors := authors p;
     automatic_analysis := automatic_analysis p;
     sparql_title := v;
     sparql_creation_year := sparql_creation_year p;
     sparql_author_uris := sparql_author_uris p |}.

Definition set_sparql_creation_year (v : PdStardogQuery PoemCreationYear) (p : PostdataPoem) : PostdataPoem :=
  {| uri := uri p;
     database := database p;
     id := id p;
     name := name p;
     title := title p;
     creation_year := creation_year p;
     poetry_lab_url := poetry_lab_url p;
     author_uris := author_uris p;
     authors := authors p;
     automatic_analysis := automatic_analysis p;
     sparql_title := sparql_title p;
     sparql_creation_year := v;
     sparql_author_uris := sparql_author_uris p |}.

Definition set_sparql_author_uris (v : PdStardogQuery PoemAuthorUris) (p : PostdataPoem) : PostdataPoem :=
  {| uri := uri p;
     database := database p;
     id := id p;
     name := name p;
     title := title p;
     creation_year := creation_year p;
     poetry_lab_url := poetry_lab_url p;
     author_uris := author_uris p;
     authors := authors p;
     automatic_analysis := automatic_analysis p;
     sparql_title := sparql_title p;
     sparql_creation_year := sparql_creation_year p;
     sparql_author_uris := v |}.

(** The state a method runs in: the poem object and the calls the store has
    received so far. *)
Record World : Type := {
  self : PostdataPoem;
  calls : list Call
}.

(** A method either returns or raises, and leaves a state behind in both
    cases. *)
Definition M (A : Type) : Type := World -> result A * World.

Definition ret {A} (a : A) : M A := fun w => (Ok a, w).

Definition raise {A} (e : exn) : M A := fun w => (Raise e, w).

Definition bind {A B} (m : M A) (f : A -> M B) : M B :=
  fun w =>
    match m w with
    | (Ok a, w') => f a w'
    | (Raise e, w') => (Raise e, w')
    end.

Definition lift {A} (r : result A) : M A := fun w => (r, w).

Definition get_self : M PostdataPoem := fun w => (Ok (self w), w).

Definition assign (f : PostdataPoem -> PostdataPoem) : M unit :=
  fun w => (Ok tt, {| self := f (self w); calls := calls w |}).

Definition run_query {template} (q : PdStardogQuery template) (db : DB)
  : M (PdStardogQuery template) :=
  fun w =>
    let (r, c) := execute q db (calls w) in
    (r, {| self := self w; calls := c |}).

Declare Scope py_scope.
Delimit Scope py_scope with py.
Notation "x <- m ;; k" := (bind m (fun x => k))
  (at level 61, m at next level, right associativity) : py_scope.
Notation "m ;; k" := (bind m (fun _ => k))
  (at level 61, right associativity) : py_scope.
Local Open Scope py_scope.

Fixpoint for_each {A B} (f : A -> M B) (l : list A) : M (list B) :=
  match l with
  | [] => ret []
  | a :: l' => b <- f a ;; bs <- for_each f l' ;; ret (b :: bs)
  end.

(** [if x:] on an attribute that may be [None]: the value when it is
    truthy. *)
Definition if_truthy {A} (t : A -> bool) (o : option A) : option A :=
  match o with
  | Some a => if t a then Some a else None
  | None => None
  end.

(** [query.results.simplify(mapping)]; a query that was never executed has
    no results to simplify. *)
Definition simplify_results {template} (mapping : Mapping) (q : PdStardogQuery template)
  : result (list binding) :=
  match results q with
  | Some rs => simplify mapping rs
  | None => Raise AttributeError
  end.

Definition no_uri : exn :=
  Exception "No URI of the poem specified. Can not get any attributes.".

Definition no_database : exn :=
  Exception "Database Connection not available.".

(** *** Basic metadata *)

Definition get_title : M binding :=
  p <- get_self ;;
  match if_truthy truthy_binding (title p) with
  | Some t => ret t
  | None =>
      match database p with
      | Some db =>
          match if_truthy truthy_str (uri p) with
          | Some u =>
              q <- lift (inject (sparql_title p) [u]) ;;
              assign (set_sparql_title q)
          | None => raise no_uri
          end ;;
          p <- get_self ;;
          q <- run_query (sparql_title p) db ;;
          assign (set_sparql_title q) ;;
          title_list <- lift (simplify_results [] q) ;;
          if Nat.eqb (List.length title_list) 1 then
            t <- lift (getitem_list title_list 0) ;;
            assign (set_title (Some t)) ;;
            ret t
          else raise (Exception "Poem has multiple titles. Not implemented.")
      | None => raise no_database
      end
  end.

Definition get_creation_year : M (option binding) :=
  p <- get_self ;;
  match if_truthy truthy_binding (creation_year p) with
  | Some y => ret (Some y)
  | None =>
      match database p with
      | Some db =>
          match if_truthy truthy_str (uri p) with
          | Some u =>
              q <- lift (inject (sparql_creation_year p) [u]) ;;
              assign (set_sparql_creation_year q)
          | None => raise no_uri
          end ;;
          p <- get_self ;;
          q <- run_query (sparql_creation_year p) db ;;
          assign (set_sparql_creation_year q) ;;
          data <- lift (simplify_results [] q) ;;
          (if Nat.eqb (List.length data) 0 then
             assign (set_creation_year None)
           else if Nat.eqb (List.length data) 1 then
             y <- lift (getitem_list data 0) ;;
             assign (set_creation_year (Some y))
           else raise (Exception "Multiple values for creation year. Not implemented.")) ;;
          p <- get_self ;;
          ret (creation_year p)
      | None => raise no_database
      end
  end.

Definition split_uri_in_author_poem_parts : M (list string) :=
  p <- get_self ;;
  match if_truthy truthy_str (uri p) with
  | Some u =>
      author_part <- lift (getitem_list (split "_" u) 1) ;;
      poem_part <- lift (getitem_list (split "_" u) 2) ;;
      ret [author_part; poem_part]
  | None => raise (Exception "URI of the poem has not been defined.")
  end.

Definition get_poetry_lab_url (base_url lang : string) : M string :=
  p <- get_self ;;
  match if_truthy truthy_str (poetry_lab_url p) with
  | Some url => ret url
  | None =>
      author_poem <- split_uri_in_author_poem_parts ;;
      author_part <- lift (getitem_list author_poem 0) ;;
      poem_part <- lift (getitem_list author_poem 1) ;;
      let url := base_url ++ "/" ++ lang ++ "/author/" ++ author_part
                 ++ "/poetic-work/" ++ poem_part in
      assign (set_poetry_lab_url (Some url)) ;;
      ret url
  end.

Definition get_author_uris : M (option (list binding)) :=
  p <- get_self ;;
  match if_truthy truthy_list (author_uris p) with
  | Some l => ret (Some l)
  | None =>
      match database p with
      | Some db =>
          match if_truthy truthy_str (uri p) with
          | Some u =>
              q <- lift (inject (sparql_author_uris p) [u]) ;;
              assign (set_sparql_author_uris q)
          | None => raise no_uri
          end ;;
          p <- get_self ;;
          q <- run_query (sparql_author_uris p) db ;;
          assign (set_sparql_author_uris q) ;;
          data <- lift (simplify_results [] q) ;;
          (if Nat.eqb (List.length data) 0 then
             assign (set_author_uris None)
           else assign (set_author_uris (Some data))) ;;
          p <- get_self ;;
          ret (author_uris p)
      | None => raise no_database
      end
  end.

Definition load_authors : M bool :=
  p <- get_self ;;
  match if_truthy truthy_list (author_uris p) with
  | Some _ => ret tt
  | None => get_author_uris ;; ret tt
  end ;;
  p <- get_self ;;
  match if_truthy truthy_list (author_uris p) with
  | Some uris =>
      assign (set_authors
                (Some (map (fun u => {| author_uri := u; author_database := database p |}) uris))) ;;
      ret true
  | None =>
      assign (set_authors None) ;;
      ret false
  end.

(** [__init__], with the [shorthash] of the absent [util] module as a
    parameter.  The identifier and the name are derived once, here. *)
Definition init (shorthash : string -> string) (uri_arg : option string)
    (database_arg : option DB) : result PostdataPoem :=
  let uri' := if_truthy truthy_str uri_arg in
  rbind
    match uri' with
    | Some u =>
        rbind (getitem_list (split "_" u) 1) (fun author_part =>
        rbind (getitem_list (split "_" u) 2) (fun poem_part =>
        Ok (Some (shorthash u), Some (join "_" [author_part; poem_part]))))
    | None => Ok (None, None)
    end
    (fun id_name =>
       Ok {| uri := uri';
             database := database_arg;
             id := fst id_name;
             name := snd id_name;
             title := None;
             creation_year := None;
             poetry_lab_url := None;
             author_uris := None;
             authors := None;
             automatic_analysis := None;
             sparql_title := new_query PoemTitle;
             sparql_creation_year := new_query PoemCreationYear;
             sparql_author_uris := new_query PoemAuthorUris |}).

(** *** Grouping by stanzas *)

(** The conversion the datatype flag selects. *)
Definition coerce (value_datatype : string) (raw : scalar) : result scalar :=
  if String.eqb value_datatype "int" || String.eqb value_datatype "Integer" then
    rmap SInt (py_int raw)
  else if String.eqb value_datatype "str" || String.eqb value_datatype "String" then
    rmap SStr (py_str raw)
  else Ok raw.

(** The three local variables of [__group_feature_by_stanzas]. *)
Record Grouping : Type := {
  grouped_results : list (list scalar);
  stanza : list scalar;
  current_stanza : scalar
}.

(** What the loop reads from a binding: the stanza number and the converted
    value. *)
Definition read_binding (stanza_number_field_key value_field_key value_datatype : string)
    (b : binding) : result (scalar * scalar) :=
  rbind (getitem b stanza_number_field_key) (fun stanza_number =>
  rbind (getitem b value_field_key) (fun raw =>
  rbind (coerce value_datatype raw) (fun value =>
  Ok (stanza_number, value)))).

(** What the loop does with them. *)
Definition place (g : Grouping) (row : scalar * scalar) : result Grouping :=
  let (stanza_number, value) := row in
  if py_eq (current_stanza g) stanza_number then
    Ok {| grouped_results := grouped_results g;
          stanza := stanza g ++ [value];
          current_stanza := current_stanza g |}
  else
    rbind (py_int (current_stanza g)) (fun n =>
    Ok {| grouped_results :=
            if 0 <? n then grouped_results g ++ [stanza g] else grouped_results g;
          stanza := [value];
          current_stanza := stanza_number |}).

Definition loop_body (stanza_number_field_key value_field_key value_datatype : string)
    (g : Grouping) (b : binding) : result Grouping :=
  rbind (read_binding stanza_number_field_key value_field_key value_datatype b) (place g).

Fixpoint for_loop {S A} (body : S -> A -> result S) (s : S) (l : list A) : result S :=
  match l with
  | [] => Ok s
  | a :: l' => rbind (body s a) (fun s' => for_loop body s' l')
  end.

Definition start : Grouping :=
  {| grouped_results := []; stanza := []; current_stanza := SInt 0 |}.

Definition finish (g : Grouping) : list (list scalar) :=
  grouped_results g ++ [stanza g].

(** [__group_feature_by_stanzas] *)
Definition group_feature_by_stanzas (simplified_sparql_results : list binding)
    (stanza_number_field_key value_field_key value_datatype : string)
  : result (list (list scalar)) :=
  rmap finish
    (for_loop (loop_body stanza_number_field_key value_field_key value_datatype)
       start simplified_sparql_results).

(** *** The automatic analysis *)

(** [__execute_sparql_query] *)
Definition execute_sparql_query {template} (sparql_query : PdStardogQuery template)
  : M SparqlResults :=
  p <- get_self ;;
  match database p with
  | Some db =>
      q <- match if_truthy truthy_str (uri p) with
           | Some u => lift (inject sparql_query [u])
           | None => raise no_uri
           end ;;
      q <- run_query q db ;;
      match results q with
      | Some rs => ret rs
      | None => raise AttributeError
      end
  | None => raise no_database
  end.

(** The block the methods that do not go through [__execute_sparql_query]
    repeat: check the connection, bind, execute. *)
Definition bind_and_execute {template} (query : PdStardogQuery template)
    (params : string -> list string) : M (PdStardogQuery template) :=
  p <- get_self ;;
  match database p with
  | Some db =>
      q <- match if_truthy truthy_str (uri p) with
           | Some u => lift (inject query (params u))
           | None => raise no_uri
           end ;;
      run_query q db
  | None => raise no_database
  end.

(** [mapping = {"count": {"datatype": "int"}}] *)
Definition count_mapping : Mapping := [("count", "int")].

Definition get_automatic_scansion_uri : M binding :=
  results <- execute_sparql_query (new_query PoemAutomaticScansionUri) ;;
  l <- lift (simplify [] results) ;;
  lift (getitem_list l 0).

Definition get_number_of_stanzas : M binding :=
  results <- execute_sparql_query (new_query PoemCountStanzas) ;;
  l <- lift (simplify count_mapping results) ;;
  lift (getitem_list l 0).

Definition get_number_of_lines : M binding :=
  results <- execute_sparql_query (new_query PoemCountLines) ;;
  l <- lift (simplify count_mapping results) ;;
  lift (getitem_list l 0).

Definition get_number_of_words : M binding :=
  results <- execute_sparql_query (new_query PoemCountWords) ;;
  l <- lift (simplify count_mapping results) ;;
  lift (getitem_list l 0).

Definition syllable_type_prop (syllable_type : string) : result string :=
  if String.eqb syllable_type "metrical" then Ok "pdp:hasMetricalSyllable"
  else if String.eqb syllable_type "grammatical" then Ok "pdp:hasGrammaticalSyllable"
  else Raise (Exception "Syllable Type is not valid.").

Definition get_number_of_syllables (syllable_type : string) : M binding :=
  prop <- lift (syllable_type_prop syllable_type) ;;
  query <- bind_and_execute (new_query PoemCountSyllables) (fun u => [u; prop]) ;;
  l <- lift (simplify_results count_mapping query) ;;
  lift (getitem_list l 0).

Definition get_number_of_lines_in_stanzas : M (list binding) :=
  results <- execute_sparql_query (new_query PoemCountLinesInStanzas) ;;
  lift (simplify count_mapping results).

Definition get_rhyme_schemes_of_stanzas : M (list binding) :=
  results <- execute_sparql_query (new_query PoemRhymeSchemesOfStanzas) ;;
  lift (simplify [] results).

Definition get_number_of_syllables_in_stanzas (syllable_type : string)
  : M (list (list scalar)) :=
  prop <- lift (syllable_type_prop syllable_type) ;;
  query <- bind_and_execute (new_query PoemCountSyllablesInStanzas) (fun u => [u; prop]) ;;
  l <- lift (simplify_results [] query) ;;
  lift (group_feature_by_stanzas l "StanzaNo" "count" "int").

Definition get_number_of_words_in_stanzas : M (list (list scalar)) :=
  query <- bind_and_execute (new_query PoemCountWordsInStanzas) (fun u => [u]) ;;
  l <- lift (simplify_results [] query) ;;
  lift (group_feature_by_stanzas l "StanzaNo" "count" "int").

Definition get_grammatical_stress_patterns_in_stanzas : M (list (list scalar)) :=
  query <- bind_and_execute (new_query PoemGrammaticalStressPatternsInStanzas) (fun u => [u]) ;;
  l <- lift (simplify_results [] query) ;;
  lift (group_feature_by_stanzas l "StanzaNumber" "grammaticalStressPattern" "str").

Definition get_metrical_patterns_in_stanzas : M (list (list scalar)) :=
  query <- bind_and_execute (new_query PoemMetricalPatternsInStanzas) (fun u => [u]) ;;
  l <- lift (simplify_results [] query) ;;
  lift (group_feature_by_stanzas l "StanzaNumber" "metricalPattern" "str").

Definition of_bindings (l : list binding) : pyval := PyList (map of_binding l).

Definition of_stanzas (l : list (list scalar)) : pyval :=
  PyList (map (fun st => PyList (map of_scalar st)) l).

(** The thirteen sub-steps of [get_analysis], each serialised under the key
    it fills, in the order the dict is built. *)
Definition analysis_steps : list (string * M pyval) :=
  [ ("source", u <- get_automatic_scansion_uri ;; ret (PyDict [("uri", of_binding u)]));
    ("numOfStanzas", n <- get_number_of_stanzas ;; ret (of_binding n));
    ("numOfLines", n <- get_number_of_lines ;; ret (of_binding n));
    ("numOfWords", n <- get_number_of_words ;; ret (of_binding n));
    ("numOfLinesInStanzas", l <- get_number_of_lines_in_stanzas ;; ret (of_bindings l));
    ("rhymeSchemesOfStanzas", l <- get_rhyme_schemes_of_stanzas ;; ret (of_bindings l));
    ("numOfMetricalSyllables", n <- get_number_of_syllables "metrical" ;; ret (of_binding n));
    ("numOfGrammaticalSyllables",
      n <- get_number_of_syllables "grammatical" ;; ret (of_binding n));
    ("numOfMetricalSyllablesInStanzas",
      g <- get_number_of_syllables_in_stanzas "metrical" ;; ret (of_stanzas g));
    ("numOfGrammaticalSyllablesInStanzas",
      g <- get_number_of_syllables_in_stanzas "grammatical" ;; ret (of_stanzas g));
    ("numOfWordsInStanzas", g <- get_number_of_words_in_stanzas ;; ret (of_stanzas g));
    ("grammaticalStressPatternsInStanzas",
      g <- get_grammatical_stress_patterns_in_stanzas ;; ret (of_stanzas g));
    ("metricalPatternsInStanzas",
      g <- get_metrical_patterns_in_stanzas ;; ret (of_stanzas g)) ].

(** [dict(k1=e1, k2=e2, ...)]: the values are computed left to right. *)
Fixpoint build_dict (steps : list (string * M pyval)) : M (list (string * pyval)) :=
  match steps with
  | [] => ret []
  | (k, step) :: steps' =>
      v <- step ;;
      d <- build_dict steps' ;;
      ret ((k, v) :: d)
  end.

Definition get_analysis : M pyval :=
  p <- get_self ;;
  match if_truthy truthy (automatic_analysis p) with
  | Some a => ret a
  | None =>
      analysis <- build_dict analysis_steps ;;
      assign (set_automatic_analysis (Some (PyDict analysis))) ;;
      ret (PyDict analysis)
  end.

(** *** Serialisation *)

Section Serialisation.

(** The Author collaborator's [get_metadata()], which is not among the
    sources. *)
Variable PostdataAuthor_get_metadata : PostdataAuthor -> result pyval.

Definition get_metadata (include_authors include_analysis : bool)
  : M (list (string * pyval)) :=
  p <- get_self ;;
  source <- get_poetry_lab_url "http://poetry.linhd.uned.es:3000" "en" ;;
  let metadata :=
    [ ("id", of_option PyStr (id p));
      ("uri", of_option PyStr (uri p));
      ("name", of_option PyStr (name p));
      ("source", PyStr source);
      ("sourceUri", PyStr "POSTDATA Poetry Lab") ] in
  metadata <-
    (if include_authors then
       loaded <- load_authors ;;
       if loaded then
         p <- get_self ;;
         match authors p with
         | Some l =>
             items <- lift (traverse PostdataAuthor_get_metadata l) ;;
             ret (setitem "authors" (PyList items) metadata)
         | None => raise TypeError
         end
       else ret metadata
     else ret metadata) ;;
  if include_analysis then
    analysis <- get_analysis ;;
    ret (setitem "analysis" analysis metadata)
  else ret metadata.

End Serialisation.

End Poem.

(** ** The corpora route *)

Module Api.
Import Py.

(** What a Flask view returns: [jsonify(data)], or a [Response] with a body,
    a status and a mimetype. *)
Inductive Response : Type :=
| Jsonify (data : pyval)
| PlainResponse (body : string) (status : Z) (mimetype : string).

(** [get_corpora] of [src/api.py].  [args] is [request.args], read by key
    with its first value; [list_corpora] stands for the method of the
    [PostdataCorpora] object of the absent [core] module, called with the
    keyword [include_metrics] or without it. *)
Definition get_corpora (args : list (string * string))
    (list_corpora : option bool -> result pyval) : result Response :=
  let param_include :=
    match lookup "include" args with
    | Some v => Some v
    | None => None
    end in
  match param_include with
  | Some include =>
      if truthy_str include then
        if String.eqb include "metrics" then
          rmap Jsonify (list_corpora (Some true))
        else
          Ok (PlainResponse (include ++ " is not a valid value of parameter 'include'.")
                400 "text/plain")
      else rmap Jsonify (list_corpora None)
  | None => rmap Jsonify (list_corpora None)
  end.

End Api.

(** * Vocabulary of the properties *)

Module Spec.
Import Py Store Poem.
Local Open Scope list_scope.

(** The partition of a keyed sequence into its maximal runs of equal keys,
    as section 4.4 of the specification describes the result: stanzas in
    order, each with its rows in order. *)
Fixpoint runs (rows : list (scalar * scalar)) : list (list (scalar * scalar)) :=
  match rows with
  | [] => []
  | r :: rest =>
      match runs rest with
      | [] => [[r]]
      | run :: more =>
          match run with
          | r' :: _ => if py_eq (fst r) (fst r') then (r :: run) :: more else [r] :: run :: more
          | [] => [r] :: more
          end
      end
  end.

(** All rows of a stanza carry the same stanza number. *)
Definition one_stanza (c : list (scalar * scalar)) : Prop :=
  forall p q, In p c -> In q c -> fst p = fst q.

(** Neighbouring stanzas carry different stanza numbers. *)
Fixpoint boundaries (cs : list (list (scalar * scalar))) : Prop :=
  match cs with
  | [] => True
  | c1 :: cs' =>
      match cs' with
      | [] => True
      | c2 :: _ => forall p q, In p c1 -> In q c2 -> fst p <> fst q
      end /\ boundaries cs'
  end.

(** The stanza number is a positive integer, as an [int] or as its decimal
    string. *)
Definition positive_stanza (p : scalar * scalar) : Prop :=
  exists n, py_int (fst p) = Ok n /\ 0 < n.

(** The stanza number reads as the integer zero. *)
Definition zero_stanza (p : scalar * scalar) : Prop :=
  py_int (fst p) = Ok 0.

(** What [simplify()] without a mapping makes of a row. *)
Definition plain_row (flat : bool) (row : ResultRow) : binding :=
  match flat, row with
  | true, [cell] => Plain (SStr (snd cell))
  | _, _ => Row (map (fun cell => (fst cell, SStr (snd cell))) row)
  end.

(** Where a sequence of sub-steps first raises, if it does: the exception
    and the state at that point. *)
Fixpoint first_failure (steps : list (string * M pyval)) (w : World) : option (exn * World) :=
  match steps with
  | [] => None
  | (_, step) :: steps' =>
      match step w with
      | (Raise e, w') => Some (e, w')
      | (Ok _, w') => first_failure steps' w'
      end
  end.

(** A computation that leaves the poem object as it found it. *)
Definition keeps_self {A} (m : M A) : Prop :=
  forall w, self (snd (m w)) = self w.

(** What a row carries before any conversion: its stanza number and its
    value. *)
Definition raw_binding (stanza_number_field_key value_field_key : string) (b : binding)
  : result (scalar * scalar) :=
  rbind (getitem b stanza_number_field_key) (fun stanza_number =>
  rbind (getitem b value_field_key) (fun raw => Ok (stanza_number, raw))).

(** A datatype flag that is neither an integer nor a string flag. *)
Definition other_flag (value_datatype : string) : Prop :=
  String.eqb value_datatype "int" || String.eqb value_datatype "Integer" = false /\
  String.eqb value_datatype "str" || String.eqb value_datatype "String" = false.

(** A loop state with no empty stanza, neither emitted nor open. *)
Definition filled (g : Grouping) : Prop :=
  Forall (fun st => st <> []) (grouped_results g) /\ stanza g <> [].

(** [l1] is [l2] with some elements left out, the others in their order. *)
Inductive subseq {A} : list A -> list A -> Prop :=
| subseq_nil : subseq [] []
| subseq_take a l1 l2 : subseq l1 l2 -> subseq (a :: l1) (a :: l2)
| subseq_skip a l1 l2 : subseq l1 l2 -> subseq l1 (a :: l2).

(** A computation that sends nothing to the store. *)
Definition keeps_calls {A} (m : M A) : Prop :=
  forall w, calls (snd (m w)) = calls w.

(** The keys of the analysis record, in the order [get_analysis] fills
    them. *)
Definition analysis_keys : list string :=
  [ "source"; "numOfStanzas"; "numOfLines"; "numOfWords"; "numOfLinesInStanzas";
    "rhymeSchemesOfStanzas"; "numOfMetricalSyllables"; "numOfGrammaticalSyllables";
    "numOfMetricalSyllablesInStanzas"; "numOfGrammaticalSyllablesInStanzas";
    "numOfWordsInStanzas"; "grammaticalStressPatternsInStanzas";
    "metricalPatternsInStanzas" ].

(** The calls an uncached [get_analysis] sends for the poem [u], in their
    order. *)
Definition analysis_calls (u : string) : list Call :=
  [ (PoemAutomaticScansionUri, [u]);
    (PoemCountStanzas, [u]);
    (PoemCountLines, [u]);
    (PoemCountWords, [u]);
    (PoemCountLinesInStanzas, [u]);
    (PoemRhymeSchemesOfStanzas, [u]);
    (PoemCountSyllables, [u; "pdp:hasMetricalSyllable"]);
    (PoemCountSyllables, [u; "pdp:hasGrammaticalSyllable"]);
    (PoemCountSyllablesInStanzas, [u; "pdp:hasMetricalSyllable"]);
    (PoemCountSyllablesInStanzas, [u; "pdp:hasGrammaticalSyllable"]);
    (PoemCountWordsInStanzas, [u]);
    (PoemGrammaticalStressPatternsInStanzas, [u]);
    (PoemMetricalPatternsInStanzas, [u]) ].

(** A computation that leaves the whole state as it found it. *)
Definition keeps_world {A} (m : M A) : Prop :=
  forall w, snd (m w) = w.

(** A computation that, when it returns, has sent exactly the call [call u]
    for the poem [u] and left the poem object as it found it. *)
Definition sends {A} (call : string -> Call) (m : M A) : Prop :=
  forall w a w' u,
    m w = (Ok a, w') ->
    if_truthy truthy_str (uri (self w)) = Some u ->
    self w' = self w /\ calls w' = (calls w ++ [call u])%list.

(** A result row that carries a stanza number and a value under the given
    field names. *)
Definition stanza_row (stanza_key value_key : string) (cell : string * string) : ResultRow :=
  [(stanza_key, fst cell); (value_key, snd cell)].

End Spec.

(** * Stores and poems for concrete runs *)

Module Fixtures.
Import Py Store Poem.
Local Open Scope list_scope.

(** A row of the shape the literal cases use. *)
Definition row (stanza_number : Z) (value : string) : binding :=
  Row [("StanzaNo", SInt stanza_number); ("count", SStr value)].

(** A connection that answers every call from a fixed table. *)
Definition table_db (table : Query -> list string -> result SparqlResults) : DB :=
  {| answer := fun _ => table |}.

(** A stand-in for the hash of [util.shorthash] where poems are built for
    concrete runs; no property here depends on the identifier. *)
Definition fixed_hash (_ : string) : string := "0a1b2c3d".

Definition poem_uri : string :=
  "http://postdata.linhd.uned.es/resource/pw_juana-ines-de-la-cruz_sabras-querido-fabio".

(** The poem [PostdataPoem(poem_uri, db)] and the world in which it has
    just been constructed. *)
Definition new_poem (db : DB) : PostdataPoem :=
  {| uri := Some poem_uri;
     database := Some db;
     id := Some (fixed_hash poem_uri);
     name := Some "juana-ines-de-la-cruz_sabras-querido-fabio";
     title := None;
     creation_year := None;
     poetry_lab_url := None;
     author_uris := None;
     authors := None;
     automatic_analysis := None;
     sparql_title := new_query PoemTitle;
     sparql_creation_year := new_query PoemCreationYear;
     sparql_author_uris := new_query PoemAuthorUris |}.

Definition new_world (db : DB) : World :=
  {| self := new_poem db; calls := [] |}.

(** A store with two titles and two creation years for every poem. *)
Definition ambiguous_db : DB :=
  table_db (fun q _ =>
    match q with
    | PoemTitle => Ok [[("title", "Sabras, querido Fabio")]; [("title", "Soneto")]]
    | PoemCreationYear => Ok [[("year", "1689")]; [("year", "1690?")]]
    | _ => Ok []
    end).

(** A store that knows nothing about any poem. *)
Definition empty_db : DB := table_db (fun _ _ => Ok []).

(** A store with two automatic scansions of every poem. *)
Definition two_scansions_db : DB :=
  table_db (fun q _ =>
    match q with
    | PoemAutomaticScansionUri =>
        Ok [[("scansion", "http://postdata.linhd.uned.es/resource/sc_1")];
            [("scansion", "http://postdata.linhd.uned.es/resource/sc_2")]]
    | _ => Ok []
    end).

(** A store that holds a poem of two stanzas and three lines. *)
Definition stored_poem_db : DB :=
  table_db (fun q params =>
    match q with
    | PoemAutomaticScansionUri =>
        Ok [[("scansion", "http://postdata.linhd.uned.es/resource/sc_1")]]
    | PoemCountStanzas => Ok [[("count", "2")]]
    | PoemCountLines => Ok [[("count", "3")]]
    | PoemCountWords => Ok [[("count", "17")]]
    | PoemCountLinesInStanzas => Ok [[("count", "2")]; [("count", "1")]]
    | PoemRhymeSchemesOfStanzas => Ok [[("rhymeScheme", "aa")]; [("rhymeScheme", "-")]]
    | PoemCountSyllables =>
        match params with
        | [_; "pdp:hasMetricalSyllable"] => Ok [[("count", "33")]]
        | _ => Ok [[("count", "35")]]
        end
    | PoemCountSyllablesInStanzas =>
        Ok [[("StanzaNo", "1"); ("count", "11")];
            [("StanzaNo", "1"); ("count", "11")];
            [("StanzaNo", "2"); ("count", "11")]]
    | PoemCountWordsInStanzas =>
        Ok [[("StanzaNo", "1"); ("count", "4")];
            [("StanzaNo", "1"); ("count", "8")];
            [("StanzaNo", "2"); ("count", "5")]]
    | PoemGrammaticalStressPatternsInStanzas =>
        Ok [[("StanzaNumber", "1"); ("grammaticalStressPattern", "--+---+---+-")];
            [("StanzaNumber", "1"); ("grammaticalStressPattern", "+-+---+-+-+-")];
            [("StanzaNumber", "2"); ("grammaticalStressPattern", "++---+---+-")]]
    | PoemMetricalPatternsInStanzas =>
        Ok [[("StanzaNumber", "1"); ("metricalPattern", "--+--+---+-")];
            [("StanzaNumber", "1"); ("metricalPattern", "+-+--+-+-+-")];
            [("StanzaNumber", "2"); ("metricalPattern", "++---+---+-")]]
    | _ => Ok []
    end).

(** The same store with the stanza count out of reach. *)
Definition failing_db : DB :=
  table_db (fun q params =>
    match q with
    | PoemCountStanzas => Raise (StoreError "connection reset")
    | _ => answer stored_poem_db [] q params
    end).

(** [PostdataPoem(poem_uri)], constructed without a connection. *)
Definition poem_without_database : PostdataPoem :=
  {| uri := Some poem_uri;
     database := None;
     id := Some (fixed_hash poem_uri);
     name := Some "juana-ines-de-la-cruz_sabras-querido-fabio";
     title := None;
     creation_year := None;
     poetry_lab_url := None;
     author_uris := None;
     authors := None;
     automatic_analysis := None;
     sparql_title := new_query PoemTitle;
     sparql_creation_year := new_query PoemCreationYear;
     sparql_author_uris := new_query PoemAuthorUris |}.

(** [PostdataPoem(database=db)], constructed without a URI. *)
Definition poem_without_uri (db : DB) : PostdataPoem :=
  {| uri := None;
     database := Some db;
     id := None;
     name := None;
     title := None;
     creation_year := None;
     poetry_lab_url := None;
     author_uris := None;
     authors := None;
     automatic_analysis := None;
     sparql_title := new_query PoemTitle;
     sparql_creation_year := new_query PoemCreationYear;
     sparql_author_uris := new_query PoemAuthorUris |}.

(** A store that answers every pattern query with the same three lines. *)
Definition pattern_db : DB :=
  table_db (fun q _ =>
    match q with
    | PoemMetricalPatternsInStanzas =>
        Ok [[("StanzaNumber", "1"); ("metricalPattern", "--+---+---+-")];
            [("StanzaNumber", "1"); ("metricalPattern", "+-+---+-+-+-")];
            [("StanzaNumber", "2"); ("metricalPattern", "++---+---+-")]]
    | _ => Ok []
    end).

(** A store with two authors for every poem. *)
Definition two_authors_db : DB :=
  table_db (fun q _ =>
    match q with
    | PoemAuthorUris =>
        Ok [[("author", "http://postdata.linhd.uned.es/resource/p_juana")];
            [("author", "http://postdata.linhd.uned.es/resource/p_anon")]]
    | _ => Ok []
    end).

(** A poem object whose URI has two segments only; the constructor
    refuses such a URI, so the attribute was assigned afterwards. *)
Definition poem_with_short_uri : PostdataPoem :=
  {| uri := Some "http://postdata.linhd.uned.es/resource/pw_anonymous";
     database := Some empty_db;
     id := None;
     name := None;
     title := None;
     creation_year := None;
     poetry_lab_url := None;
     author_uris := None;
     authors := None;
     automatic_analysis := None;
     sparql_title := new_query PoemTitle;
     sparql_creation_year := new_query PoemCreationYear;
     sparql_author_uris := new_query PoemAuthorUris |}.

(** The analysis record of the poem in [stored_poem_db]. *)
Definition stored_poem_analysis : pyval :=
  Eval vm_compute in
    match fst (get_analysis (new_world stored_poem_db)) with
    | Ok r => r
    | Raise _ => PyNone
    end.

End Fixtures.

(** * Properties *)

Unset Implicit Arguments.

(** ** The stanza grouping engine *)

Module StanzaGrouping.
Import Py Store Poem Spec Fixtures.
Local Open Scope list_scope.

Lemma py_eq_true a b : py_eq a b = true <-> a = b.
Proof.
  destruct a as [x|s], b as [y|t]; simpl; split; intros H; try discriminate.
  - apply Z.eqb_eq in H. now subst.
  - injection H as ->. apply Z.eqb_refl.
  - apply String.eqb_eq in H. now subst.
  - injection H as ->. apply String.eqb_refl.
Qed.

Lemma py_eq_false a b : py_eq a b = false <-> a <> b.
Proof.
  split.
  - intros H E. apply py_eq_true in E. congruence.
  - intros H. destruct (py_eq a b) eqn:E; [|reflexivity].
    apply py_eq_true in E. contradiction.
Qed.

Lemma py_eq_refl a : py_eq a a = true.
Proof. now apply py_eq_true. Qed.

(** *** The runs of a sequence *)

Lemma runs_concat rows : List.concat (runs rows) = rows.
Proof.
  induction rows as [|r rest IH]; simpl; [reflexivity|].
  destruct (runs rest) as [|run more]; simpl in *.
  - now subst.
  - destruct run as [|r' run]; simpl in *; [now subst|].
    destruct (py_eq (fst r) (fst r')); simpl; now rewrite IH.
Qed.

Lemma runs_nonempty rows : Forall (fun c => c <> []) (runs rows).
Proof.
  induction rows as [|r rest IH]; simpl; [constructor|].
  destruct (runs rest) as [|run more]; [repeat constructor; discriminate|].
  inversion IH as [|? ? Hrun Hmore]; subst.
  destruct run as [|r' run]; [contradiction|].
  destruct (py_eq (fst r) (fst r')); repeat constructor; auto; discriminate.
Qed.

Lemma one_stanza_single r : one_stanza [r].
Proof. intros p q [<-|[]] [<-|[]]. reflexivity. Qed.

Lemma one_stanza_cons r r' run :
  fst r = fst r' -> one_stanza (r' :: run) -> one_stanza (r :: r' :: run).
Proof.
  intros E H p q Hp Hq.
  assert (K : forall x, In x (r :: r' :: run) -> fst x = fst r').
  { intros x [<-|Hx]; [exact E|]. apply H; [exact Hx|now left]. }
  now rewrite (K p Hp), (K q Hq).
Qed.

Lemma runs_one_stanza rows : Forall one_stanza (runs rows).
Proof.
  induction rows as [|r rest IH]; simpl; [constructor|].
  destruct (runs rest) as [|run more]; [repeat constructor; apply one_stanza_single|].
  inversion IH as [|? ? Hrun Hmore]; subst.
  destruct run as [|r' run]; [constructor; [apply one_stanza_single|assumption]|].
  destruct (py_eq (fst r) (fst r')) eqn:E.
  - apply py_eq_true in E. constructor; [|assumption].
    now apply one_stanza_cons.
  - repeat constructor; auto. apply one_stanza_single.
Qed.

Lemma runs_boundaries rows : boundaries (runs rows).
Proof.
  induction rows as [|r rest IH]; simpl; [exact I|].
  pose proof (runs_one_stanza rest) as Hone.
  pose proof (runs_nonempty rest) as Hne.
  destruct (runs rest) as [|run more]; [simpl; auto|].
  inversion Hone as [|? ? Hrun _]; subst.
  inversion Hne as [|? ? Hrun' _]; subst.
  destruct run as [|r' run]; [contradiction|].
  destruct (py_eq (fst r) (fst r')) eqn:E.
  - apply py_eq_true in E. destruct IH as [Hb IH]. split; [|exact IH].
    destruct more as [|c2 more]; [exact I|].
    intros p q [<-|Hp] Hq.
    + rewrite E. apply Hb; [now left|exact Hq].
    + apply Hb; assumption.
  - apply py_eq_false in E. split; [|exact IH].
    intros p q [<-|[]] Hq.
    rewrite (Hrun q r' Hq (or_introl eq_refl)). exact E.
Qed.

Lemma runs_cons r rest : exists run more, runs (r :: rest) = (r :: run) :: more.
Proof.
  simpl. destruct (runs rest) as [|[|r' run] more]; eauto.
  destruct (py_eq (fst r) (fst r')); eauto.
Qed.

Lemma runs_same_stanza c acc :
  acc <> [] -> (forall q, In q acc -> fst q = c) -> runs acc = [acc].
Proof.
  induction acc as [|a acc IH]; intros Hne Hc; [contradiction|].
  destruct acc as [|a' acc]; [reflexivity|].
  change (runs (a :: a' :: acc)) with
    (match runs (a' :: acc) with
     | [] => [[a]]
     | run :: more =>
         match run with
         | r' :: _ => if py_eq (fst a) (fst r') then (a :: run) :: more else [a] :: run :: more
         | [] => [a] :: more
         end
     end).
  rewrite IH; [|discriminate|intros q Hq; apply Hc; now right].
  rewrite (Hc a (or_introl eq_refl)), (Hc a' (or_intror (or_introl eq_refl))).
  now rewrite py_eq_refl.
Qed.

Lemma runs_app_boundary c acc r rest :
  acc <> [] -> (forall q, In q acc -> fst q = c) -> fst r <> c ->
  runs (acc ++ r :: rest) = acc :: runs (r :: rest).
Proof.
  induction acc as [|a acc IH]; intros Hne Hc Hr; [contradiction|].
  destruct acc as [|a' acc].
  - change (runs ([a] ++ r :: rest)) with
      (match runs (r :: rest) with
       | [] => [[a]]
       | run :: more =>
           match run with
           | r' :: _ => if py_eq (fst a) (fst r') then (a :: run) :: more else [a] :: run :: more
           | [] => [a] :: more
           end
       end).
    destruct (runs_cons r rest) as (run & more & ->).
    rewrite (Hc a (or_introl eq_refl)).
    assert (E : py_eq c (fst r) = false) by (apply py_eq_false; congruence).
    now rewrite E.
  - change (runs ((a :: a' :: acc) ++ r :: rest)) with
      (match runs ((a' :: acc) ++ r :: rest) with
       | [] => [[a]]
       | run :: more =>
           match run with
           | r' :: _ => if py_eq (fst a) (fst r') then (a :: run) :: more else [a] :: run :: more
           | [] => [a] :: more
           end
       end).
    rewrite IH; [|discriminate|intros q Hq; apply Hc; now right|exact Hr].
    rewrite (Hc a (or_introl eq_refl)), (Hc a' (or_intror (or_introl eq_refl))).
    now rewrite py_eq_refl.
Qed.

(** *** The loop *)

Lemma for_loop_read key vkey dt rows : forall pairs g,
  traverse (read_binding key vkey dt) rows = Ok pairs ->
  for_loop (loop_body key vkey dt) g rows = for_loop place g pairs.
Proof.
  induction rows as [|b rows IH]; intros pairs g H; simpl in H.
  - injection H as <-. reflexivity.
  - destruct (read_binding key vkey dt b) as [p|e] eqn:Hb; simpl in H; [|discriminate].
    destruct (traverse (read_binding key vkey dt) rows) as [ps|e] eqn:Hr; simpl in H;
      [|discriminate].
    injection H as <-. simpl. unfold loop_body at 1. rewrite Hb. simpl.
    destruct (place g p) as [g'|e]; simpl; [|reflexivity].
    now apply IH.
Qed.

Lemma for_loop_cons {S A} (body : S -> A -> result S) s a l :
  for_loop body s (a :: l) = rbind (body s a) (fun s' => for_loop body s' l).
Proof. reflexivity. Qed.

Lemma place_same g sn v :
  py_eq (current_stanza g) sn = true ->
  place g (sn, v) =
  Ok {| grouped_results := grouped_results g;
        stanza := stanza g ++ [v];
        current_stanza := current_stanza g |}.
Proof. intros E. unfold place. now rewrite E. Qed.

Lemma place_next g sn v n :
  py_eq (current_stanza g) sn = false ->
  py_int (current_stanza g) = Ok n ->
  place g (sn, v) =
  Ok {| grouped_results := if 0 <? n then grouped_results g ++ [stanza g] else grouped_results g;
        stanza := [v];
        current_stanza := sn |}.
Proof. intros E H. unfold place. now rewrite E, H. Qed.

(** With an open stanza [acc] numbered [c], the loop over rows with positive
    stanza numbers ends with the runs of [acc ++ pairs] after what was
    already emitted. *)
Lemma place_loop_runs pairs : forall emitted acc c,
  acc <> [] -> (forall q, In q acc -> fst q = c) ->
  (exists n, py_int c = Ok n /\ 0 < n) ->
  Forall positive_stanza pairs ->
  exists g,
    for_loop place
      {| grouped_results := emitted; stanza := map snd acc; current_stanza := c |} pairs = Ok g /\
    finish g = (emitted ++ map (map snd) (runs (acc ++ pairs)))%list.
Proof.
  induction pairs as [|[sn v] pairs IH]; intros emitted acc c Hne Hc Hpos Hall.
  - eexists; split; [reflexivity|].
    rewrite app_nil_r, (runs_same_stanza c acc Hne Hc). reflexivity.
  - inversion Hall as [|? ? Hp Hall']; subst. simpl.
    destruct (py_eq c sn) eqn:E.
    + apply py_eq_true in E. subst sn. simpl.
      destruct (IH emitted (acc ++ [(c, v)])%list c) as (g & Hg & Hf); auto.
      * now destruct acc.
      * intros q Hq. apply in_app_or in Hq as [Hq|[<-|[]]]; auto.
      * exists g. rewrite map_app in Hg. split; [exact Hg|].
        now rewrite <- app_assoc in Hf.
    + destruct Hpos as (n & Hn & Hgt). rewrite Hn. simpl.
      assert (L : (0 <? n) = true) by now apply Z.ltb_lt.
      rewrite L.
      destruct (IH (emitted ++ [map snd acc])%list [(sn, v)] sn) as (g & Hg & Hf); auto.
      * discriminate.
      * now intros q [<-|[]].
      * exists g. split; [exact Hg|].
        rewrite Hf, <- app_assoc. f_equal.
        rewrite (runs_app_boundary c acc (sn, v) pairs); auto.
        apply py_eq_false in E. simpl. congruence.
Qed.

(** From the start, rows with positive stanza numbers come out as their
    runs. *)
Lemma place_loop_start r pairs :
  Forall positive_stanza (r :: pairs) ->
  exists g,
    for_loop place start (r :: pairs) = Ok g /\
    finish g = map (map snd) (runs (r :: pairs)).
Proof.
  intros Hall. inversion Hall as [|? ? Hr Hall']; subst.
  destruct r as [sn v].
  assert (E : py_eq (current_stanza start) sn = false).
  { apply py_eq_false. intros <-. destruct Hr as (n & Hn & Hgt).
    simpl in Hn. injection Hn as <-. lia. }
  rewrite for_loop_cons, (place_next start sn v 0 E eq_refl).
  cbn [rbind Z.ltb Z.compare grouped_results start].
  destruct (place_loop_runs pairs [] [(sn, v)] sn) as (g & Hg & Hf); auto.
  - discriminate.
  - now intros q [<-|[]].
  - exists g. split; [exact Hg|exact Hf].
Qed.

(** Rows whose stanza numbers read as zero never get a stanza emitted: the
    loop stays at an empty output with a marker that reads as zero, the
    stanza number of one of the rows if there are any. *)
Lemma place_loop_zero zs : forall acc c,
  py_int c = Ok 0 ->
  Forall zero_stanza zs ->
  exists acc' c',
    for_loop place {| grouped_results := []; stanza := acc; current_stanza := c |} zs =
    Ok {| grouped_results := []; stanza := acc'; current_stanza := c' |} /\
    py_int c' = Ok 0 /\
    ((zs = [] /\ acc' = acc /\ c' = c) \/ In c' (map fst zs)).
Proof.
  induction zs as [|[sn v] zs IH]; intros acc c Hc Hall.
  - exists acc, c. split; [reflexivity|]. split; [exact Hc|]. left. auto.
  - inversion Hall as [|? ? Hz Hall']; subst. rewrite for_loop_cons.
    destruct (py_eq c sn) eqn:E.
    + rewrite (place_same {| grouped_results := []; stanza := acc; current_stanza := c |}
                 sn v E).
      cbn [rbind current_stanza grouped_results stanza].
      apply py_eq_true in E. subst sn.
      destruct (IH (acc ++ [v]) c Hc Hall') as (acc' & c' & Hloop & Hc' & Hin).
      exists acc', c'. split; [exact Hloop|]. split; [exact Hc'|]. right.
      destruct Hin as [(_ & _ & ->)|Hin]; [now left|now right].
    + rewrite (place_next {| grouped_results := []; stanza := acc; current_stanza := c |}
                 sn v 0 E Hc).
      cbn [rbind Z.ltb Z.compare grouped_results].
      destruct (IH [v] sn Hz Hall') as (acc' & c' & Hloop & Hc' & Hin).
      exists acc', c'. split; [exact Hloop|]. split; [exact Hc'|]. right.
      destruct Hin as [(_ & _ & ->)|Hin]; [now left|now right].
Qed.

Lemma for_loop_app {S A} (body : S -> A -> result S) l1 : forall s l2,
  for_loop body s (l1 ++ l2) = rbind (for_loop body s l1) (fun s' => for_loop body s' l2).
Proof.
  induction l1 as [|a l1 IH]; intros s l2; simpl; [reflexivity|].
  destruct (body s a); simpl; [apply IH|reflexivity].
Qed.

Lemma coerce_int raw : coerce "int" raw = rmap SInt (py_int raw).
Proof. reflexivity. Qed.

Lemma coerce_other dt raw :
  String.eqb dt "int" || String.eqb dt "Integer" = false ->
  String.eqb dt "str" || String.eqb dt "String" = false ->
  coerce dt raw = Ok raw.
Proof. intros H1 H2. unfold coerce. now rewrite H1, H2. Qed.

Lemma coerce_not_int dt s :
  String.eqb dt "int" || String.eqb dt "Integer" = false ->
  coerce dt (SStr s) = Ok (SStr s).
Proof.
  intros H. unfold coerce. rewrite H.
  now destruct (String.eqb dt "str" || String.eqb dt "String").
Qed.

(** *** The claims on the grouping engine *)

(** C1, as stated, fails where a stanza is numbered 0: on the rows
    (0,"a"), (1,"b") the output is [["b"]], which is no partition of the
    input, so the statement for every input has a counterexample.  The
    literal input, whose values are no numerals, raises [ValueError] under
    the default flag "int". *)
Lemma group_feature_by_stanzas_loses_rows :
  traverse (read_binding "StanzaNo" "count" "str") [row 0 "a"; row 1 "b"] =
    Ok [(SInt 0, SStr "a"); (SInt 1, SStr "b")] /\
  group_feature_by_stanzas [row 0 "a"; row 1 "b"] "StanzaNo" "count" "str" = Ok [[SStr "b"]] /\
  group_feature_by_stanzas
    [row 1 "a"; row 1 "b"; row 2 "c"; row 2 "d"; row 2 "e"] "StanzaNo" "count" "int" =
    Raise ValueError /\
  ~ (forall key vkey dt rows pairs,
        traverse (read_binding key vkey dt) rows = Ok pairs ->
        exists chunks,
          group_feature_by_stanzas rows key vkey dt = Ok (map (map snd) chunks) /\
          List.concat chunks = pairs).
Proof.
  split; [reflexivity|]. split; [reflexivity|]. split; [reflexivity|].
  intros H.
  destruct (H "StanzaNo" "count" "str" [row 0 "a"; row 1 "b"] _ eq_refl)
    as (chunks & Hout & Hcat).
  vm_compute in Hout. injection Hout as Hout.
  destruct chunks as [|c [|c' chunks]]; try discriminate.
  simpl in Hout, Hcat. rewrite app_nil_r in Hcat. subst c. discriminate.
Qed.

(** C1 (amended): for every input whose rows carry a stanza number that is
    a positive integer and a value the datatype flag converts,
    [__group_feature_by_stanzas] returns the partition of the input into
    stanzas by stanza-number change: the stanzas concatenated are the input
    in its order, each stanza has one stanza number, neighbouring stanzas
    have different ones, and no stanza is empty unless the input is.  The
    literal input (1,"a"), (1,"b"), (2,"c"), (2,"d"), (2,"e") yields
    [["a","b"],["c","d","e"]] under every flag but the integer ones. *)
Theorem group_feature_by_stanzas_partitions :
  (forall key vkey dt rows pairs,
      traverse (read_binding key vkey dt) rows = Ok pairs ->
      Forall positive_stanza pairs ->
      exists chunks,
        group_feature_by_stanzas rows key vkey dt = Ok (map (map snd) chunks) /\
        List.concat chunks = pairs /\
        Forall one_stanza chunks /\
        boundaries chunks /\
        (pairs <> [] -> Forall (fun c => c <> []) chunks)) /\
  (forall dt,
      String.eqb dt "int" || String.eqb dt "Integer" = false ->
      group_feature_by_stanzas
        [row 1 "a"; row 1 "b"; row 2 "c"; row 2 "d"; row 2 "e"] "StanzaNo" "count" dt =
      Ok [[SStr "a"; SStr "b"]; [SStr "c"; SStr "d"; SStr "e"]]).
Proof.
  split.
  - intros key vkey dt rows pairs Hread Hpos.
    unfold group_feature_by_stanzas. rewrite (for_loop_read key vkey dt rows pairs start Hread).
    destruct pairs as [|r pairs].
    + exists [[]]. simpl.
      split; [reflexivity|]. split; [reflexivity|].
      split; [constructor; [intros p q []|constructor]|].
      split; [auto|]. intros H. now contradiction H.
    + destruct (place_loop_start r pairs Hpos) as (g & Hg & Hf).
      exists (runs (r :: pairs)). rewrite Hg. unfold rmap, rbind. rewrite Hf.
      split; [reflexivity|]. split; [apply runs_concat|].
      split; [apply runs_one_stanza|]. split; [apply runs_boundaries|].
      intros _. apply runs_nonempty.
  - intros dt Hdt. unfold group_feature_by_stanzas.
    rewrite (for_loop_read "StanzaNo" "count" dt _
               [(SInt 1, SStr "a"); (SInt 1, SStr "b"); (SInt 2, SStr "c");
                (SInt 2, SStr "d"); (SInt 2, SStr "e")]).
    + reflexivity.
    + unfold row, read_binding. simpl. rewrite !(coerce_not_int dt _ Hdt). reflexivity.
Qed.

Lemma group_feature_by_stanzas_partitions_witness :
  (exists chunks,
     group_feature_by_stanzas [row 1 "a"; row 2 "b"; row 2 "c"] "StanzaNo" "count" "str" =
       Ok (map (map snd) chunks) /\
     List.concat chunks = [(SInt 1, SStr "a"); (SInt 2, SStr "b"); (SInt 2, SStr "c")] /\
     Forall one_stanza chunks /\
     boundaries chunks /\
     ([(SInt 1, SStr "a"); (SInt 2, SStr "b"); (SInt 2, SStr "c")] <> [] ->
      Forall (fun c => c <> []) chunks)) /\
  group_feature_by_stanzas
    [row 1 "a"; row 1 "b"; row 2 "c"; row 2 "d"; row 2 "e"] "StanzaNo" "count" "str" =
  Ok [[SStr "a"; SStr "b"]; [SStr "c"; SStr "d"; SStr "e"]].
Proof.
  split.
  - apply (proj1 group_feature_by_stanzas_partitions "StanzaNo" "count" "str"
             [row 1 "a"; row 2 "b"; row 2 "c"]).
    + reflexivity.
    + repeat (constructor; [eexists; split; reflexivity|]). constructor.
  - apply (proj2 group_feature_by_stanzas_partitions "str"). reflexivity.
Defined.

(** C2: the final accumulator is appended whatever the loop did: every
    output ends with it, so no output is empty, and the empty input yields
    [[]], one stanza that is empty, under every choice of field keys and
    datatype flag. *)
Theorem group_feature_by_stanzas_empty :
  (forall rows key vkey dt out,
      group_feature_by_stanzas rows key vkey dt = Ok out ->
      exists g,
        for_loop (loop_body key vkey dt) start rows = Ok g /\
        out = grouped_results g ++ [stanza g]) /\
  (forall key vkey dt, group_feature_by_stanzas [] key vkey dt = Ok [[]]).
Proof.
  split.
  - intros rows key vkey dt out H. unfold group_feature_by_stanzas in H.
    destruct (for_loop (loop_body key vkey dt) start rows) as [g|e]; simpl in H.
    + injection H as <-. exists g. split; reflexivity.
    + discriminate.
  - intros key vkey dt. reflexivity.
Qed.

Lemma group_feature_by_stanzas_empty_witness :
  (exists g,
     for_loop (loop_body "StanzaNo" "count" "int") start [row 1 "11"; row 2 "9"] = Ok g /\
     [[SInt 11]; [SInt 9]] = grouped_results g ++ [stanza g]) /\
  group_feature_by_stanzas [] "StanzaNo" "count" "int" = Ok [[]].
Proof.
  split.
  - apply (proj1 group_feature_by_stanzas_empty [row 1 "11"; row 2 "9"]). reflexivity.
  - apply (proj2 group_feature_by_stanzas_empty).
Defined.

(** C9: leading rows whose stanza number is the sentinel value 0 (the
    integer, or a string [int()] reads as 0) leave no trace once a row with
    a different stanza number follows: the guard [int(current_stanza) > 0]
    keeps their accumulator out of the output, without an error, and the
    result is that of the input without them. *)
Theorem group_feature_by_stanzas_drops_stanza_zero key vkey dt zeros next rest zs sn v :
  traverse (read_binding key vkey dt) zeros = Ok zs ->
  Forall zero_stanza zs ->
  read_binding key vkey dt next = Ok (sn, v) ->
  Forall (fun p => fst p <> sn) zs ->
  group_feature_by_stanzas (zeros ++ next :: rest) key vkey dt =
  group_feature_by_stanzas (next :: rest) key vkey dt.
Proof.
  intros Hzs Hzero Hnext Hsn. unfold group_feature_by_stanzas. f_equal.
  rewrite for_loop_app, (for_loop_read key vkey dt zeros zs start Hzs).
  destruct (place_loop_zero zs [] (SInt 0) eq_refl Hzero)
    as (acc' & c' & Hloop & Hc' & Hin).
  fold start in Hloop. rewrite Hloop. cbn [rbind].
  destruct Hin as [(_ & -> & ->)|Hin]; [reflexivity|].
  apply in_map_iff in Hin as (p & <- & Hp).
  assert (E : py_eq (fst p) sn = false).
  { apply py_eq_false. exact (proj1 (Forall_forall _ zs) Hsn p Hp). }
  rewrite !for_loop_cons. unfold loop_body. rewrite Hnext. cbn [rbind].
  rewrite (place_next {| grouped_results := []; stanza := acc'; current_stanza := fst p |}
             sn v 0 E Hc').
  destruct (py_eq (current_stanza start) sn) eqn:E0.
  - rewrite (place_same start sn v E0). apply py_eq_true in E0. now rewrite <- E0.
  - rewrite (place_next start sn v 0 E0 eq_refl). reflexivity.
Qed.

Lemma group_feature_by_stanzas_drops_stanza_zero_witness :
  group_feature_by_stanzas ([row 0 "a"; row 0 "b"] ++ row 1 "c" :: [row 1 "d"; row 2 "e"])
    "StanzaNo" "count" "str" =
  group_feature_by_stanzas (row 1 "c" :: [row 1 "d"; row 2 "e"]) "StanzaNo" "count" "str".
Proof.
  apply (group_feature_by_stanzas_drops_stanza_zero "StanzaNo" "count" "str"
           [row 0 "a"; row 0 "b"] (row 1 "c") [row 1 "d"; row 2 "e"]
           [(SInt 0, SStr "a"); (SInt 0, SStr "b")] (SInt 1) (SStr "c")).
  - reflexivity.
  - repeat constructor.
  - reflexivity.
  - repeat constructor; discriminate.
Defined.

End StanzaGrouping.

(** ** The metadata accessors *)

Module Accessors.
Import Py Store Poem Spec Fixtures.
Local Open Scope list_scope.

Lemma new_poem_init db : init fixed_hash (Some poem_uri) (Some db) = Ok (new_poem db).
Proof. reflexivity. Qed.

Lemma traverse_total {A B} (f : A -> result B) (g : A -> B) l :
  (forall a, f a = Ok (g a)) -> traverse f l = Ok (map g l).
Proof.
  intros H. induction l as [|a l IH]; simpl; [reflexivity|].
  now rewrite H, IH.
Qed.

Lemma simplify_unmapped rs : simplify [] rs = Ok (map (plain_row (one_field rs)) rs).
Proof.
  unfold simplify. apply traverse_total. intros row.
  unfold simplify_row, plain_row.
  destruct (one_field rs); [destruct row as [|cell [|cell' row]]|]; simpl;
    try reflexivity;
    rewrite (traverse_total _ (fun cell => (fst cell, SStr (snd cell)))); reflexivity.
Qed.

Lemma run_query_ok {t} (q : PdStardogQuery t) db w rs :
  answer db (calls w) t (parameters q) = Ok rs ->
  run_query q db w =
  (Ok {| parameters := parameters q; results := Some rs |},
   {| self := self w; calls := calls w ++ [(t, parameters q)] |}).
Proof. intros H. unfold run_query, execute. now rewrite H. Qed.

Lemma length_not_one {A} (l : list A) : (1 < List.length l)%nat -> Nat.eqb (List.length l) 1 = false.
Proof. intros H. apply Nat.eqb_neq. lia. Qed.

Lemma length_not_zero {A} (l : list A) : (1 < List.length l)%nat -> Nat.eqb (List.length l) 0 = false.
Proof. intros H. apply Nat.eqb_neq. lia. Qed.

Ltac enter H1 H2 H3 :=
  unfold bind at 1, get_self at 1; rewrite H1, H2, H3;
  unfold bind, get_self, lift, assign, inject; cbn.

(** *** More than one row *)

Lemma get_title_not_one w db u rs :
  if_truthy truthy_binding (title (self w)) = None ->
  database (self w) = Some db ->
  if_truthy truthy_str (uri (self w)) = Some u ->
  answer db (calls w) PoemTitle [u] = Ok rs ->
  Nat.eqb (List.length rs) 1 = false ->
  get_title w =
  (Raise (Exception "Poem has multiple titles. Not implemented."),
   {| self := set_sparql_title {| parameters := [u]; results := Some rs |} (self w);
      calls := calls w ++ [(PoemTitle, [u])] |}).
Proof.
  intros Ht Hdb Hu Ha Hlen. unfold get_title. enter Ht Hdb Hu.
  rewrite (run_query_ok _ db _ rs) by exact Ha. cbn.
  rewrite simplify_unmapped, length_map, Hlen. reflexivity.
Qed.

Lemma get_creation_year_many w db u rs :
  if_truthy truthy_binding (creation_year (self w)) = None ->
  database (self w) = Some db ->
  if_truthy truthy_str (uri (self w)) = Some u ->
  answer db (calls w) PoemCreationYear [u] = Ok rs ->
  (1 < List.length rs)%nat ->
  get_creation_year w =
  (Raise (Exception "Multiple values for creation year. Not implemented."),
   {| self := set_sparql_creation_year {| parameters := [u]; results := Some rs |} (self w);
      calls := calls w ++ [(PoemCreationYear, [u])] |}).
Proof.
  intros Ht Hdb Hu Ha Hlen. unfold get_creation_year. enter Ht Hdb Hu.
  rewrite (run_query_ok _ db _ rs) by exact Ha. cbn.
  rewrite simplify_unmapped, length_map, (length_not_zero _ Hlen), (length_not_one _ Hlen).
  reflexivity.
Qed.

(** C4: when the query behind [get_title] or [get_creation_year] yields
    more than one row, the accessor raises its multiple-values exception;
    no row is picked, and the attribute stays as it was. *)
Theorem single_valued_accessors_raise_on_many_rows :
  (forall w db u rs,
      if_truthy truthy_binding (title (self w)) = None ->
      database (self w) = Some db ->
      if_truthy truthy_str (uri (self w)) = Some u ->
      answer db (calls w) PoemTitle [u] = Ok rs ->
      (1 < List.length rs)%nat ->
      exists w',
        get_title w = (Raise (Exception "Poem has multiple titles. Not implemented."), w') /\
        title (self w') = title (self w)) /\
  (forall w db u rs,
      if_truthy truthy_binding (creation_year (self w)) = None ->
      database (self w) = Some db ->
      if_truthy truthy_str (uri (self w)) = Some u ->
      answer db (calls w) PoemCreationYear [u] = Ok rs ->
      (1 < List.length rs)%nat ->
      exists w',
        get_creation_year w =
          (Raise (Exception "Multiple values for creation year. Not implemented."), w') /\
        creation_year (self w') = creation_year (self w)).
Proof.
  split; intros w db u rs Ht Hdb Hu Ha Hlen; eexists; split.
  - apply (get_title_not_one w db u rs); auto using length_not_one.
  - reflexivity.
  - apply (get_creation_year_many w db u rs); assumption.
  - reflexivity.
Qed.

Lemma single_valued_accessors_raise_on_many_rows_witness :
  (exists w',
     get_title (new_world ambiguous_db) =
       (Raise (Exception "Poem has multiple titles. Not implemented."), w') /\
     title (self w') = title (self (new_world ambiguous_db))) /\
  (exists w',
     get_creation_year (new_world ambiguous_db) =
       (Raise (Exception "Multiple values for creation year. Not implemented."), w') /\
     creation_year (self w') = creation_year (self (new_world ambiguous_db))).
Proof.
  split.
  - apply (proj1 single_valued_accessors_raise_on_many_rows
             (new_world ambiguous_db) ambiguous_db poem_uri
             [[("title", "Sabras, querido Fabio")]; [("title", "Soneto")]]);
      try reflexivity.
    simpl. lia.
  - apply (proj2 single_valued_accessors_raise_on_many_rows
             (new_world ambiguous_db) ambiguous_db poem_uri
             [[("year", "1689")]; [("year", "1690?")]]);
      try reflexivity.
    simpl. lia.
Defined.

(** *** No row *)

Lemma get_creation_year_none w db u :
  if_truthy truthy_binding (creation_year (self w)) = None ->
  database (self w) = Some db ->
  if_truthy truthy_str (uri (self w)) = Some u ->
  answer db (calls w) PoemCreationYear [u] = Ok [] ->
  get_creation_year w =
  (Ok None,
   {| self := set_creation_year None
                (set_sparql_creation_year {| parameters := [u]; results := Some [] |} (self w));
      calls := calls w ++ [(PoemCreationYear, [u])] |}).
Proof.
  intros Ht Hdb Hu Ha. unfold get_creation_year. enter Ht Hdb Hu.
  rewrite (run_query_ok _ db _ []) by exact Ha. reflexivity.
Qed.

Lemma get_author_uris_none w db u :
  if_truthy truthy_list (author_uris (self w)) = None ->
  database (self w) = Some db ->
  if_truthy truthy_str (uri (self w)) = Some u ->
  answer db (calls w) PoemAuthorUris [u] = Ok [] ->
  get_author_uris w =
  (Ok None,
   {| self := set_author_uris None
                (set_sparql_author_uris {| parameters := [u]; results := Some [] |} (self w));
      calls := calls w ++ [(PoemAuthorUris, [u])] |}).
Proof.
  intros Ht Hdb Hu Ha. unfold get_author_uris. enter Ht Hdb Hu.
  rewrite (run_query_ok _ db _ []) by exact Ha. reflexivity.
Qed.

(** C3: with no row from the store, [get_creation_year] and
    [get_author_uris] resolve to [None] without an error, as the claim
    says; [get_title] does not: its only test is [len(title_list) == 1],
    so no row falls into the branch that raises "Poem has multiple
    titles". *)
Theorem zero_rows_title_raises_others_resolve_to_none :
  (forall w db u,
      if_truthy truthy_binding (title (self w)) = None ->
      database (self w) = Some db ->
      if_truthy truthy_str (uri (self w)) = Some u ->
      answer db (calls w) PoemTitle [u] = Ok [] ->
      fst (get_title w) = Raise (Exception "Poem has multiple titles. Not implemented.")) /\
  (forall w db u,
      if_truthy truthy_binding (creation_year (self w)) = None ->
      database (self w) = Some db ->
      if_truthy truthy_str (uri (self w)) = Some u ->
      answer db (calls w) PoemCreationYear [u] = Ok [] ->
      fst (get_creation_year w) = Ok None) /\
  (forall w db u,
      if_truthy truthy_list (author_uris (self w)) = None ->
      database (self w) = Some db ->
      if_truthy truthy_str (uri (self w)) = Some u ->
      answer db (calls w) PoemAuthorUris [u] = Ok [] ->
      fst (get_author_uris w) = Ok None).
Proof.
  split; [|split]; intros w db u Ht Hdb Hu Ha.
  - now rewrite (get_title_not_one w db u []).
  - now rewrite (get_creation_year_none w db u).
  - now rewrite (get_author_uris_none w db u).
Qed.

Lemma zero_rows_title_raises_others_resolve_to_none_witness :
  fst (get_title (new_world empty_db)) =
    Raise (Exception "Poem has multiple titles. Not implemented.") /\
  fst (get_creation_year (new_world empty_db)) = Ok None /\
  fst (get_author_uris (new_world empty_db)) = Ok None.
Proof.
  destruct zero_rows_title_raises_others_resolve_to_none as (Htitle & Hyear & Huris).
  split; [|split].
  - apply (Htitle (new_world empty_db) empty_db poem_uri); reflexivity.
  - apply (Hyear (new_world empty_db) empty_db poem_uri); reflexivity.
  - apply (Huris (new_world empty_db) empty_db poem_uri); reflexivity.
Defined.

(** *** The scansion URI *)

Lemma execute_sparql_query_ok t w db u rs :
  database (self w) = Some db ->
  if_truthy truthy_str (uri (self w)) = Some u ->
  arity t = 1%nat ->
  answer db (calls w) t [u] = Ok rs ->
  execute_sparql_query (new_query t) w =
  (Ok rs, {| self := self w; calls := calls w ++ [(t, [u])] |}).
Proof.
  intros Hdb Hu Har Ha. unfold execute_sparql_query.
  unfold bind at 1, get_self at 1. rewrite Hdb, Hu.
  unfold bind, lift, inject. cbn. rewrite Har. cbn.
  rewrite (run_query_ok _ db _ rs) by exact Ha. reflexivity.
Qed.

(** C7: whenever the result set has at least one row,
    [get_automatic_scansion_uri] returns the first element of the
    simplified list and raises nothing, however many rows follow; the poem
    object is left as it was. *)
Theorem get_automatic_scansion_uri_takes_first w db u r rest :
  database (self w) = Some db ->
  if_truthy truthy_str (uri (self w)) = Some u ->
  answer db (calls w) PoemAutomaticScansionUri [u] = Ok (r :: rest) ->
  exists first others w',
    simplify [] (r :: rest) = Ok (first :: others) /\
    List.length others = List.length rest /\
    get_automatic_scansion_uri w = (Ok first, w') /\
    self w' = self w.
Proof.
  intros Hdb Hu Ha.
  exists (plain_row (one_field (r :: rest)) r), (map (plain_row (one_field (r :: rest))) rest).
  eexists. split; [apply simplify_unmapped|]. split; [apply length_map|].
  unfold get_automatic_scansion_uri. unfold bind at 1.
  rewrite (execute_sparql_query_ok PoemAutomaticScansionUri w db u (r :: rest) Hdb Hu eq_refl Ha).
  unfold bind, lift. rewrite simplify_unmapped. cbn [map getitem_list nth_error].
  split; reflexivity.
Qed.

Lemma get_automatic_scansion_uri_takes_first_witness :
  exists first others w',
    simplify [] [[("scansion", "http://postdata.linhd.uned.es/resource/sc_1")];
                 [("scansion", "http://postdata.linhd.uned.es/resource/sc_2")]] =
      Ok (first :: others) /\
    List.length others = 1%nat /\
    get_automatic_scansion_uri (new_world two_scansions_db) = (Ok first, w') /\
    self w' = self (new_world two_scansions_db).
Proof.
  apply (get_automatic_scansion_uri_takes_first (new_world two_scansions_db)
           two_scansions_db poem_uri
           [("scansion", "http://postdata.linhd.uned.es/resource/sc_1")]
           [[("scansion", "http://postdata.linhd.uned.es/resource/sc_2")]]);
    reflexivity.
Defined.

End Accessors.

(** ** The analysis aggregation *)

Module Analysis.
Import Py Store Poem Spec Fixtures.
Local Open Scope list_scope.
Local Open Scope py_scope.

Lemma keeps_ret {A} (a : A) : keeps_self (ret a).
Proof. intros w. reflexivity. Qed.

Lemma keeps_raise {A} e : keeps_self (@raise A e).
Proof. intros w. reflexivity. Qed.

Lemma keeps_lift {A} (r : result A) : keeps_self (lift r).
Proof. intros w. reflexivity. Qed.

Lemma keeps_get_self : keeps_self get_self.
Proof. intros w. reflexivity. Qed.

Lemma keeps_run_query {t} (q : PdStardogQuery t) db : keeps_self (run_query q db).
Proof.
  intros w. unfold run_query, execute.
  destruct (answer db (calls w) t (parameters q)); reflexivity.
Qed.

Lemma keeps_bind {A B} (m : M A) (f : A -> M B) :
  keeps_self m -> (forall a, keeps_self (f a)) -> keeps_self (bind m f).
Proof.
  intros Hm Hf w. unfold bind. specialize (Hm w).
  destruct (m w) as [[a|e] w1]; simpl in *; [|exact Hm].
  now rewrite Hf.
Qed.

Ltac frame :=
  repeat first
    [ apply keeps_ret | apply keeps_raise | apply keeps_lift | apply keeps_get_self
    | apply keeps_run_query
    | apply keeps_bind; [|intro]
    | match goal with
      | |- keeps_self (match ?x with _ => _ end) => destruct x
      end ].

Lemma keeps_execute_sparql_query {t} (q : PdStardogQuery t) :
  keeps_self (execute_sparql_query q).
Proof. unfold execute_sparql_query. frame. Qed.

Lemma keeps_bind_and_execute {t} (q : PdStardogQuery t) params :
  keeps_self (bind_and_execute q params).
Proof. unfold bind_and_execute. frame. Qed.

Lemma keeps_analysis_steps : Forall (fun step => keeps_self (snd step)) analysis_steps.
Proof.
  unfold analysis_steps.
  repeat (constructor;
          [cbn [snd];
           unfold get_automatic_scansion_uri, get_number_of_stanzas, get_number_of_lines,
             get_number_of_words, get_number_of_lines_in_stanzas,
             get_rhyme_schemes_of_stanzas, get_number_of_syllables,
             get_number_of_syllables_in_stanzas, get_number_of_words_in_stanzas,
             get_grammatical_stress_patterns_in_stanzas, get_metrical_patterns_in_stanzas;
           repeat first
             [ apply keeps_execute_sparql_query | apply keeps_bind_and_execute
             | apply keeps_ret | apply keeps_lift
             | apply keeps_bind; [|intro] ]
          |]).
  constructor.
Qed.

Lemma keeps_build_dict steps :
  Forall (fun step => keeps_self (snd step)) steps -> keeps_self (build_dict steps).
Proof.
  induction 1 as [|[k step] steps Hstep _ IH]; simpl.
  - apply keeps_ret.
  - apply keeps_bind; [exact Hstep|]. intros v.
    apply keeps_bind; [exact IH|]. intros d. apply keeps_ret.
Qed.

Lemma build_dict_cons k step steps :
  build_dict ((k, step) :: steps) =
  (v <- step ;; d <- build_dict steps ;; ret ((k, v) :: d)).
Proof. reflexivity. Qed.

(** [build_dict] raises exactly where its first failing step raises, and
    otherwise fills every key. *)
Lemma build_dict_first_failure steps : forall w,
  match first_failure steps w with
  | Some (e, w') => build_dict steps w = (Raise e, w')
  | None => exists d w', build_dict steps w = (Ok d, w') /\ map fst d = map fst steps
  end.
Proof.
  induction steps as [|[k step] steps IH]; intros w.
  - exists [], w. split; reflexivity.
  - rewrite build_dict_cons. cbn [first_failure]. unfold bind at 1.
    destruct (step w) as [[v|e] w1] eqn:Hstep; [|reflexivity].
    specialize (IH w1). destruct (first_failure steps w1) as [[e w2]|].
    + unfold bind. cbn beta. now rewrite IH.
    + destruct IH as (d & w2 & Hd & Hkeys). exists ((k, v) :: d), w2.
      unfold bind, ret. rewrite Hstep, Hd.
      simpl. now rewrite Hkeys.
Qed.

Lemma build_dict_keys steps w d w' :
  build_dict steps w = (Ok d, w') -> map fst d = map fst steps.
Proof.
  intros H. pose proof (build_dict_first_failure steps w) as F.
  destruct (first_failure steps w) as [[e w2]|].
  - congruence.
  - destruct F as (d' & w2 & Hd & Hkeys). congruence.
Qed.

Lemma get_analysis_uncached w :
  if_truthy truthy (automatic_analysis (self w)) = None ->
  get_analysis w =
  match build_dict analysis_steps w with
  | (Ok d, w1) =>
      (Ok (PyDict d),
       {| self := set_automatic_analysis (Some (PyDict d)) (self w1); calls := calls w1 |})
  | (Raise e, w1) => (Raise e, w1)
  end.
Proof.
  intros H. unfold get_analysis. unfold bind at 1, get_self at 1. rewrite H.
  unfold bind, assign, ret. destruct (build_dict analysis_steps w) as [[d|e] w1]; reflexivity.
Qed.

(** C5: once [get_analysis] has returned a record, calling it again on the
    same instance returns that same record, which is the cached one, and
    leaves the state as it is: no query reaches the store. *)
Theorem get_analysis_is_memoized w r w' :
  get_analysis w = (Ok r, w') ->
  get_analysis w' = (Ok r, w') /\
  automatic_analysis (self w') = Some r /\
  calls (snd (get_analysis w')) = calls w'.
Proof.
  intros H.
  assert (C : if_truthy truthy (automatic_analysis (self w')) = Some r).
  { destruct (if_truthy truthy (automatic_analysis (self w))) as [a|] eqn:E.
    - unfold get_analysis in H. unfold bind at 1, get_self at 1 in H. rewrite E in H.
      injection H as <- <-. exact E.
    - rewrite (get_analysis_uncached w E) in H.
      destruct (build_dict analysis_steps w) as [[d|e] w1] eqn:B; [|discriminate].
      injection H as <- <-. apply build_dict_keys in B.
      destruct d; [discriminate|reflexivity]. }
  assert (G : get_analysis w' = (Ok r, w')).
  { unfold get_analysis. unfold bind at 1, get_self at 1. now rewrite C. }
  split; [exact G|]. split; [|now rewrite G].
  unfold if_truthy in C. destruct (automatic_analysis (self w')) as [a|]; [|discriminate].
  destruct (truthy a); congruence.
Qed.

(** C6: when a sub-step of [get_analysis] raises, [get_analysis] raises
    that exception at that point and the steps after it are not run; a
    call that raises leaves every attribute of the poem as it was, so no
    analysis record, partial or whole, is cached. *)
Theorem get_analysis_aborts_without_caching w e w' :
  if_truthy truthy (automatic_analysis (self w)) = None ->
  (first_failure analysis_steps w = Some (e, w') <-> get_analysis w = (Raise e, w')) /\
  (get_analysis w = (Raise e, w') ->
   self w' = self w /\ if_truthy truthy (automatic_analysis (self w')) = None).
Proof.
  intros H. rewrite (get_analysis_uncached w H).
  pose proof (build_dict_first_failure analysis_steps w) as F.
  pose proof (keeps_build_dict analysis_steps keeps_analysis_steps w) as K.
  destruct (first_failure analysis_steps w) as [[e1 w1]|].
  - rewrite F in *. simpl in K. split.
    + split; intros E; injection E as <- <-; reflexivity.
    + intros E. injection E as <- <-. rewrite K. split; [reflexivity|exact H].
  - destruct F as (d & w1 & Hd & _). rewrite Hd. split.
    + split; discriminate.
    + discriminate.
Qed.

Lemma get_analysis_is_memoized_witness :
  exists r w',
    get_analysis (new_world stored_poem_db) = (Ok r, w') /\
    List.length (calls w') = 13%nat /\
    get_analysis w' = (Ok r, w') /\
    automatic_analysis (self w') = Some r /\
    calls (snd (get_analysis w')) = calls w'.
Proof.
  eexists. eexists.
  split; [vm_compute; reflexivity|].
  split; [reflexivity|].
  apply (get_analysis_is_memoized (new_world stored_poem_db)).
  vm_compute. reflexivity.
Defined.

Lemma get_analysis_aborts_without_caching_witness :
  get_analysis (new_world failing_db) =
    (Raise (StoreError "connection reset"),
     {| self := new_poem failing_db;
        calls := [(PoemAutomaticScansionUri, [poem_uri]);
                  (PoemCountStanzas, [poem_uri])] |}) /\
  automatic_analysis (new_poem failing_db) = None.
Proof.
  destruct (get_analysis_aborts_without_caching
              (new_world failing_db)
              (StoreError "connection reset")
              {| self := new_poem failing_db;
                 calls := [(PoemAutomaticScansionUri, [poem_uri]);
                           (PoemCountStanzas, [poem_uri])] |}
              eq_refl) as [Hiff Hkeep].
  split; [|reflexivity].
  apply Hiff. vm_compute. reflexivity.
Defined.

End Analysis.

(** ** Serialisation *)

Module Metadata.
Import Py Store Poem Spec Fixtures.
Local Open Scope list_scope.

(** [get_poetry_lab_url] touches nothing but its own cache. *)
Lemma get_poetry_lab_url_frame b l w r w1 :
  get_poetry_lab_url b l w = (r, w1) ->
  calls w1 = calls w /\
  database (self w1) = database (self w) /\
  uri (self w1) = uri (self w) /\
  author_uris (self w1) = author_uris (self w) /\
  id (self w1) = id (self w) /\
  name (self w1) = name (self w) /\
  sparql_author_uris (self w1) = sparql_author_uris (self w).
Proof.
  unfold get_poetry_lab_url, split_uri_in_author_poem_parts, bind, get_self, lift, assign,
    ret, raise.
  destruct (if_truthy truthy_str (poetry_lab_url (self w))).
  - intros H. injection H as <- <-. repeat split.
  - destruct (if_truthy truthy_str (uri (self w))) as [u|].
    + destruct (getitem_list (split "_" u) 1); cbn;
        [destruct (getitem_list (split "_" u) 2); cbn|];
        intros H; injection H as <- <-; repeat split.
    + intros H. injection H as <- <-. repeat split.
Qed.

Lemma load_authors_none w db u :
  if_truthy truthy_list (author_uris (self w)) = None ->
  database (self w) = Some db ->
  if_truthy truthy_str (uri (self w)) = Some u ->
  answer db (calls w) PoemAuthorUris [u] = Ok [] ->
  load_authors w =
  (Ok false,
   {| self := set_authors None
                (set_author_uris None
                   (set_sparql_author_uris {| parameters := [u]; results := Some [] |} (self w)));
      calls := calls w ++ [(PoemAuthorUris, [u])] |}).
Proof.
  intros Ht Hdb Hu Ha. unfold load_authors.
  unfold bind at 1, get_self at 1. unfold bind at 1. rewrite Ht.
  unfold bind at 1. rewrite (Accessors.get_author_uris_none w db u Ht Hdb Hu Ha).
  reflexivity.
Qed.

Lemma bind_ok {A B} (m : M A) (f : A -> M B) w a w' :
  m w = (Ok a, w') -> bind m f w = f a w'.
Proof. intros H. unfold bind. now rewrite H. Qed.

(** C10: with [include_authors=True] on a poem whose author query yields
    no rows, [load_authors] returns [False] and the mapping [get_metadata]
    returns has the five basic keys and no key "authors"; with the
    analysis included the key "analysis" is the only one added. *)
Theorem get_metadata_without_authors_has_no_authors_key
    (author_metadata : PostdataAuthor -> result pyval) w db u source w1 :
  get_poetry_lab_url "http://poetry.linhd.uned.es:3000" "en" w = (Ok source, w1) ->
  if_truthy truthy_list (author_uris (self w)) = None ->
  database (self w) = Some db ->
  if_truthy truthy_str (uri (self w)) = Some u ->
  answer db (calls w) PoemAuthorUris [u] = Ok [] ->
  exists metadata w2,
    load_authors w1 = (Ok false, w2) /\
    get_metadata author_metadata true false w = (Ok metadata, w2) /\
    map fst metadata = ["id"; "uri"; "name"; "source"; "sourceUri"] /\
    lookup "authors" metadata = None /\
    get_metadata author_metadata true true w =
      (let (r, w3) := get_analysis w2 in
       (rmap (fun analysis => metadata ++ [("analysis", analysis)]) r, w3)) /\
    (forall analysis, lookup "authors" (metadata ++ [("analysis", analysis)]) = None).
Proof.
  intros Hurl Ht Hdb Hu Ha.
  destruct (get_poetry_lab_url_frame _ _ _ _ _ Hurl)
    as (Hcalls & Hdb1 & Hu1 & Hau1 & _).
  rewrite <- Hau1 in Ht. rewrite <- Hdb1 in Hdb. rewrite <- Hu1 in Hu.
  rewrite <- Hcalls in Ha.
  pose proof (load_authors_none w1 db u Ht Hdb Hu Ha) as Hload.
  eexists. eexists. split; [exact Hload|].
  assert (Hrun : forall include_analysis,
    get_metadata author_metadata true include_analysis w =
    (if include_analysis
     then bind get_analysis (fun analysis =>
            ret (setitem "analysis" analysis
                   [("id", of_option PyStr (id (self w)));
                    ("uri", of_option PyStr (uri (self w)));
                    ("name", of_option PyStr (name (self w)));
                    ("source", PyStr source);
                    ("sourceUri", PyStr "POSTDATA Poetry Lab")]))
     else ret [("id", of_option PyStr (id (self w)));
               ("uri", of_option PyStr (uri (self w)));
               ("name", of_option PyStr (name (self w)));
               ("source", PyStr source);
               ("sourceUri", PyStr "POSTDATA Poetry Lab")])
      {| self := set_authors None
                   (set_author_uris None
                      (set_sparql_author_uris {| parameters := [u]; results := Some [] |}
                         (self w1)));
         calls := calls w1 ++ [(PoemAuthorUris, [u])] |}).
  { intros include_analysis. unfold get_metadata.
    rewrite (bind_ok get_self _ w (self w) w eq_refl).
    rewrite (bind_ok _ _ w source w1 Hurl). cbv zeta.
    erewrite bind_ok;
      [|rewrite (bind_ok load_authors _ w1 false _ Hload); reflexivity].
    destruct include_analysis; reflexivity. }
  split; [apply (Hrun false)|].
  split; [reflexivity|]. split; [reflexivity|].
  split; [|reflexivity].
  rewrite (Hrun true). unfold bind, ret.
  match goal with
  | |- context [get_analysis ?x] => destruct (get_analysis x) as [[a|e] w3]
  end; reflexivity.
Qed.

Lemma get_metadata_without_authors_has_no_authors_key_witness :
  exists metadata w2,
    load_authors
      {| self := set_poetry_lab_url
                   (Some "http://poetry.linhd.uned.es:3000/en/author/juana-ines-de-la-cruz/poetic-work/sabras-querido-fabio")
                   (new_poem empty_db);
         calls := [] |} = (Ok false, w2) /\
    get_metadata (fun _ => Ok PyNone) true false (new_world empty_db) =
      (Ok metadata, w2) /\
    map fst metadata = ["id"; "uri"; "name"; "source"; "sourceUri"] /\
    lookup "authors" metadata = None /\
    get_metadata (fun _ => Ok PyNone) true true (new_world empty_db) =
      (let (r, w3) := get_analysis w2 in
       (rmap (fun analysis => metadata ++ [("analysis", analysis)]) r, w3)) /\
    (forall analysis, lookup "authors" (metadata ++ [("analysis", analysis)]) = None).
Proof.
  apply (get_metadata_without_authors_has_no_authors_key (fun _ => Ok PyNone)
           (new_world empty_db) empty_db poem_uri
           "http://poetry.linhd.uned.es:3000/en/author/juana-ines-de-la-cruz/poetic-work/sabras-querido-fabio");
    reflexivity.
Defined.

End Metadata.

(** ** More on the grouping engine *)

Module GroupingEdges.
Import Py Store Poem Spec Fixtures.
Local Open Scope list_scope.

(** *** Subsequences *)

Lemma subseq_refl {A} (l : list A) : subseq l l.
Proof. induction l; constructor; assumption. Qed.

Lemma subseq_trans {A} (l1 l2 l3 : list A) : subseq l1 l2 -> subseq l2 l3 -> subseq l1 l3.
Proof.
  intros H12 H23. revert l1 H12.
  induction H23 as [|a l2 l3 H23 IH|a l2 l3 H23 IH]; intros l1 H12.
  - exact H12.
  - inversion H12; subst.
    + apply subseq_take. now apply IH.
    + apply subseq_skip. now apply IH.
  - apply subseq_skip. now apply IH.
Qed.

Lemma subseq_app {A} (a b c d : list A) : subseq a b -> subseq c d -> subseq (a ++ c) (b ++ d).
Proof.
  intros Hab Hcd. induction Hab; simpl.
  - exact Hcd.
  - now apply subseq_take.
  - now apply subseq_skip.
Qed.

Lemma subseq_drop_front {A} (b c : list A) : subseq c (b ++ c).
Proof. induction b; simpl; [apply subseq_refl|now apply subseq_skip]. Qed.

Lemma subseq_drop_middle {A} (a b c : list A) : subseq (a ++ c) (a ++ b ++ c).
Proof. apply subseq_app; [apply subseq_refl|apply subseq_drop_front]. Qed.

(** *** What a successful loop has read *)

Lemma for_loop_reads key vkey dt rows : forall g g',
  for_loop (loop_body key vkey dt) g rows = Ok g' ->
  exists pairs,
    traverse (read_binding key vkey dt) rows = Ok pairs /\
    for_loop place g pairs = Ok g'.
Proof.
  induction rows as [|b rows IH]; intros g g' H.
  - exists []. split; [reflexivity|exact H].
  - simpl in H. unfold loop_body at 1 in H.
    destruct (read_binding key vkey dt b) as [p|e] eqn:Hb; simpl in H; [|discriminate].
    destruct (place g p) as [g1|e] eqn:Hp; simpl in H; [|discriminate].
    destruct (IH g1 g' H) as (pairs & Hread & Hloop).
    exists (p :: pairs). simpl. rewrite Hb, Hread. simpl. rewrite Hp. simpl.
    split; [reflexivity|exact Hloop].
Qed.

Lemma group_ok_reads key vkey dt rows out :
  group_feature_by_stanzas rows key vkey dt = Ok out ->
  exists pairs g,
    traverse (read_binding key vkey dt) rows = Ok pairs /\
    for_loop place start pairs = Ok g /\
    out = finish g.
Proof.
  unfold group_feature_by_stanzas. intros H.
  destruct (for_loop (loop_body key vkey dt) start rows) as [g|e] eqn:Hloop;
    simpl in H; [|discriminate].
  injection H as <-.
  destruct (for_loop_reads key vkey dt rows start g Hloop) as (pairs & Hread & Hplace).
  exists pairs, g. auto.
Qed.

Lemma place_cases g sn v g1 :
  place g (sn, v) = Ok g1 ->
  (current_stanza g = sn /\
   g1 = {| grouped_results := grouped_results g;
           stanza := stanza g ++ [v];
           current_stanza := current_stanza g |}) \/
  (exists n,
     current_stanza g <> sn /\ py_int (current_stanza g) = Ok n /\
     g1 = {| grouped_results :=
               if 0 <? n then grouped_results g ++ [stanza g] else grouped_results g;
             stanza := [v];
             current_stanza := sn |}).
Proof.
  unfold place. destruct (py_eq (current_stanza g) sn) eqn:E.
  - intros H. injection H as <-. left. split; [|reflexivity].
    now apply StanzaGrouping.py_eq_true.
  - destruct (py_int (current_stanza g)) as [n|e] eqn:Hn; simpl; [|discriminate].
    intros H. injection H as <-. right. exists n.
    split; [now apply StanzaGrouping.py_eq_false|]. split; reflexivity.
Qed.

(** *** No empty stanza *)

Lemma place_keeps_filled g p g1 : filled g -> place g p = Ok g1 -> filled g1.
Proof.
  intros [Hg Hs] H. destruct p as [sn v].
  destruct (place_cases g sn v g1 H) as [(_ & ->)|(n & _ & _ & ->)]; split; simpl.
  - exact Hg.
  - now destruct (stanza g).
  - destruct (0 <? n); [|exact Hg].
    apply Forall_app. split; [exact Hg|]. constructor; [exact Hs|constructor].
  - discriminate.
Qed.

Lemma place_loop_keeps_filled pairs : forall g g',
  filled g -> for_loop place g pairs = Ok g' -> filled g'.
Proof.
  induction pairs as [|p pairs IH]; intros g g' Hg H; simpl in H.
  - now injection H as <-.
  - destruct (place g p) as [g1|e] eqn:Hp; simpl in H; [|discriminate].
    apply (IH g1 g'); [|exact H]. now apply (place_keeps_filled g p).
Qed.

Lemma place_start_filled p g1 : place start p = Ok g1 -> filled g1.
Proof.
  intros H. destruct p as [sn v].
  destruct (place_cases start sn v g1 H) as [(_ & ->)|(n & _ & Hn & ->)]; split; simpl;
    try discriminate; try constructor.
  simpl in Hn. injection Hn as <-. constructor.
Qed.

(** X1: whenever [__group_feature_by_stanzas] returns on a non-empty
    input, no stanza of the output is empty; the empty stanza of the empty
    input is the only one the function ever emits. *)
Theorem stanzas_of_nonempty_input_are_nonempty key vkey dt rows out :
  rows <> [] ->
  group_feature_by_stanzas rows key vkey dt = Ok out ->
  Forall (fun st => st <> []) out.
Proof.
  intros Hne H.
  destruct (group_ok_reads key vkey dt rows out H) as (pairs & g & Hread & Hloop & ->).
  destruct pairs as [|p pairs].
  - destruct rows as [|b rows]; [contradiction|]. simpl in Hread.
    destruct (read_binding key vkey dt b); simpl in Hread; [|discriminate].
    destruct (traverse (read_binding key vkey dt) rows); discriminate.
  - simpl in Hloop. destruct (place start p) as [g1|e] eqn:Hp; simpl in Hloop; [|discriminate].
    destruct (place_loop_keeps_filled pairs g1 g (place_start_filled p g1 Hp) Hloop)
      as [Hg Hs].
    unfold finish. apply Forall_app. split; [exact Hg|].
    constructor; [exact Hs|constructor].
Qed.

Lemma stanzas_of_nonempty_input_are_nonempty_witness :
  Forall (fun st : list scalar => st <> []) [[SStr "c"]; [SStr "d"]].
Proof.
  apply (stanzas_of_nonempty_input_are_nonempty "StanzaNo" "count" "str"
           [row 0 "a"; row 0 "b"; row 2 "c"; row 3 "d"]).
  - discriminate.
  - reflexivity.
Defined.

(** *** Nothing invented, nothing reordered *)

Lemma finish_concat g :
  List.concat (finish g) = List.concat (grouped_results g) ++ stanza g.
Proof. unfold finish. rewrite concat_app. simpl. now rewrite app_nil_r. Qed.

Lemma place_subseq g p g1 :
  place g p = Ok g1 ->
  subseq (List.concat (finish g1)) (List.concat (finish g) ++ [snd p]).
Proof.
  intros H. destruct p as [sn v]. rewrite !finish_concat.
  destruct (place_cases g sn v g1 H) as [(_ & ->)|(n & _ & _ & ->)]; simpl.
  - rewrite app_assoc. apply subseq_refl.
  - destruct (0 <? n).
    + rewrite concat_app. simpl. rewrite app_nil_r. apply subseq_refl.
    + rewrite <- app_assoc. apply subseq_drop_middle.
Qed.

Lemma place_loop_subseq pairs : forall g g',
  for_loop place g pairs = Ok g' ->
  subseq (List.concat (finish g')) (List.concat (finish g) ++ map snd pairs).
Proof.
  induction pairs as [|p pairs IH]; intros g g' H; simpl in H.
  - injection H as <-. simpl. rewrite app_nil_r. apply subseq_refl.
  - destruct (place g p) as [g1|e] eqn:Hp; simpl in H; [|discriminate].
    apply (subseq_trans _ _ _ (IH g1 g' H)).
    change (map snd (p :: pairs)) with ([snd p] ++ map snd pairs).
    rewrite app_assoc. apply subseq_app; [|apply subseq_refl].
    now apply place_subseq.
Qed.



(** *** One stanza number *)

Lemma place_loop_same pairs : forall emitted acc c,
  (forall p, In p pairs -> fst p = c) ->
  for_loop place {| grouped_results := emitted; stanza := acc; current_stanza := c |} pairs =
  Ok {| grouped_results := emitted; stanza := acc ++ map snd pairs; current_stanza := c |}.
Proof.
  induction pairs as [|[sn v] pairs IH]; intros emitted acc c Hc.
  - simpl. now rewrite app_nil_r.
  - rewrite StanzaGrouping.for_loop_cons.
    assert (E : sn = c) by (apply (Hc (sn, v)); now left). subst sn.
    rewrite (StanzaGrouping.place_same
               {| grouped_results := emitted; stanza := acc; current_stanza := c |} c v
               (StanzaGrouping.py_eq_refl c)).
    cbn [rbind grouped_results stanza current_stanza].
    rewrite IH by (intros p Hp; apply Hc; now right).
    simpl. now rewrite <- app_assoc.
Qed.

Lemma place_start_first sn v :
  exists c,
    place start (sn, v) =
      Ok {| grouped_results := []; stanza := [v]; current_stanza := c |} /\ c = sn.
Proof.
  exists sn. split; [|reflexivity].
  destruct (py_eq (current_stanza start) sn) eqn:E.
  - rewrite (StanzaGrouping.place_same start sn v E).
    apply StanzaGrouping.py_eq_true in E. now rewrite <- E.
  - now rewrite (StanzaGrouping.place_next start sn v 0 E eq_refl).
Qed.

(** X3: an input whose rows all carry the same stanza number comes out as
    one stanza with all the values, whatever that number is: zero,
    negative or no numeral at all. *)
Theorem single_stanza_number_gives_one_stanza key vkey dt rows pairs c :
  traverse (read_binding key vkey dt) rows = Ok pairs ->
  pairs <> [] ->
  (forall p, In p pairs -> fst p = c) ->
  group_feature_by_stanzas rows key vkey dt = Ok [map snd pairs].
Proof.
  intros Hread Hne Hc. unfold group_feature_by_stanzas.
  rewrite (StanzaGrouping.for_loop_read key vkey dt rows pairs start Hread).
  destruct pairs as [|[sn v] pairs]; [contradiction|].
  rewrite StanzaGrouping.for_loop_cons.
  destruct (place_start_first sn v) as (c' & -> & ->). cbn [rbind].
  rewrite place_loop_same by (intros p Hp; rewrite (Hc p (or_intror Hp));
                              symmetry; apply (Hc (sn, v)); now left).
  reflexivity.
Qed.

Lemma single_stanza_number_gives_one_stanza_witness :
  group_feature_by_stanzas
    [Row [("StanzaNo", SStr "II"); ("count", SStr "7")];
     Row [("StanzaNo", SStr "II"); ("count", SStr "9")]] "StanzaNo" "count" "int" =
  Ok [map snd [(SStr "II", SInt 7); (SStr "II", SInt 9)]].
Proof.
  apply (single_stanza_number_gives_one_stanza "StanzaNo" "count" "int" _ _ (SStr "II")).
  - reflexivity.
  - discriminate.
  - intros p [<-|[<-|[]]]; reflexivity.
Defined.

(** X4: a stanza number that [int()] cannot read goes unnoticed as long as
    it is the only one; the first row with another stanza number makes the
    guard [int(current_stanza) > 0] raise, and the grouping fails with the
    error of [int()]. *)
Theorem unreadable_stanza_number_raises_at_the_boundary
    key vkey dt rows pairs c e next sn v rest :
  traverse (read_binding key vkey dt) rows = Ok pairs ->
  pairs <> [] ->
  (forall p, In p pairs -> fst p = c) ->
  py_int c = Raise e ->
  read_binding key vkey dt next = Ok (sn, v) ->
  sn <> c ->
  group_feature_by_stanzas (rows ++ next :: rest) key vkey dt = Raise e.
Proof.
  intros Hread Hne Hc Hint Hnext Hsn. unfold group_feature_by_stanzas.
  rewrite StanzaGrouping.for_loop_app,
    (StanzaGrouping.for_loop_read key vkey dt rows pairs start Hread).
  destruct pairs as [|[sn0 v0] pairs]; [contradiction|].
  rewrite StanzaGrouping.for_loop_cons.
  destruct (place_start_first sn0 v0) as (c' & -> & ->). cbn [rbind].
  assert (E0 : sn0 = c) by (apply (Hc (sn0, v0)); now left). subst sn0.
  rewrite place_loop_same by (intros p Hp; apply Hc; now right).
  cbn [rbind]. rewrite StanzaGrouping.for_loop_cons. unfold loop_body. rewrite Hnext.
  cbn [rbind]. unfold place. cbn [current_stanza].
  assert (E : py_eq c sn = false) by (apply StanzaGrouping.py_eq_false; congruence).
  rewrite E, Hint. reflexivity.
Qed.

Lemma unreadable_stanza_number_raises_at_the_boundary_witness :
  group_feature_by_stanzas
    ([Row [("StanzaNo", SStr "II"); ("count", SStr "7")]] ++
     Row [("StanzaNo", SStr "III"); ("count", SStr "9")] :: [])
    "StanzaNo" "count" "int" = Raise ValueError.
Proof.
  apply (unreadable_stanza_number_raises_at_the_boundary "StanzaNo" "count" "int"
           _ [(SStr "II", SInt 7)] (SStr "II") ValueError _ (SStr "III") (SInt 9)).
  - reflexivity.
  - discriminate.
  - intros p [<-|[]]; reflexivity.
  - reflexivity.
  - reflexivity.
  - discriminate.
Defined.

(** X5: the first element the loop cannot read aborts the grouping: a bare
    value, as [simplify()] returns for a result set of one field, raises
    [TypeError]; a row without the stanza-number key or without the value
    key raises [KeyError] with that key; a value the flag cannot convert
    raises the error of the conversion.  Nothing of what was grouped
    before is returned. *)
Theorem first_unreadable_row_aborts key vkey dt before out b after :
  group_feature_by_stanzas before key vkey dt = Ok out ->
  (forall v, b = Plain v ->
     group_feature_by_stanzas (before ++ b :: after) key vkey dt = Raise TypeError) /\
  (forall fs, b = Row fs -> lookup key fs = None ->
     group_feature_by_stanzas (before ++ b :: after) key vkey dt = Raise (KeyError key)) /\
  (forall fs sn, b = Row fs -> lookup key fs = Some sn -> lookup vkey fs = None ->
     group_feature_by_stanzas (before ++ b :: after) key vkey dt = Raise (KeyError vkey)) /\
  (forall fs sn raw e,
     b = Row fs -> lookup key fs = Some sn -> lookup vkey fs = Some raw ->
     coerce dt raw = Raise e ->
     group_feature_by_stanzas (before ++ b :: after) key vkey dt = Raise e).
Proof.
  intros H.
  assert (Hbad : forall e, read_binding key vkey dt b = Raise e ->
            group_feature_by_stanzas (before ++ b :: after) key vkey dt = Raise e).
  { intros e Hb. unfold group_feature_by_stanzas in *.
    rewrite StanzaGrouping.for_loop_app.
    destruct (for_loop (loop_body key vkey dt) start before) as [g|e0]; [|discriminate].
    cbn [rbind]. rewrite StanzaGrouping.for_loop_cons. unfold loop_body.
    rewrite Hb. reflexivity. }
  repeat split.
  - intros v ->. apply Hbad. reflexivity.
  - intros fs -> Hk. apply Hbad. unfold read_binding, getitem. now rewrite Hk.
  - intros fs sn -> Hk Hv. apply Hbad. unfold read_binding, getitem. now rewrite Hk, Hv.
  - intros fs sn raw e -> Hk Hv Hc. apply Hbad. unfold read_binding, getitem.
    rewrite Hk, Hv. simpl. now rewrite Hc.
Qed.

Lemma first_unreadable_row_aborts_witness :
  group_feature_by_stanzas ([row 1 "4"] ++ Plain (SStr "8") :: [row 1 "7"])
    "StanzaNo" "count" "int" = Raise TypeError /\
  group_feature_by_stanzas ([row 1 "4"] ++ Row [("count", SStr "8")] :: [row 1 "7"])
    "StanzaNo" "count" "int" = Raise (KeyError "StanzaNo") /\
  group_feature_by_stanzas ([row 1 "4"] ++ Row [("StanzaNo", SInt 1)] :: [row 1 "7"])
    "StanzaNo" "count" "int" = Raise (KeyError "count") /\
  group_feature_by_stanzas ([row 1 "4"] ++ row 1 "eight" :: [row 1 "7"])
    "StanzaNo" "count" "int" = Raise ValueError.
Proof.
  split; [|split; [|split]].
  - apply (proj1 (first_unreadable_row_aborts "StanzaNo" "count" "int"
                    [row 1 "4"] [[SInt 4]] (Plain (SStr "8")) [row 1 "7"] eq_refl)
             (SStr "8") eq_refl).
  - apply (proj1 (proj2 (first_unreadable_row_aborts "StanzaNo" "count" "int"
                    [row 1 "4"] [[SInt 4]] (Row [("count", SStr "8")]) [row 1 "7"] eq_refl))
             [("count", SStr "8")] eq_refl eq_refl).
  - apply (proj1 (proj2 (proj2 (first_unreadable_row_aborts "StanzaNo" "count" "int"
                    [row 1 "4"] [[SInt 4]] (Row [("StanzaNo", SInt 1)]) [row 1 "7"] eq_refl)))
             [("StanzaNo", SInt 1)] (SInt 1) eq_refl eq_refl eq_refl).
  - apply (proj2 (proj2 (proj2 (first_unreadable_row_aborts "StanzaNo" "count" "int"
                    [row 1 "4"] [[SInt 4]] (row 1 "eight") [row 1 "7"] eq_refl)))
             [("StanzaNo", SInt 1); ("count", SStr "eight")] (SInt 1) (SStr "eight")
             ValueError eq_refl eq_refl eq_refl eq_refl).
Defined.

End GroupingEdges.

(** ** More on the accessors *)

Module AccessorEdges.
Import Py Store Poem Spec Fixtures.
Local Open Scope list_scope.

Ltac open_accessor H1 H2 H3 :=
  unfold bind at 1, get_self at 1; rewrite H1, H2, H3;
  unfold bind, get_self, lift, assign, inject; cbn.

Lemma simplify_one_row r :
  simplify [] [r] = Ok [plain_row (one_field [r]) r].
Proof. apply (Accessors.simplify_unmapped [r]). Qed.

Lemma get_title_cached w t :
  if_truthy truthy_binding (title (self w)) = Some t -> get_title w = (Ok t, w).
Proof. intros H. unfold get_title. unfold bind at 1, get_self at 1. now rewrite H. Qed.

Lemma get_creation_year_cached w y :
  if_truthy truthy_binding (creation_year (self w)) = Some y ->
  get_creation_year w = (Ok (Some y), w).
Proof. intros H. unfold get_creation_year. unfold bind at 1, get_self at 1. now rewrite H. Qed.

(** X6: when the title query yields exactly one row, [get_title] returns
    its value after one call to the store and keeps it in [self.title]; if
    the value is truthy, the next call returns it again and sends nothing
    to the store. *)
Theorem get_title_resolves_and_memoizes w db u r :
  if_truthy truthy_binding (title (self w)) = None ->
  database (self w) = Some db ->
  if_truthy truthy_str (uri (self w)) = Some u ->
  answer db (calls w) PoemTitle [u] = Ok [r] ->
  exists t w',
    simplify [] [r] = Ok [t] /\
    get_title w = (Ok t, w') /\
    title (self w') = Some t /\
    calls w' = calls w ++ [(PoemTitle, [u])] /\
    (truthy_binding t = true -> get_title w' = (Ok t, w')).
Proof.
  intros Ht Hdb Hu Ha.
  exists (plain_row (one_field [r]) r). eexists.
  split; [apply simplify_one_row|].
  assert (G : get_title w =
    (Ok (plain_row (one_field [r]) r),
     {| self := set_title (Some (plain_row (one_field [r]) r))
                  (set_sparql_title {| parameters := [u]; results := Some [r] |} (self w));
        calls := calls w ++ [(PoemTitle, [u])] |})).
  { unfold get_title. open_accessor Ht Hdb Hu.
    rewrite (Accessors.run_query_ok _ db _ [r]) by exact Ha. cbn -[simplify].
    rewrite simplify_one_row. reflexivity. }
  split; [exact G|]. split; [reflexivity|]. split; [reflexivity|].
  intros Htrue. apply get_title_cached.
  unfold if_truthy. cbn [self title set_title]. now rewrite Htrue.
Qed.

Lemma get_title_resolves_and_memoizes_witness :
  exists t w',
    simplify [] [[("title", "Sabras, querido Fabio")]] = Ok [t] /\
    get_title (new_world (table_db (fun _ _ => Ok [[("title", "Sabras, querido Fabio")]]))) =
      (Ok t, w') /\
    title (self w') = Some t /\
    calls w' = [] ++ [(PoemTitle, [poem_uri])] /\
    (truthy_binding t = true -> get_title w' = (Ok t, w')).
Proof.
  apply (get_title_resolves_and_memoizes
           (new_world (table_db (fun _ _ => Ok [[("title", "Sabras, querido Fabio")]])))
           (table_db (fun _ _ => Ok [[("title", "Sabras, querido Fabio")]])) poem_uri
           [("title", "Sabras, querido Fabio")]); reflexivity.
Defined.

(** X7: when the creation-year query yields exactly one row,
    [get_creation_year] returns its value after one call to the store and
    keeps it in [self.creation_year]; if the value is truthy, the next
    call returns it again and sends nothing to the store. *)
Theorem get_creation_year_resolves_and_memoizes w db u r :
  if_truthy truthy_binding (creation_year (self w)) = None ->
  database (self w) = Some db ->
  if_truthy truthy_str (uri (self w)) = Some u ->
  answer db (calls w) PoemCreationYear [u] = Ok [r] ->
  exists y w',
    simplify [] [r] = Ok [y] /\
    get_creation_year w = (Ok (Some y), w') /\
    creation_year (self w') = Some y /\
    calls w' = calls w ++ [(PoemCreationYear, [u])] /\
    (truthy_binding y = true -> get_creation_year w' = (Ok (Some y), w')).
Proof.
  intros Ht Hdb Hu Ha.
  exists (plain_row (one_field [r]) r). eexists.
  split; [apply simplify_one_row|].
  assert (G : get_creation_year w =
    (Ok (Some (plain_row (one_field [r]) r)),
     {| self := set_creation_year (Some (plain_row (one_field [r]) r))
                  (set_sparql_creation_year {| parameters := [u]; results := Some [r] |}
                     (self w));
        calls := calls w ++ [(PoemCreationYear, [u])] |})).
  { unfold get_creation_year. open_accessor Ht Hdb Hu.
    rewrite (Accessors.run_query_ok _ db _ [r]) by exact Ha. cbn -[simplify].
    rewrite simplify_one_row. reflexivity. }
  split; [exact G|]. split; [reflexivity|]. split; [reflexivity|].
  intros Htrue. apply get_creation_year_cached.
  unfold if_truthy. cbn [self creation_year set_creation_year]. now rewrite Htrue.
Qed.

Lemma get_creation_year_resolves_and_memoizes_witness :
  exists y w',
    simplify [] [[("year", "1689")]] = Ok [y] /\
    get_creation_year (new_world (table_db (fun _ _ => Ok [[("year", "1689")]]))) =
      (Ok (Some y), w') /\
    creation_year (self w') = Some y /\
    calls w' = [] ++ [(PoemCreationYear, [poem_uri])] /\
    (truthy_binding y = true -> get_creation_year w' = (Ok (Some y), w')).
Proof.
  apply (get_creation_year_resolves_and_memoizes
           (new_world (table_db (fun _ _ => Ok [[("year", "1689")]])))
           (table_db (fun _ _ => Ok [[("year", "1689")]])) poem_uri
           [("year", "1689")]); reflexivity.
Defined.

(** *** Absence is not remembered *)

Lemma get_creation_year_calls w db u :
  if_truthy truthy_binding (creation_year (self w)) = None ->
  database (self w) = Some db ->
  if_truthy truthy_str (uri (self w)) = Some u ->
  calls (snd (get_creation_year w)) = calls w ++ [(PoemCreationYear, [u])].
Proof.
  intros Ht Hdb Hu. unfold get_creation_year. open_accessor Ht Hdb Hu.
  unfold run_query, execute. cbn.
  destruct (answer db (calls w) PoemCreationYear [u]) as [rs|e]; cbn -[simplify];
    [|reflexivity].
  rewrite Accessors.simplify_unmapped.
  destruct rs as [|r1 [|r2 rs]]; reflexivity.
Qed.

Lemma get_author_uris_calls w db u :
  if_truthy truthy_list (author_uris (self w)) = None ->
  database (self w) = Some db ->
  if_truthy truthy_str (uri (self w)) = Some u ->
  calls (snd (get_author_uris w)) = calls w ++ [(PoemAuthorUris, [u])].
Proof.
  intros Ht Hdb Hu. unfold get_author_uris. open_accessor Ht Hdb Hu.
  unfold run_query, execute. cbn.
  destruct (answer db (calls w) PoemAuthorUris [u]) as [rs|e]; cbn -[simplify];
    [|reflexivity].
  rewrite Accessors.simplify_unmapped.
  destruct rs as [|r1 rs]; reflexivity.
Qed.

(** X8: an absent creation year and an absent author list are stored as
    [None], which is also the mark of a value not yet fetched: after a
    call that found no row, the next call asks the store again. *)
Theorem absent_values_are_fetched_again :
  (forall w db u,
      if_truthy truthy_binding (creation_year (self w)) = None ->
      database (self w) = Some db ->
      if_truthy truthy_str (uri (self w)) = Some u ->
      answer db (calls w) PoemCreationYear [u] = Ok [] ->
      exists w1,
        get_creation_year w = (Ok None, w1) /\
        calls (snd (get_creation_year w1)) =
          calls w ++ [(PoemCreationYear, [u]); (PoemCreationYear, [u])]) /\
  (forall w db u,
      if_truthy truthy_list (author_uris (self w)) = None ->
      database (self w) = Some db ->
      if_truthy truthy_str (uri (self w)) = Some u ->
      answer db (calls w) PoemAuthorUris [u] = Ok [] ->
      exists w1,
        get_author_uris w = (Ok None, w1) /\
        calls (snd (get_author_uris w1)) =
          calls w ++ [(PoemAuthorUris, [u]); (PoemAuthorUris, [u])]).
Proof.
  split; intros w db u Ht Hdb Hu Ha; eexists; split.
  - apply (Accessors.get_creation_year_none w db u Ht Hdb Hu Ha).
  - rewrite (get_creation_year_calls _ db u); try reflexivity; try assumption.
    cbn. now rewrite <- app_assoc.
  - apply (Accessors.get_author_uris_none w db u Ht Hdb Hu Ha).
  - rewrite (get_author_uris_calls _ db u); try reflexivity; try assumption.
    cbn. now rewrite <- app_assoc.
Qed.

Lemma absent_values_are_fetched_again_witness :
  (exists w1,
     get_creation_year (new_world empty_db) = (Ok None, w1) /\
     calls (snd (get_creation_year w1)) =
       [] ++ [(PoemCreationYear, [poem_uri]); (PoemCreationYear, [poem_uri])]) /\
  (exists w1,
     get_author_uris (new_world empty_db) = (Ok None, w1) /\
     calls (snd (get_author_uris w1)) =
       [] ++ [(PoemAuthorUris, [poem_uri]); (PoemAuthorUris, [poem_uri])]).
Proof.
  split.
  - apply (proj1 absent_values_are_fetched_again (new_world empty_db) empty_db poem_uri);
      reflexivity.
  - apply (proj2 absent_values_are_fetched_again (new_world empty_db) empty_db poem_uri);
      reflexivity.
Defined.

End AccessorEdges.

(** ** What the methods need before they ask the store *)

Module Preconditions.
Import Py Store Poem Spec Fixtures.
Local Open Scope list_scope.

Lemma bind_raise {A B} (m : M A) (f : A -> M B) w e w' :
  m w = (Raise e, w') -> bind m f w = (Raise e, w').
Proof. intros H. unfold bind. now rewrite H. Qed.

Lemma execute_sparql_query_no_database {t} (q : PdStardogQuery t) w :
  database (self w) = None ->
  execute_sparql_query q w = (Raise no_database, w).
Proof.
  intros H. unfold execute_sparql_query. unfold bind at 1, get_self at 1. now rewrite H.
Qed.

Lemma execute_sparql_query_no_uri {t} (q : PdStardogQuery t) w db :
  database (self w) = Some db ->
  if_truthy truthy_str (uri (self w)) = None ->
  execute_sparql_query q w = (Raise no_uri, w).
Proof.
  intros Hdb Hu. unfold execute_sparql_query. unfold bind at 1, get_self at 1.
  rewrite Hdb, Hu. reflexivity.
Qed.

Lemma get_analysis_first_step_raises w e w' :
  if_truthy truthy (automatic_analysis (self w)) = None ->
  get_automatic_scansion_uri w = (Raise e, w') ->
  get_analysis w = (Raise e, w').
Proof.
  intros Hc H. rewrite (Analysis.get_analysis_uncached w Hc).
  unfold analysis_steps. rewrite Analysis.build_dict_cons.
  rewrite (bind_raise _ _ w e w'); [reflexivity|].
  now apply bind_raise.
Qed.

Lemma scansion_uri_raises w e w' :
  execute_sparql_query (new_query PoemAutomaticScansionUri) w = (Raise e, w') ->
  get_automatic_scansion_uri w = (Raise e, w').
Proof. intros H. unfold get_automatic_scansion_uri. now apply bind_raise. Qed.

(** X9: without a database connection every method that would ask the
    store raises "Database Connection not available." instead; nothing is
    sent, and the poem object is left as it was. *)
Theorem no_database_raises_before_any_call w :
  database (self w) = None ->
  (if_truthy truthy_binding (title (self w)) = None ->
   get_title w = (Raise no_database, w)) /\
  (if_truthy truthy_binding (creation_year (self w)) = None ->
   get_creation_year w = (Raise no_database, w)) /\
  (if_truthy truthy_list (author_uris (self w)) = None ->
   get_author_uris w = (Raise no_database, w) /\
   load_authors w = (Raise no_database, w)) /\
  (if_truthy truthy (automatic_analysis (self w)) = None ->
   get_analysis w = (Raise no_database, w)).
Proof.
  intros Hdb.
  assert (Huris : if_truthy truthy_list (author_uris (self w)) = None ->
                  get_author_uris w = (Raise no_database, w)).
  { intros H. unfold get_author_uris. unfold bind at 1, get_self at 1. now rewrite H, Hdb. }
  split; [|split; [|split]].
  - intros H. unfold get_title. unfold bind at 1, get_self at 1. now rewrite H, Hdb.
  - intros H. unfold get_creation_year. unfold bind at 1, get_self at 1. now rewrite H, Hdb.
  - intros H. split; [now apply Huris|].
    unfold load_authors. unfold bind at 1, get_self at 1. unfold bind at 1. rewrite H.
    unfold bind at 1. now rewrite (Huris H).
  - intros H. apply (get_analysis_first_step_raises w _ w H).
    apply scansion_uri_raises. now apply execute_sparql_query_no_database.
Qed.

(** X10: with a connection but without a URI every method that would ask
    the store raises "No URI of the poem specified. Can not get any
    attributes." instead; nothing is sent, and the poem object is left as
    it was. *)
Theorem no_uri_raises_before_any_call w db :
  database (self w) = Some db ->
  if_truthy truthy_str (uri (self w)) = None ->
  (if_truthy truthy_binding (title (self w)) = None ->
   get_title w = (Raise no_uri, w)) /\
  (if_truthy truthy_binding (creation_year (self w)) = None ->
   get_creation_year w = (Raise no_uri, w)) /\
  (if_truthy truthy_list (author_uris (self w)) = None ->
   get_author_uris w = (Raise no_uri, w) /\
   load_authors w = (Raise no_uri, w)) /\
  (if_truthy truthy (automatic_analysis (self w)) = None ->
   get_analysis w = (Raise no_uri, w)).
Proof.
  intros Hdb Hu.
  assert (Huris : if_truthy truthy_list (author_uris (self w)) = None ->
                  get_author_uris w = (Raise no_uri, w)).
  { intros H. unfold get_author_uris. unfold bind at 1, get_self at 1.
    rewrite H, Hdb, Hu. reflexivity. }
  split; [|split; [|split]].
  - intros H. unfold get_title. unfold bind at 1, get_self at 1.
    rewrite H, Hdb, Hu. reflexivity.
  - intros H. unfold get_creation_year. unfold bind at 1, get_self at 1.
    rewrite H, Hdb, Hu. reflexivity.
  - intros H. split; [now apply Huris|].
    unfold load_authors. unfold bind at 1, get_self at 1. unfold bind at 1. rewrite H.
    unfold bind at 1. now rewrite (Huris H).
  - intros H. apply (get_analysis_first_step_raises w _ w H).
    apply scansion_uri_raises. now apply (execute_sparql_query_no_uri _ w db).
Qed.

Lemma poem_without_database_init :
  init fixed_hash (Some poem_uri) None = Ok poem_without_database.
Proof. reflexivity. Qed.

Lemma poem_without_uri_init db :
  init fixed_hash None (Some db) = Ok (poem_without_uri db).
Proof. reflexivity. Qed.

Lemma no_database_raises_before_any_call_witness :
  get_title {| self := poem_without_database; calls := [] |} =
    (Raise no_database, {| self := poem_without_database; calls := [] |}) /\
  get_creation_year {| self := poem_without_database; calls := [] |} =
    (Raise no_database, {| self := poem_without_database; calls := [] |}) /\
  (get_author_uris {| self := poem_without_database; calls := [] |} =
     (Raise no_database, {| self := poem_without_database; calls := [] |}) /\
   load_authors {| self := poem_without_database; calls := [] |} =
     (Raise no_database, {| self := poem_without_database; calls := [] |})) /\
  get_analysis {| self := poem_without_database; calls := [] |} =
    (Raise no_database, {| self := poem_without_database; calls := [] |}).
Proof.
  destruct (no_database_raises_before_any_call
              {| self := poem_without_database; calls := [] |} eq_refl)
    as (Htitle & Hyear & Huris & Hanalysis).
  split; [|split; [|split]].
  - apply Htitle. reflexivity.
  - apply Hyear. reflexivity.
  - apply Huris. reflexivity.
  - apply Hanalysis. reflexivity.
Defined.

Lemma no_uri_raises_before_any_call_witness :
  get_title {| self := poem_without_uri empty_db; calls := [] |} =
    (Raise no_uri, {| self := poem_without_uri empty_db; calls := [] |}) /\
  get_creation_year {| self := poem_without_uri empty_db; calls := [] |} =
    (Raise no_uri, {| self := poem_without_uri empty_db; calls := [] |}) /\
  (get_author_uris {| self := poem_without_uri empty_db; calls := [] |} =
     (Raise no_uri, {| self := poem_without_uri empty_db; calls := [] |}) /\
   load_authors {| self := poem_without_uri empty_db; calls := [] |} =
     (Raise no_uri, {| self := poem_without_uri empty_db; calls := [] |})) /\
  get_analysis {| self := poem_without_uri empty_db; calls := [] |} =
    (Raise no_uri, {| self := poem_without_uri empty_db; calls := [] |}).
Proof.
  destruct (no_uri_raises_before_any_call
              {| self := poem_without_uri empty_db; calls := [] |} empty_db eq_refl eq_refl)
    as (Htitle & Hyear & Huris & Hanalysis).
  split; [|split; [|split]].
  - apply Htitle. reflexivity.
  - apply Hyear. reflexivity.
  - apply Huris. reflexivity.
  - apply Hanalysis. reflexivity.
Defined.

(** *** The syllable kind *)

(** X11: [get_number_of_syllables] and
    [get_number_of_syllables_in_stanzas] accept the syllable types
    "metrical" and "grammatical" only; any other string raises "Syllable
    Type is not valid." before the connection is looked at, so nothing is
    sent and the poem object is left as it was. *)
Theorem invalid_syllable_type_raises_first syllable_type w :
  String.eqb syllable_type "metrical" = false ->
  String.eqb syllable_type "grammatical" = false ->
  get_number_of_syllables syllable_type w =
    (Raise (Exception "Syllable Type is not valid."), w) /\
  get_number_of_syllables_in_stanzas syllable_type w =
    (Raise (Exception "Syllable Type is not valid."), w).
Proof.
  intros Hm Hg.
  assert (P : syllable_type_prop syllable_type =
              Raise (Exception "Syllable Type is not valid.")).
  { unfold syllable_type_prop. now rewrite Hm, Hg. }
  split.
  - unfold get_number_of_syllables. apply bind_raise. unfold lift. now rewrite P.
  - unfold get_number_of_syllables_in_stanzas. apply bind_raise. unfold lift. now rewrite P.
Qed.

Lemma invalid_syllable_type_raises_first_witness :
  get_number_of_syllables "Metrical" {| self := poem_without_database; calls := [] |} =
    (Raise (Exception "Syllable Type is not valid."),
     {| self := poem_without_database; calls := [] |}) /\
  get_number_of_syllables_in_stanzas "Metrical"
    {| self := poem_without_database; calls := [] |} =
    (Raise (Exception "Syllable Type is not valid."),
     {| self := poem_without_database; calls := [] |}).
Proof.
  apply (invalid_syllable_type_raises_first "Metrical"
           {| self := poem_without_database; calls := [] |}); reflexivity.
Defined.

(** *** No scansion *)

Lemma scansion_uri_on_no_rows w db u :
  database (self w) = Some db ->
  if_truthy truthy_str (uri (self w)) = Some u ->
  answer db (calls w) PoemAutomaticScansionUri [u] = Ok [] ->
  get_automatic_scansion_uri w =
  (Raise IndexError,
   {| self := self w; calls := calls w ++ [(PoemAutomaticScansionUri, [u])] |}).
Proof.
  intros Hdb Hu Ha. unfold get_automatic_scansion_uri. unfold bind at 1.
  rewrite (Accessors.execute_sparql_query_ok PoemAutomaticScansionUri w db u []
             Hdb Hu eq_refl Ha).
  reflexivity.
Qed.

(** X12: for a poem the store has no automatic scansion of,
    [get_automatic_scansion_uri] raises [IndexError] (it takes element 0 of
    an empty list), and so does [get_analysis], after this one call to the
    store; no analysis is cached. *)
Theorem no_scansion_raises_index_error w db u :
  database (self w) = Some db ->
  if_truthy truthy_str (uri (self w)) = Some u ->
  answer db (calls w) PoemAutomaticScansionUri [u] = Ok [] ->
  get_automatic_scansion_uri w =
    (Raise IndexError,
     {| self := self w; calls := calls w ++ [(PoemAutomaticScansionUri, [u])] |}) /\
  (if_truthy truthy (automatic_analysis (self w)) = None ->
   get_analysis w =
     (Raise IndexError,
      {| self := self w; calls := calls w ++ [(PoemAutomaticScansionUri, [u])] |})).
Proof.
  intros Hdb Hu Ha. split.
  - now apply (scansion_uri_on_no_rows w db u).
  - intros Hc. apply (get_analysis_first_step_raises w _ _ Hc).
    now apply (scansion_uri_on_no_rows w db u).
Qed.

Lemma no_scansion_raises_index_error_witness :
  get_automatic_scansion_uri (new_world empty_db) =
    (Raise IndexError,
     {| self := self (new_world empty_db);
        calls := calls (new_world empty_db) ++ [(PoemAutomaticScansionUri, [poem_uri])] |}) /\
  get_analysis (new_world empty_db) =
    (Raise IndexError,
     {| self := self (new_world empty_db);
        calls := calls (new_world empty_db) ++ [(PoemAutomaticScansionUri, [poem_uri])] |}).
Proof.
  destruct (no_scansion_raises_index_error (new_world empty_db) empty_db poem_uri
              eq_refl eq_refl eq_refl) as [Huri Hanalysis].
  split; [exact Huri|]. apply Hanalysis. reflexivity.
Defined.

End Preconditions.

(** ** The shape of a computed analysis *)

Module AnalysisShape.
Import Py Store Poem Spec Fixtures.
Local Open Scope list_scope.
Local Open Scope py_scope.

Lemma keeps_world_ret {A} (a : A) : keeps_world (ret a).
Proof. intros w. reflexivity. Qed.

Lemma keeps_world_lift {A} (r : result A) : keeps_world (lift r).
Proof. intros w. reflexivity. Qed.

Lemma keeps_world_bind {A B} (m : M A) (f : A -> M B) :
  keeps_world m -> (forall a, keeps_world (f a)) -> keeps_world (bind m f).
Proof.
  intros Hm Hf w. unfold bind. specialize (Hm w).
  destruct (m w) as [[a|e] w1]; simpl in *; subst; [apply Hf|reflexivity].
Qed.

Lemma sends_bind {A B} call (m : M A) (f : A -> M B) :
  sends call m -> (forall a, keeps_world (f a)) -> sends call (bind m f).
Proof.
  intros Hm Hf w b w' u H Hu. unfold bind in H.
  destruct (m w) as [[a|e] w1] eqn:E; [|discriminate].
  pose proof (Hf a w1) as K. rewrite H in K. simpl in K. subst w'.
  exact (Hm w a w1 u E Hu).
Qed.

Lemma sends_after_lift {A B} call (a : A) (f : A -> M B) :
  sends call (f a) -> sends call (bind (lift (Ok a)) f).
Proof. intros H. exact H. Qed.

Lemma sends_bind_and_execute {t} (q : PdStardogQuery t) params :
  sends (fun u => (t, params u)) (bind_and_execute q params).
Proof.
  intros w q' w' u H Hu. unfold bind_and_execute in H.
  unfold bind at 1, get_self at 1 in H.
  destruct (database (self w)) as [db|]; [|discriminate].
  rewrite Hu in H. unfold bind, lift, inject in H.
  destruct (Nat.eqb (List.length (params u)) (arity t)); [|discriminate].
  unfold run_query, execute in H. cbn in H.
  destruct (answer db (calls w) t (params u)); [|discriminate].
  injection H as _ <-. split; reflexivity.
Qed.

Lemma sends_execute_sparql_query {t} (q : PdStardogQuery t) :
  sends (fun u => (t, [u])) (execute_sparql_query q).
Proof.
  intros w rs w' u H Hu. unfold execute_sparql_query in H.
  unfold bind at 1, get_self at 1 in H.
  destruct (database (self w)) as [db|]; [|discriminate].
  rewrite Hu in H. unfold bind, lift, inject in H.
  destruct (Nat.eqb (List.length [u]) (arity t)); [|discriminate].
  unfold run_query, execute in H. cbn in H.
  destruct (answer db (calls w) t [u]); [|discriminate].
  injection H as _ <-. split; reflexivity.
Qed.

Ltac tail :=
  repeat first
    [ apply keeps_world_ret | apply keeps_world_lift
    | apply keeps_world_bind; [|intro] ].

(** Each sub-step of [get_analysis] sends its one call. *)
Lemma analysis_steps_send :
  Forall2 (fun step call => sends call (snd step)) analysis_steps
    [ (fun u => (PoemAutomaticScansionUri, [u]));
      (fun u => (PoemCountStanzas, [u]));
      (fun u => (PoemCountLines, [u]));
      (fun u => (PoemCountWords, [u]));
      (fun u => (PoemCountLinesInStanzas, [u]));
      (fun u => (PoemRhymeSchemesOfStanzas, [u]));
      (fun u => (PoemCountSyllables, [u; "pdp:hasMetricalSyllable"]));
      (fun u => (PoemCountSyllables, [u; "pdp:hasGrammaticalSyllable"]));
      (fun u => (PoemCountSyllablesInStanzas, [u; "pdp:hasMetricalSyllable"]));
      (fun u => (PoemCountSyllablesInStanzas, [u; "pdp:hasGrammaticalSyllable"]));
      (fun u => (PoemCountWordsInStanzas, [u]));
      (fun u => (PoemGrammaticalStressPatternsInStanzas, [u]));
      (fun u => (PoemMetricalPatternsInStanzas, [u])) ].
Proof.
  unfold analysis_steps.
  repeat (constructor;
    [cbn [snd];
     unfold get_automatic_scansion_uri, get_number_of_stanzas, get_number_of_lines,
       get_number_of_words, get_number_of_lines_in_stanzas, get_rhyme_schemes_of_stanzas,
       get_number_of_syllables, get_number_of_syllables_in_stanzas,
       get_number_of_words_in_stanzas, get_grammatical_stress_patterns_in_stanzas,
       get_metrical_patterns_in_stanzas;
     apply sends_bind; [|intro; tail];
     first
       [ apply sends_bind; [apply sends_execute_sparql_query|intro; tail]
       | apply sends_bind; [apply sends_bind_and_execute|intro; tail]
       | apply sends_after_lift;
         apply sends_bind;
         [apply (sends_bind_and_execute _ (fun u => [u; _]))|intro; tail] ]
    |]).
  constructor.
Qed.

Lemma build_dict_sends steps call_fns :
  Forall2 (fun step call => sends call (snd step)) steps call_fns ->
  forall w d w' u,
    build_dict steps w = (Ok d, w') ->
    if_truthy truthy_str (uri (self w)) = Some u ->
    self w' = self w /\ calls w' = calls w ++ map (fun call => call u) call_fns.
Proof.
  induction 1 as [|[k step] call steps call_fns Hstep _ IH]; intros w d w' u H Hu.
  - injection H as _ <-. simpl. now rewrite app_nil_r.
  - rewrite Analysis.build_dict_cons in H. unfold bind at 1 in H.
    destruct (step w) as [[v|e] w1] eqn:E; [|discriminate].
    destruct (Hstep w v w1 u E Hu) as [Hself Hcalls].
    unfold bind in H. destruct (build_dict steps w1) as [[d1|e] w2] eqn:B; [|discriminate].
    injection H as _ <-.
    destruct (IH w1 d1 w2 u B) as [Hself' Hcalls'].
    { now rewrite Hself. }
    split; [congruence|]. rewrite Hcalls', Hcalls. now rewrite <- app_assoc.
Qed.

(** X13: an analysis computed by [get_analysis] is a dict with the thirteen
    keys of the record, in their order; computing it sends thirteen calls
    to the store, one per sub-step in the order of the record, and changes
    nothing of the poem object but [automatic_analysis], which holds the
    record. *)
Theorem computed_analysis_has_thirteen_keys_and_calls w u r w' :
  if_truthy truthy (automatic_analysis (self w)) = None ->
  if_truthy truthy_str (uri (self w)) = Some u ->
  get_analysis w = (Ok r, w') ->
  exists d,
    r = PyDict d /\
    map fst d = analysis_keys /\
    self w' = set_automatic_analysis (Some r) (self w) /\
    calls w' = calls w ++ analysis_calls u.
Proof.
  intros Hc Hu H. rewrite (Analysis.get_analysis_uncached w Hc) in H.
  destruct (build_dict analysis_steps w) as [[d|e] w1] eqn:B; [|discriminate].
  injection H as <- <-. exists d. split; [reflexivity|].
  split; [exact (Analysis.build_dict_keys analysis_steps w d w1 B)|].
  destruct (build_dict_sends _ _ analysis_steps_send w d w1 u B Hu) as [Hself Hcalls].
  cbn [self calls]. rewrite Hself. split; [reflexivity|exact Hcalls].
Qed.

Lemma computed_analysis_has_thirteen_keys_and_calls_witness :
  exists d,
    stored_poem_analysis = PyDict d /\
    map fst d = analysis_keys /\
    self (snd (get_analysis (new_world stored_poem_db))) =
      set_automatic_analysis (Some stored_poem_analysis) (self (new_world stored_poem_db)) /\
    calls (snd (get_analysis (new_world stored_poem_db))) =
      calls (new_world stored_poem_db) ++ analysis_calls poem_uri.
Proof.
  apply (computed_analysis_has_thirteen_keys_and_calls (new_world stored_poem_db) poem_uri).
  - reflexivity.
  - reflexivity.
  - vm_compute. reflexivity.
Defined.

End AnalysisShape.

(** ** Identifiers derived from the URI *)

Module Identity.
Import Py Store Poem Spec Fixtures.
Local Open Scope list_scope.

Lemma truthy_str_append a c b : truthy_str (a ++ String c b)%string = true.
Proof. destruct a; reflexivity. Qed.

Lemma poetry_lab_url_cached base_url lang w url :
  if_truthy truthy_str (poetry_lab_url (self w)) = Some url ->
  get_poetry_lab_url base_url lang w = (Ok url, w).
Proof.
  intros H. unfold get_poetry_lab_url. unfold bind at 1, get_self at 1. now rewrite H.
Qed.

Lemma split_parts_ok w u p0 a t rest :
  if_truthy truthy_str (uri (self w)) = Some u ->
  split "_" u = p0 :: a :: t :: rest ->
  split_uri_in_author_poem_parts w = (Ok [a; t], w).
Proof.
  intros Hu Hs. unfold split_uri_in_author_poem_parts.
  unfold bind at 1, get_self at 1. rewrite Hu, Hs. reflexivity.
Qed.

Lemma split_parts_short w u :
  if_truthy truthy_str (uri (self w)) = Some u ->
  (List.length (split "_" u) < 3)%nat ->
  split_uri_in_author_poem_parts w = (Raise IndexError, w).
Proof.
  intros Hu Hs. unfold split_uri_in_author_poem_parts.
  unfold bind at 1, get_self at 1. rewrite Hu.
  destruct (split "_" u) as [|p0 [|a [|t rest]]]; try reflexivity.
  simpl in Hs. lia.
Qed.

Lemma split_parts_no_uri w :
  if_truthy truthy_str (uri (self w)) = None ->
  split_uri_in_author_poem_parts w =
    (Raise (Exception "URI of the poem has not been defined."), w).
Proof.
  intros Hu. unfold split_uri_in_author_poem_parts.
  unfold bind at 1, get_self at 1. now rewrite Hu.
Qed.

Lemma poetry_lab_url_raises base_url lang w e :
  if_truthy truthy_str (poetry_lab_url (self w)) = None ->
  split_uri_in_author_poem_parts w = (Raise e, w) ->
  get_poetry_lab_url base_url lang w = (Raise e, w).
Proof.
  intros Hc H. unfold get_poetry_lab_url. unfold bind at 1, get_self at 1. rewrite Hc.
  unfold bind. now rewrite H.
Qed.

Lemma get_metadata_raises_with_url author_metadata include_authors include_analysis w e :
  get_poetry_lab_url "http://poetry.linhd.uned.es:3000" "en" w = (Raise e, w) ->
  get_metadata author_metadata include_authors include_analysis w = (Raise e, w).
Proof.
  intros H. unfold get_metadata. unfold bind at 1, get_self at 1.
  unfold bind at 1. now rewrite H.
Qed.

(** X14: the Poetry Lab URL is built from the second and third segment of
    the URI split at "_", as base/lang/author/<second>/poetic-work/<third>,
    without a call to the store, and kept in [self.poetry_lab_url]; every
    later call returns the URL built first, whatever base URL and language
    it is given. *)
Theorem poetry_lab_url_is_built_once base_url lang w u p0 a t rest :
  if_truthy truthy_str (poetry_lab_url (self w)) = None ->
  if_truthy truthy_str (uri (self w)) = Some u ->
  split "_" u = p0 :: a :: t :: rest ->
  exists w',
    get_poetry_lab_url base_url lang w =
      (Ok (base_url ++ "/" ++ lang ++ "/author/" ++ a ++ "/poetic-work/" ++ t)%string, w') /\
    poetry_lab_url (self w') =
      Some (base_url ++ "/" ++ lang ++ "/author/" ++ a ++ "/poetic-work/" ++ t)%string /\
    calls w' = calls w /\
    (forall base_url' lang',
        get_poetry_lab_url base_url' lang' w' =
          (Ok (base_url ++ "/" ++ lang ++ "/author/" ++ a ++ "/poetic-work/" ++ t)%string,
           w')).
Proof.
  intros Hc Hu Hs. eexists.
  assert (G : get_poetry_lab_url base_url lang w =
    (Ok (base_url ++ "/" ++ lang ++ "/author/" ++ a ++ "/poetic-work/" ++ t)%string,
     {| self := set_poetry_lab_url
                  (Some (base_url ++ "/" ++ lang ++ "/author/" ++ a
                         ++ "/poetic-work/" ++ t)%string) (self w);
        calls := calls w |})).
  { unfold get_poetry_lab_url. unfold bind at 1, get_self at 1. rewrite Hc.
    unfold bind at 1. rewrite (split_parts_ok w u p0 a t rest Hu Hs). reflexivity. }
  split; [exact G|]. split; [reflexivity|]. split; [reflexivity|].
  intros base_url' lang'. apply poetry_lab_url_cached.
  unfold if_truthy. cbn [self poetry_lab_url set_poetry_lab_url].
  change ("/" ++ lang ++ "/author/" ++ a ++ "/poetic-work/" ++ t)%string
    with (String "/" (lang ++ "/author/" ++ a ++ "/poetic-work/" ++ t))%string.
  now rewrite truthy_str_append.
Qed.

Lemma poetry_lab_url_is_built_once_witness :
  exists w',
    get_poetry_lab_url "http://poetry.linhd.uned.es:3000" "es" (new_world empty_db) =
      (Ok ("http://poetry.linhd.uned.es:3000" ++ "/" ++ "es" ++ "/author/"
           ++ "juana-ines-de-la-cruz" ++ "/poetic-work/" ++ "sabras-querido-fabio")%string,
       w') /\
    poetry_lab_url (self w') =
      Some ("http://poetry.linhd.uned.es:3000" ++ "/" ++ "es" ++ "/author/"
            ++ "juana-ines-de-la-cruz" ++ "/poetic-work/" ++ "sabras-querido-fabio")%string /\
    calls w' = calls (new_world empty_db) /\
    (forall base_url' lang',
        get_poetry_lab_url base_url' lang' w' =
          (Ok ("http://poetry.linhd.uned.es:3000" ++ "/" ++ "es" ++ "/author/"
               ++ "juana-ines-de-la-cruz" ++ "/poetic-work/"
               ++ "sabras-querido-fabio")%string, w')).
Proof.
  apply (poetry_lab_url_is_built_once "http://poetry.linhd.uned.es:3000" "es"
           (new_world empty_db) poem_uri "http://postdata.linhd.uned.es/resource/pw"
           "juana-ines-de-la-cruz" "sabras-querido-fabio" []); reflexivity.
Defined.

(** X15: for a poem without a URI [get_poetry_lab_url] raises "URI of the
    poem has not been defined.", and for a URI with fewer than three
    segments between "_" it raises [IndexError]; [get_metadata], which
    always asks for this URL, fails the same way whatever it is asked to
    include, and the state is left as it was. *)
Theorem malformed_uri_breaks_url_and_metadata
    (author_metadata : PostdataAuthor -> result pyval) include_authors include_analysis w :
  if_truthy truthy_str (poetry_lab_url (self w)) = None ->
  (if_truthy truthy_str (uri (self w)) = None ->
   (forall base_url lang,
       get_poetry_lab_url base_url lang w =
         (Raise (Exception "URI of the poem has not been defined."), w)) /\
   get_metadata author_metadata include_authors include_analysis w =
     (Raise (Exception "URI of the poem has not been defined."), w)) /\
  (forall u,
      if_truthy truthy_str (uri (self w)) = Some u ->
      (List.length (split "_" u) < 3)%nat ->
      (forall base_url lang, get_poetry_lab_url base_url lang w = (Raise IndexError, w)) /\
      get_metadata author_metadata include_authors include_analysis w =
        (Raise IndexError, w)).
Proof.
  intros Hc. split.
  - intros Hu.
    assert (G : forall base_url lang,
              get_poetry_lab_url base_url lang w =
                (Raise (Exception "URI of the poem has not been defined."), w)).
    { intros. apply poetry_lab_url_raises; [exact Hc|now apply split_parts_no_uri]. }
    split; [exact G|]. apply get_metadata_raises_with_url. apply G.
  - intros u Hu Hs.
    assert (G : forall base_url lang,
              get_poetry_lab_url base_url lang w = (Raise IndexError, w)).
    { intros. apply poetry_lab_url_raises; [exact Hc|now apply (split_parts_short w u)]. }
    split; [exact G|]. apply get_metadata_raises_with_url. apply G.
Qed.

Lemma malformed_uri_breaks_url_and_metadata_witness :
  ((forall base_url lang,
       get_poetry_lab_url base_url lang {| self := poem_without_uri empty_db; calls := [] |} =
         (Raise (Exception "URI of the poem has not been defined."),
          {| self := poem_without_uri empty_db; calls := [] |})) /\
   get_metadata (fun _ => Ok PyNone) false false
     {| self := poem_without_uri empty_db; calls := [] |} =
     (Raise (Exception "URI of the poem has not been defined."),
      {| self := poem_without_uri empty_db; calls := [] |})) /\
  ((forall base_url lang,
       get_poetry_lab_url base_url lang {| self := poem_with_short_uri; calls := [] |} =
         (Raise IndexError, {| self := poem_with_short_uri; calls := [] |})) /\
   get_metadata (fun _ => Ok PyNone) true true
     {| self := poem_with_short_uri; calls := [] |} =
     (Raise IndexError, {| self := poem_with_short_uri; calls := [] |})).
Proof.
  split.
  - apply (proj1 (malformed_uri_breaks_url_and_metadata (fun _ => Ok PyNone) false false
                    {| self := poem_without_uri empty_db; calls := [] |} eq_refl)).
    reflexivity.
  - apply (proj2 (malformed_uri_breaks_url_and_metadata (fun _ => Ok PyNone) true true
                    {| self := poem_with_short_uri; calls := [] |} eq_refl)
             "http://postdata.linhd.uned.es/resource/pw_anonymous").
    + reflexivity.
    + simpl. lia.
Defined.

(** X16: the constructor keeps a truthy URI, derives the identifier from
    it with [shorthash] and the name from its second and third segment
    joined by "_"; a URI with fewer than three segments makes it raise
    [IndexError]; without a URI (or with an empty one) the poem has
    neither URI, identifier nor name.  A new poem has nothing cached. *)
Theorem init_derives_identifier_and_name (shorthash : string -> string) db :
  (forall u p0 a t rest,
      truthy_str u = true ->
      split "_" u = p0 :: a :: t :: rest ->
      exists p,
        init shorthash (Some u) db = Ok p /\
        uri p = Some u /\ database p = db /\
        id p = Some (shorthash u) /\ name p = Some (a ++ "_" ++ t)%string /\
        title p = None /\ creation_year p = None /\ poetry_lab_url p = None /\
        author_uris p = None /\ authors p = None /\ automatic_analysis p = None) /\
  (forall u,
      truthy_str u = true ->
      (List.length (split "_" u) < 3)%nat ->
      init shorthash (Some u) db = Raise IndexError) /\
  (forall uri_arg,
      if_truthy truthy_str uri_arg = None ->
      exists p,
        init shorthash uri_arg db = Ok p /\
        uri p = None /\ id p = None /\ name p = None /\ database p = db).
Proof.
  split; [|split].
  - intros u p0 a t rest Hu Hs. eexists. unfold init. cbn [if_truthy].
    rewrite Hu, Hs. cbn. repeat split.
  - intros u Hu Hs. unfold init. cbn [if_truthy]. rewrite Hu.
    destruct (split "_" u) as [|p0 [|a [|t rest]]]; try reflexivity.
    simpl in Hs. lia.
  - intros uri_arg Hu. eexists. unfold init. rewrite Hu. cbn. repeat split.
Qed.

Lemma init_derives_identifier_and_name_witness :
  (exists p,
     init fixed_hash (Some "http://x.org/pw_ana_el-rio_v2") (Some empty_db) = Ok p /\
     uri p = Some "http://x.org/pw_ana_el-rio_v2" /\ database p = Some empty_db /\
     id p = Some (fixed_hash "http://x.org/pw_ana_el-rio_v2") /\
     name p = Some ("ana" ++ "_" ++ "el-rio")%string /\
     title p = None /\ creation_year p = None /\ poetry_lab_url p = None /\
     author_uris p = None /\ authors p = None /\ automatic_analysis p = None) /\
  init fixed_hash (Some "http://x.org/pw_ana") (Some empty_db) = Raise IndexError /\
  (exists p,
     init fixed_hash (Some "") (Some empty_db) = Ok p /\
     uri p = None /\ id p = None /\ name p = None /\ database p = Some empty_db).
Proof.
  destruct (init_derives_identifier_and_name fixed_hash (Some empty_db))
    as (Hok & Hshort & Hnone).
  split; [|split].
  - apply (Hok "http://x.org/pw_ana_el-rio_v2" "http://x.org/pw" "ana" "el-rio" ["v2"]);
      reflexivity.
  - apply (Hshort "http://x.org/pw_ana"); [reflexivity|simpl; lia].
  - apply (Hnone (Some "")). reflexivity.
Defined.

End Identity.

(** ** Authors and serialisation *)

Module Authors.
Import Py Store Poem Spec Fixtures.
Local Open Scope list_scope.

Lemma get_author_uris_some w db u r rest :
  if_truthy truthy_list (author_uris (self w)) = None ->
  database (self w) = Some db ->
  if_truthy truthy_str (uri (self w)) = Some u ->
  answer db (calls w) PoemAuthorUris [u] = Ok (r :: rest) ->
  get_author_uris w =
  (Ok (Some (map (plain_row (one_field (r :: rest))) (r :: rest))),
   {| self := set_author_uris (Some (map (plain_row (one_field (r :: rest))) (r :: rest)))
                (set_sparql_author_uris
                   {| parameters := [u]; results := Some (r :: rest) |} (self w));
      calls := calls w ++ [(PoemAuthorUris, [u])] |}).
Proof.
  intros Ht Hdb Hu Ha. unfold get_author_uris.
  unfold bind at 1, get_self at 1. rewrite Ht, Hdb, Hu.
  unfold bind, get_self, lift, assign, inject. cbn -[simplify].
  rewrite (Accessors.run_query_ok _ db _ (r :: rest)) by exact Ha. cbn -[simplify].
  rewrite Accessors.simplify_unmapped. reflexivity.
Qed.

Lemma load_authors_cached w uris :
  if_truthy truthy_list (author_uris (self w)) = Some uris ->
  load_authors w =
  (Ok true,
   {| self := set_authors
                (Some (map (fun x => {| author_uri := x;
                                        author_database := database (self w) |}) uris))
                (self w);
      calls := calls w |}).
Proof.
  intros H. unfold load_authors. unfold bind at 1, get_self at 1. unfold bind at 1.
  rewrite H. unfold bind, get_self, ret, assign. cbn. now rewrite H.
Qed.

Lemma load_authors_some w db u r rest :
  if_truthy truthy_list (author_uris (self w)) = None ->
  database (self w) = Some db ->
  if_truthy truthy_str (uri (self w)) = Some u ->
  answer db (calls w) PoemAuthorUris [u] = Ok (r :: rest) ->
  load_authors w =
  (Ok true,
   {| self :=
        set_authors
          (Some (map (fun x => {| author_uri := x; author_database := Some db |})
                   (map (plain_row (one_field (r :: rest))) (r :: rest))))
          (set_author_uris (Some (map (plain_row (one_field (r :: rest))) (r :: rest)))
             (set_sparql_author_uris
                {| parameters := [u]; results := Some (r :: rest) |} (self w)));
      calls := calls w ++ [(PoemAuthorUris, [u])] |}).
Proof.
  intros Ht Hdb Hu Ha.
  unfold load_authors. unfold bind at 1, get_self at 1. unfold bind at 1. rewrite Ht.
  unfold bind at 1. rewrite (get_author_uris_some w db u r rest Ht Hdb Hu Ha).
  unfold bind, get_self, ret, assign. cbn -[map one_field plain_row]. rewrite Hdb.
  reflexivity.
Qed.

(** X17: when the author query yields rows, [load_authors] returns [True]
    after one call to the store, keeps the simplified rows in
    [self.author_uris] and builds one author per row, in the order of the
    rows, each over the connection of the poem; loading again sends
    nothing to the store. *)
Theorem load_authors_builds_one_author_per_row w db u r rest :
  if_truthy truthy_list (author_uris (self w)) = None ->
  database (self w) = Some db ->
  if_truthy truthy_str (uri (self w)) = Some u ->
  answer db (calls w) PoemAuthorUris [u] = Ok (r :: rest) ->
  exists uris w',
    simplify [] (r :: rest) = Ok uris /\
    load_authors w = (Ok true, w') /\
    author_uris (self w') = Some uris /\
    authors (self w') =
      Some (map (fun x => {| author_uri := x; author_database := Some db |}) uris) /\
    calls w' = calls w ++ [(PoemAuthorUris, [u])] /\
    load_authors w' = (Ok true, w').
Proof.
  intros Ht Hdb Hu Ha.
  exists (map (plain_row (one_field (r :: rest))) (r :: rest)). eexists.
  split; [apply Accessors.simplify_unmapped|].
  split; [exact (load_authors_some w db u r rest Ht Hdb Hu Ha)|]. split; [reflexivity|]. split; [reflexivity|].
  split; [reflexivity|].
  rewrite (load_authors_cached _ (map (plain_row (one_field (r :: rest))) (r :: rest)))
    by reflexivity.
  cbn -[map one_field plain_row]. rewrite Hdb. reflexivity.
Qed.

Lemma load_authors_builds_one_author_per_row_witness :
  exists uris w',
    simplify [] [[("author", "http://postdata.linhd.uned.es/resource/p_juana")];
                 [("author", "http://postdata.linhd.uned.es/resource/p_anon")]] = Ok uris /\
    load_authors (new_world two_authors_db) = (Ok true, w') /\
    author_uris (self w') = Some uris /\
    authors (self w') =
      Some (map (fun x => {| author_uri := x; author_database := Some two_authors_db |})
              uris) /\
    calls w' = calls (new_world two_authors_db) ++ [(PoemAuthorUris, [poem_uri])] /\
    load_authors w' = (Ok true, w').
Proof.
  apply (load_authors_builds_one_author_per_row (new_world two_authors_db) two_authors_db
           poem_uri); reflexivity.
Defined.

(** X18: with [include_authors=True] on a poem whose author query yields
    rows, [get_metadata] asks every author for its metadata in the order
    of the rows and returns the five basic keys followed by "authors" with
    the list of what the authors returned; the first author whose
    [get_metadata] raises makes the poem's [get_metadata] raise the same
    exception. *)
Theorem get_metadata_lists_authors_in_order
    (author_metadata : PostdataAuthor -> result pyval) w db u source w1 r rest :
  get_poetry_lab_url "http://poetry.linhd.uned.es:3000" "en" w = (Ok source, w1) ->
  if_truthy truthy_list (author_uris (self w)) = None ->
  database (self w) = Some db ->
  if_truthy truthy_str (uri (self w)) = Some u ->
  answer db (calls w) PoemAuthorUris [u] = Ok (r :: rest) ->
  exists uris w2,
    simplify [] (r :: rest) = Ok uris /\
    load_authors w1 = (Ok true, w2) /\
    get_metadata author_metadata true false w =
      (rmap (fun items =>
               [("id", of_option PyStr (id (self w)));
                ("uri", of_option PyStr (uri (self w)));
                ("name", of_option PyStr (name (self w)));
                ("source", PyStr source);
                ("sourceUri", PyStr "POSTDATA Poetry Lab");
                ("authors", PyList items)])
         (traverse author_metadata
            (map (fun x => {| author_uri := x; author_database := Some db |}) uris)),
       w2).
Proof.
  intros Hurl Ht Hdb Hu Ha.
  destruct (Metadata.get_poetry_lab_url_frame _ _ _ _ _ Hurl)
    as (Hcalls & Hdb1 & Hu1 & Hau1 & _).
  rewrite <- Hau1 in Ht. rewrite <- Hdb1 in Hdb. rewrite <- Hu1 in Hu.
  rewrite <- Hcalls in Ha.
  pose proof (load_authors_some w1 db u r rest Ht Hdb Hu Ha) as Hload.
  exists (map (plain_row (one_field (r :: rest))) (r :: rest)). eexists.
  split; [apply Accessors.simplify_unmapped|]. split; [exact Hload|].
  unfold get_metadata.
  rewrite (Metadata.bind_ok get_self _ w (self w) w eq_refl).
  rewrite (Metadata.bind_ok _ _ w source w1 Hurl). cbv zeta.
  unfold bind at 1. rewrite (Metadata.bind_ok load_authors _ w1 true _ Hload).
  rewrite (Metadata.bind_ok get_self _ _ _ _ eq_refl).
  cbn [self authors set_authors]. unfold bind, lift, ret.
  destruct (traverse author_metadata _) as [items|e]; reflexivity.
Qed.

Lemma get_metadata_lists_authors_in_order_witness :
  exists uris w2,
    simplify [] [[("author", "http://postdata.linhd.uned.es/resource/p_juana")];
                 [("author", "http://postdata.linhd.uned.es/resource/p_anon")]] = Ok uris /\
    load_authors
      {| self := set_poetry_lab_url
                   (Some "http://poetry.linhd.uned.es:3000/en/author/juana-ines-de-la-cruz/poetic-work/sabras-querido-fabio")
                   (new_poem two_authors_db);
         calls := [] |} = (Ok true, w2) /\
    get_metadata (fun a => Ok (of_binding (author_uri a))) true false
      (new_world two_authors_db) =
      (rmap (fun items =>
               [("id", of_option PyStr (id (self (new_world two_authors_db))));
                ("uri", of_option PyStr (uri (self (new_world two_authors_db))));
                ("name", of_option PyStr (name (self (new_world two_authors_db))));
                ("source",
                 PyStr "http://poetry.linhd.uned.es:3000/en/author/juana-ines-de-la-cruz/poetic-work/sabras-querido-fabio");
                ("sourceUri", PyStr "POSTDATA Poetry Lab");
                ("authors", PyList items)])
         (traverse (fun a => Ok (of_binding (author_uri a)))
            (map (fun x => {| author_uri := x; author_database := Some two_authors_db |})
               uris)),
       w2).
Proof.
  apply (get_metadata_lists_authors_in_order (fun a => Ok (of_binding (author_uri a)))
           (new_world two_authors_db) two_authors_db poem_uri
           "http://poetry.linhd.uned.es:3000/en/author/juana-ines-de-la-cruz/poetic-work/sabras-querido-fabio");
    reflexivity.
Defined.

(** X19: called with its defaults, [get_metadata] sends nothing to the
    store: for a poem whose Poetry Lab URL can be built it returns the
    five basic keys, with the identifier, URI and name of the poem, and
    touches nothing but the cached URL. *)
Theorem basic_metadata_needs_no_store
    (author_metadata : PostdataAuthor -> result pyval) w source w1 :
  get_poetry_lab_url "http://poetry.linhd.uned.es:3000" "en" w = (Ok source, w1) ->
  get_metadata author_metadata false false w =
    (Ok [("id", of_option PyStr (id (self w)));
         ("uri", of_option PyStr (uri (self w)));
         ("name", of_option PyStr (name (self w)));
         ("source", PyStr source);
         ("sourceUri", PyStr "POSTDATA Poetry Lab")], w1) /\
  calls w1 = calls w /\
  author_uris (self w1) = author_uris (self w) /\
  authors (self w1) = authors (self w) /\
  automatic_analysis (self w1) = automatic_analysis (self w).
Proof.
  intros Hurl. split.
  - unfold get_metadata.
    rewrite (Metadata.bind_ok get_self _ w (self w) w eq_refl).
    rewrite (Metadata.bind_ok _ _ w source w1 Hurl). reflexivity.
  - revert Hurl.
    unfold get_poetry_lab_url, split_uri_in_author_poem_parts, bind, get_self, lift, assign,
      ret, raise.
    destruct (if_truthy truthy_str (poetry_lab_url (self w))).
    + intros H. injection H as _ <-. repeat split.
    + destruct (if_truthy truthy_str (uri (self w))) as [u|]; [|discriminate].
      destruct (getitem_list (split "_" u) 1); cbn; [|discriminate].
      destruct (getitem_list (split "_" u) 2); cbn; [|discriminate].
      intros H. injection H as _ <-. repeat split.
Qed.

Lemma basic_metadata_needs_no_store_witness :
  get_metadata (fun _ => Raise TypeError) false false (new_world empty_db) =
    (Ok [("id", of_option PyStr (id (self (new_world empty_db))));
         ("uri", of_option PyStr (uri (self (new_world empty_db))));
         ("name", of_option PyStr (name (self (new_world empty_db))));
         ("source",
          PyStr "http://poetry.linhd.uned.es:3000/en/author/juana-ines-de-la-cruz/poetic-work/sabras-querido-fabio");
         ("sourceUri", PyStr "POSTDATA Poetry Lab")],
     {| self := set_poetry_lab_url
                  (Some "http://poetry.linhd.uned.es:3000/en/author/juana-ines-de-la-cruz/poetic-work/sabras-querido-fabio")
                  (new_poem empty_db);
        calls := [] |}) /\
  calls {| self := set_poetry_lab_url
                     (Some "http://poetry.linhd.uned.es:3000/en/author/juana-ines-de-la-cruz/poetic-work/sabras-querido-fabio")
                     (new_poem empty_db);
           calls := [] |} = calls (new_world empty_db) /\
  author_uris (set_poetry_lab_url
                 (Some "http://poetry.linhd.uned.es:3000/en/author/juana-ines-de-la-cruz/poetic-work/sabras-querido-fabio")
                 (new_poem empty_db)) = author_uris (self (new_world empty_db)) /\
  authors (set_poetry_lab_url
             (Some "http://poetry.linhd.uned.es:3000/en/author/juana-ines-de-la-cruz/poetic-work/sabras-querido-fabio")
             (new_poem empty_db)) = authors (self (new_world empty_db)) /\
  automatic_analysis
    (set_poetry_lab_url
       (Some "http://poetry.linhd.uned.es:3000/en/author/juana-ines-de-la-cruz/poetic-work/sabras-querido-fabio")
       (new_poem empty_db)) = automatic_analysis (self (new_world empty_db)).
Proof.
  apply (basic_metadata_needs_no_store (fun _ => Raise TypeError) (new_world empty_db)
           "http://poetry.linhd.uned.es:3000/en/author/juana-ines-de-la-cruz/poetic-work/sabras-querido-fabio").
  reflexivity.
Defined.

End Authors.

(** ** From the rows of the store to the stanzas of the analysis *)

Module EndToEnd.
Import Py Store Poem Spec Fixtures.
Local Open Scope list_scope.

Lemma bind_and_execute_ok t params w db u rs :
  database (self w) = Some db ->
  if_truthy truthy_str (uri (self w)) = Some u ->
  Nat.eqb (List.length (params u)) (arity t) = true ->
  answer db (calls w) t (params u) = Ok rs ->
  bind_and_execute (new_query t) params w =
  (Ok {| parameters := params u; results := Some rs |},
   {| self := self w; calls := calls w ++ [(t, params u)] |}).
Proof.
  intros Hdb Hu Har Ha. unfold bind_and_execute.
  unfold bind at 1, get_self at 1. rewrite Hdb, Hu.
  unfold bind, lift, inject. cbn [new_query parameters results]. rewrite Har.
  rewrite (Accessors.run_query_ok _ db _ rs) by exact Ha. reflexivity.
Qed.

Lemma simplify_stanza_rows stanza_key value_key cells :
  simplify [] (map (stanza_row stanza_key value_key) cells) =
  Ok (map (fun cell => Row [(stanza_key, SStr (fst cell)); (value_key, SStr (snd cell))])
        cells).
Proof.
  rewrite Accessors.simplify_unmapped, map_map. f_equal.
  apply map_ext. intros cell. unfold plain_row, stanza_row.
  now destruct (one_field _).
Qed.

(** Rows with positive stanza numbers come out with all their values, in
    their order. *)
Lemma group_positive_concat key vkey dt rows pairs :
  traverse (read_binding key vkey dt) rows = Ok pairs ->
  Forall positive_stanza pairs ->
  exists out,
    group_feature_by_stanzas rows key vkey dt = Ok out /\
    List.concat out = map snd pairs.
Proof.
  intros Hread Hpos. unfold group_feature_by_stanzas.
  rewrite (StanzaGrouping.for_loop_read key vkey dt rows pairs start Hread).
  destruct pairs as [|r pairs].
  - exists [[]]. split; reflexivity.
  - destruct (StanzaGrouping.place_loop_start r pairs Hpos) as (g & Hg & Hf).
    exists (finish g). rewrite Hg. split; [reflexivity|].
    rewrite Hf, <- concat_map. now rewrite StanzaGrouping.runs_concat.
Qed.

Lemma read_count_rows key vkey cells : forall counts,
  String.eqb vkey key = false ->
  Forall (fun cell => exists n, int_of_str (fst cell) = Ok n /\ 0 < n) cells ->
  traverse (fun cell => int_of_str (snd cell)) cells = Ok counts ->
  exists pairs,
    traverse (read_binding key vkey "int")
      (map (fun cell => Row [(key, SStr (fst cell)); (vkey, SStr (snd cell))]) cells) =
      Ok pairs /\
    Forall positive_stanza pairs /\
    map snd pairs = map SInt counts.
Proof.
  induction cells as [|cell cells IH]; intros counts Hk Hpos Hc.
  - injection Hc as <-. exists []. repeat split. constructor.
  - inversion Hpos as [|? ? Hp Hpos']; subst. simpl in Hc.
    destruct (int_of_str (snd cell)) as [m|e] eqn:Hm; simpl in Hc; [|discriminate].
    destruct (traverse (fun c => int_of_str (snd c)) cells) as [ms|e] eqn:Hms;
      simpl in Hc; [|discriminate].
    injection Hc as <-.
    destruct (IH ms Hk Hpos' eq_refl) as (pairs & Hread & Hall & Hsnd).
    exists ((SStr (fst cell), SInt m) :: pairs).
    split; [|split].
    + cbn [map traverse]. unfold read_binding at 1, getitem. cbn [lookup].
      rewrite String.eqb_refl, Hk, String.eqb_refl. cbn [rbind].
      rewrite StanzaGrouping.coerce_int. cbn [py_int]. rewrite Hm. cbn [rmap rbind].
      now rewrite Hread.
    + constructor; [exact Hp|exact Hall].
    + simpl. now rewrite Hsnd.
Qed.

Lemma read_pattern_rows key vkey cells :
  String.eqb vkey key = false ->
  Forall (fun cell => exists n, int_of_str (fst cell) = Ok n /\ 0 < n) cells ->
  exists pairs,
    traverse (read_binding key vkey "str")
      (map (fun cell => Row [(key, SStr (fst cell)); (vkey, SStr (snd cell))]) cells) =
      Ok pairs /\
    Forall positive_stanza pairs /\
    map snd pairs = map (fun cell => SStr (snd cell)) cells.
Proof.
  intros Hk. induction 1 as [|cell cells Hp _ IH].
  - exists []. repeat split. constructor.
  - destruct IH as (pairs & Hread & Hall & Hsnd).
    exists ((SStr (fst cell), SStr (snd cell)) :: pairs).
    split; [|split].
    + cbn [map traverse]. unfold read_binding at 1, getitem. cbn [lookup].
      rewrite String.eqb_refl, Hk, String.eqb_refl. cbn [rbind].
      change (coerce "str" (SStr (snd cell))) with (Ok (SStr (snd cell))).
      cbn [rbind]. now rewrite Hread.
    + constructor; [exact Hp|exact Hall].
    + simpl. now rewrite Hsnd.
Qed.

(** X20: when the store returns, for the words of a poem, rows with the
    fields "StanzaNo" and "count" that hold a positive stanza number and a
    numeral, [get_number_of_words_in_stanzas] returns stanzas that,
    read one after the other, hold exactly one integer per row, in the
    order of the rows; it sends one call and leaves the poem object as it
    was. *)
Theorem words_in_stanzas_keep_one_count_per_row w db u cells counts :
  database (self w) = Some db ->
  if_truthy truthy_str (uri (self w)) = Some u ->
  answer db (calls w) PoemCountWordsInStanzas [u] =
    Ok (map (stanza_row "StanzaNo" "count") cells) ->
  Forall (fun cell => exists n, int_of_str (fst cell) = Ok n /\ 0 < n) cells ->
  traverse (fun cell => int_of_str (snd cell)) cells = Ok counts ->
  exists out,
    get_number_of_words_in_stanzas w =
      (Ok out,
       {| self := self w; calls := calls w ++ [(PoemCountWordsInStanzas, [u])] |}) /\
    List.concat out = map SInt counts.
Proof.
  intros Hdb Hu Ha Hpos Hc.
  destruct (read_count_rows "StanzaNo" "count" cells counts eq_refl Hpos Hc)
    as (pairs & Hread & Hall & Hsnd).
  destruct (group_positive_concat "StanzaNo" "count" "int" _ pairs Hread Hall)
    as (out & Hout & Hcat).
  exists out. split; [|now rewrite Hcat].
  unfold get_number_of_words_in_stanzas. unfold bind at 1.
  rewrite (bind_and_execute_ok PoemCountWordsInStanzas (fun u => [u]) w db u _
             Hdb Hu eq_refl Ha).
  unfold bind, lift, simplify_results. cbn [results].
  rewrite simplify_stanza_rows, Hout. reflexivity.
Qed.

Lemma words_in_stanzas_keep_one_count_per_row_witness :
  exists out,
    get_number_of_words_in_stanzas (new_world stored_poem_db) =
      (Ok out,
       {| self := self (new_world stored_poem_db);
          calls := calls (new_world stored_poem_db) ++
                   [(PoemCountWordsInStanzas, [poem_uri])] |}) /\
    List.concat out = map SInt [4; 8; 5].
Proof.
  apply (words_in_stanzas_keep_one_count_per_row (new_world stored_poem_db) stored_poem_db
           poem_uri [("1", "4"); ("1", "8"); ("2", "5")] [4; 8; 5]); try reflexivity.
  repeat (constructor; [eexists; split; reflexivity|]). constructor.
Defined.

(** X21: the stress patterns and the metrical patterns pass through
    normalisation and grouping unchanged: when the rows of the store carry
    positive stanza numbers, the stanzas the two pattern methods return,
    read one after the other, hold the pattern strings of the rows as they
    are, in the order of the rows. *)
Theorem patterns_pass_through_unchanged w db u cells :
  database (self w) = Some db ->
  if_truthy truthy_str (uri (self w)) = Some u ->
  Forall (fun cell => exists n, int_of_str (fst cell) = Ok n /\ 0 < n) cells ->
  (answer db (calls w) PoemGrammaticalStressPatternsInStanzas [u] =
     Ok (map (stanza_row "StanzaNumber" "grammaticalStressPattern") cells) ->
   exists out,
     get_grammatical_stress_patterns_in_stanzas w =
       (Ok out,
        {| self := self w;
           calls := calls w ++ [(PoemGrammaticalStressPatternsInStanzas, [u])] |}) /\
     List.concat out = map (fun cell => SStr (snd cell)) cells) /\
  (answer db (calls w) PoemMetricalPatternsInStanzas [u] =
     Ok (map (stanza_row "StanzaNumber" "metricalPattern") cells) ->
   exists out,
     get_metrical_patterns_in_stanzas w =
       (Ok out,
        {| self := self w; calls := calls w ++ [(PoemMetricalPatternsInStanzas, [u])] |}) /\
     List.concat out = map (fun cell => SStr (snd cell)) cells).
Proof.
  intros Hdb Hu Hpos. split; intros Ha.
  - destruct (read_pattern_rows "StanzaNumber" "grammaticalStressPattern" cells eq_refl Hpos)
      as (pairs & Hread & Hall & Hsnd).
    destruct (group_positive_concat _ _ "str" _ pairs Hread Hall) as (out & Hout & Hcat).
    exists out. split; [|now rewrite Hcat].
    unfold get_grammatical_stress_patterns_in_stanzas. unfold bind at 1.
    rewrite (bind_and_execute_ok PoemGrammaticalStressPatternsInStanzas (fun u => [u])
               w db u _ Hdb Hu eq_refl Ha).
    unfold bind, lift, simplify_results. cbn [results].
    rewrite simplify_stanza_rows, Hout. reflexivity.
  - destruct (read_pattern_rows "StanzaNumber" "metricalPattern" cells eq_refl Hpos)
      as (pairs & Hread & Hall & Hsnd).
    destruct (group_positive_concat _ _ "str" _ pairs Hread Hall) as (out & Hout & Hcat).
    exists out. split; [|now rewrite Hcat].
    unfold get_metrical_patterns_in_stanzas. unfold bind at 1.
    rewrite (bind_and_execute_ok PoemMetricalPatternsInStanzas (fun u => [u])
               w db u _ Hdb Hu eq_refl Ha).
    unfold bind, lift, simplify_results. cbn [results].
    rewrite simplify_stanza_rows, Hout. reflexivity.
Qed.

Lemma patterns_pass_through_unchanged_witness :
  (exists out,
     get_grammatical_stress_patterns_in_stanzas (new_world stored_poem_db) =
       (Ok out,
        {| self := self (new_world stored_poem_db);
           calls := calls (new_world stored_poem_db) ++
                    [(PoemGrammaticalStressPatternsInStanzas, [poem_uri])] |}) /\
     List.concat out =
       map (fun cell => SStr (snd cell))
         [("1", "--+---+---+-"); ("1", "+-+---+-+-+-"); ("2", "++---+---+-")]) /\
  (exists out,
     get_metrical_patterns_in_stanzas (new_world pattern_db) =
       (Ok out,
        {| self := self (new_world pattern_db);
           calls := calls (new_world pattern_db) ++
                    [(PoemMetricalPatternsInStanzas, [poem_uri])] |}) /\
     List.concat out =
       map (fun cell => SStr (snd cell))
         [("1", "--+---+---+-"); ("1", "+-+---+-+-+-"); ("2", "++---+---+-")]).
Proof.
  split.
  - apply (proj1 (patterns_pass_through_unchanged (new_world stored_poem_db) stored_poem_db
                    poem_uri
                    [("1", "--+---+---+-"); ("1", "+-+---+-+-+-"); ("2", "++---+---+-")]
                    eq_refl eq_refl
                    ltac:(repeat (constructor; [eexists; split; reflexivity|]);
                          constructor))).
    reflexivity.
  - apply (proj2 (patterns_pass_through_unchanged (new_world pattern_db) pattern_db
                    poem_uri
                    [("1", "--+---+---+-"); ("1", "+-+---+-+-+-"); ("2", "++---+---+-")]
                    eq_refl eq_refl
                    ltac:(repeat (constructor; [eexists; split; reflexivity|]);
                          constructor))).
    reflexivity.
Defined.

End EndToEnd.

(** ** The analysis inside the metadata *)

Module MetadataAnalysis.
Import Py Store Poem Spec Fixtures.
Local Open Scope list_scope.

Lemma get_analysis_ok_truthy w r w' :
  get_analysis w = (Ok r, w') ->
  if_truthy truthy (automatic_analysis (self w')) = Some r.
Proof.
  intros H.
  destruct (if_truthy truthy (automatic_analysis (self w))) as [a|] eqn:E.
  - unfold get_analysis in H. unfold bind at 1, get_self at 1 in H. rewrite E in H.
    injection H as <- <-. exact E.
  - rewrite (Analysis.get_analysis_uncached w E) in H.
    destruct (build_dict analysis_steps w) as [[d|e] w1] eqn:B; [|discriminate].
    injection H as <- <-. apply Analysis.build_dict_keys in B.
    destruct d; [discriminate|reflexivity].
Qed.

(** X22: with [include_analysis=True] the mapping of [get_metadata] holds,
    under the key "analysis" after the five basic keys, the record
    [get_analysis] returned; that record is the one cached on the poem, so
    a later [get_analysis] returns it again without a call to the
    store. *)
Theorem metadata_analysis_is_the_cached_record
    (author_metadata : PostdataAuthor -> result pyval) w source w1 analysis w2 :
  get_poetry_lab_url "http://poetry.linhd.uned.es:3000" "en" w = (Ok source, w1) ->
  get_analysis w1 = (Ok analysis, w2) ->
  get_metadata author_metadata false true w =
    (Ok [("id", of_option PyStr (id (self w)));
         ("uri", of_option PyStr (uri (self w)));
         ("name", of_option PyStr (name (self w)));
         ("source", PyStr source);
         ("sourceUri", PyStr "POSTDATA Poetry Lab");
         ("analysis", analysis)], w2) /\
  automatic_analysis (self w2) = Some analysis /\
  get_analysis w2 = (Ok analysis, w2).
Proof.
  intros Hurl Ha.
  pose proof (get_analysis_ok_truthy w1 analysis w2 Ha) as Hc.
  split; [|split].
  - unfold get_metadata.
    rewrite (Metadata.bind_ok get_self _ w (self w) w eq_refl).
    rewrite (Metadata.bind_ok _ _ w source w1 Hurl). cbv zeta.
    unfold bind at 1. unfold ret at 1.
    rewrite (Metadata.bind_ok get_analysis _ w1 analysis w2 Ha). reflexivity.
  - unfold if_truthy in Hc. destruct (automatic_analysis (self w2)) as [a|]; [|discriminate].
    destruct (truthy a); congruence.
  - unfold get_analysis. unfold bind at 1, get_self at 1. now rewrite Hc.
Qed.

Lemma metadata_analysis_is_the_cached_record_witness :
  get_metadata (fun _ => Ok PyNone) false true (new_world stored_poem_db) =
    (Ok [("id", of_option PyStr (id (self (new_world stored_poem_db))));
         ("uri", of_option PyStr (uri (self (new_world stored_poem_db))));
         ("name", of_option PyStr (name (self (new_world stored_poem_db))));
         ("source",
          PyStr "http://poetry.linhd.uned.es:3000/en/author/juana-ines-de-la-cruz/poetic-work/sabras-querido-fabio");
         ("sourceUri", PyStr "POSTDATA Poetry Lab");
         ("analysis", stored_poem_analysis)],
     snd (get_analysis
            {| self := set_poetry_lab_url
                         (Some "http://poetry.linhd.uned.es:3000/en/author/juana-ines-de-la-cruz/poetic-work/sabras-querido-fabio")
                         (new_poem stored_poem_db);
               calls := [] |})) /\
  automatic_analysis
    (self (snd (get_analysis
                  {| self := set_poetry_lab_url
                               (Some "http://poetry.linhd.uned.es:3000/en/author/juana-ines-de-la-cruz/poetic-work/sabras-querido-fabio")
                               (new_poem stored_poem_db);
                     calls := [] |}))) = Some stored_poem_analysis /\
  get_analysis
    (snd (get_analysis
            {| self := set_poetry_lab_url
                         (Some "http://poetry.linhd.uned.es:3000/en/author/juana-ines-de-la-cruz/poetic-work/sabras-querido-fabio")
                         (new_poem stored_poem_db);
               calls := [] |})) =
    (Ok stored_poem_analysis,
     snd (get_analysis
            {| self := set_poetry_lab_url
                         (Some "http://poetry.linhd.uned.es:3000/en/author/juana-ines-de-la-cruz/poetic-work/sabras-querido-fabio")
                         (new_poem stored_poem_db);
               calls := [] |})).
Proof.
  apply (metadata_analysis_is_the_cached_record (fun _ => Ok PyNone)
           (new_world stored_poem_db)
           "http://poetry.linhd.uned.es:3000/en/author/juana-ines-de-la-cruz/poetic-work/sabras-querido-fabio"
           {| self := set_poetry_lab_url
                        (Some "http://poetry.linhd.uned.es:3000/en/author/juana-ines-de-la-cruz/poetic-work/sabras-querido-fabio")
                        (new_poem stored_poem_db);
              calls := [] |}).
  - reflexivity.
  - vm_compute. reflexivity.
Defined.

End MetadataAnalysis.

(** ** The corpora route *)

Module CorporaRoute.
Import Py Api.
Local Open Scope list_scope.

Lemma truthy_str_nonempty v : truthy_str v = true <-> v <> "".
Proof. destruct v; simpl; split; intros H; try reflexivity; congruence. Qed.

(** X23: the route [/corpora] answers with status 400 exactly when the
    parameter [include] is given a non-empty value other than "metrics",
    and then does not list any corpus; it lists the corpora with their
    metrics exactly for the value "metrics"; a missing parameter and an
    empty value both give the plain listing. *)
Theorem get_corpora_checks_include args (list_corpora : option bool -> result pyval) :
  (lookup "include" args = Some "metrics" ->
   get_corpora args list_corpora = rmap Jsonify (list_corpora (Some true))) /\
  (lookup "include" args = None \/ lookup "include" args = Some "" ->
   get_corpora args list_corpora = rmap Jsonify (list_corpora None)) /\
  (forall body status mimetype,
      get_corpora args list_corpora = Ok (PlainResponse body status mimetype) <->
      exists v,
        lookup "include" args = Some v /\ v <> "" /\ v <> "metrics" /\
        body = (v ++ " is not a valid value of parameter 'include'.")%string /\
        status = 400 /\ mimetype = "text/plain").
Proof.
  unfold get_corpora. split; [|split].
  - intros ->. reflexivity.
  - intros [->| ->]; reflexivity.
  - intros body status mimetype.
    destruct (lookup "include" args) as [v|].
    + destruct (truthy_str v) eqn:T.
      * destruct (String.eqb v "metrics") eqn:E.
        -- split.
           ++ destruct (list_corpora (Some true)); discriminate.
           ++ intros (v' & Hv & _ & Hm & _). injection Hv as <-.
              apply String.eqb_eq in E. contradiction.
        -- split.
           ++ intros H. injection H as <- <- <-. exists v.
              split; [reflexivity|]. split; [now apply truthy_str_nonempty|].
              split; [now apply String.eqb_neq|]. auto.
           ++ intros (v' & Hv & _ & _ & -> & -> & ->). injection Hv as <-. reflexivity.
      * split.
        -- destruct (list_corpora None); discriminate.
        -- intros (v' & Hv & Hne & _). injection Hv as <-.
           apply truthy_str_nonempty in Hne. congruence.
    + split.
      * destruct (list_corpora None); discriminate.
      * intros (v & Hv & _). discriminate.
Qed.

Lemma get_corpora_checks_include_witness :
  get_corpora [("include", "metrics")] (fun _ => Ok (PyList [])) =
    rmap Jsonify (Ok (PyList [])) /\
  get_corpora [("include", "")] (fun _ => Ok (PyList [])) = rmap Jsonify (Ok (PyList [])) /\
  get_corpora [("include", "Metrics")] (fun _ => Raise TypeError) =
    Ok (PlainResponse "Metrics is not a valid value of parameter 'include'." 400 "text/plain").
Proof.
  split; [|split].
  - apply (proj1 (get_corpora_checks_include [("include", "metrics")]
                    (fun _ => Ok (PyList [])))). reflexivity.
  - apply (proj1 (proj2 (get_corpora_checks_include [("include", "")]
                           (fun _ => Ok (PyList []))))). right. reflexivity.
  - apply (proj2 (proj2 (get_corpora_checks_include [("include", "Metrics")]
                           (fun _ => Raise TypeError)))).
    exists "Metrics". repeat split; discriminate.
Defined.

End CorporaRoute.

(** ** The conversion of the values *)

Module Coercion.
Import Py Store Poem Spec Fixtures.
Local Open Scope list_scope.

Lemma traverse_ok_all {A B} (f : A -> result B) l : forall l',
  traverse f l = Ok l' -> forall x, In x l -> exists y, f x = Ok y /\ In y l'.
Proof.
  induction l as [|a l IH]; intros l' H x Hx; [contradiction|].
  simpl in H. destruct (f a) as [b|e] eqn:Ha; simpl in H; [|discriminate].
  destruct (traverse f l) as [bs|e] eqn:Hl; simpl in H; [|discriminate].
  injection H as <-. destruct Hx as [<-|Hx].
  - exists b. split; [exact Ha|now left].
  - destruct (IH bs eq_refl x Hx) as (y & Hy & Hin). exists y. split; [exact Hy|now right].
Qed.

Lemma traverse_ok_in {A B} (f : A -> result B) l : forall l',
  traverse f l = Ok l' -> forall y, In y l' -> exists x, In x l /\ f x = Ok y.
Proof.
  induction l as [|a l IH]; intros l' H y Hy; simpl in H.
  - injection H as <-. contradiction.
  - destruct (f a) as [b|e] eqn:Ha; simpl in H; [|discriminate].
    destruct (traverse f l) as [bs|e] eqn:Hl; simpl in H; [|discriminate].
    injection H as <-. destruct Hy as [<-|Hy].
    + exists a. split; [now left|exact Ha].
    + destruct (IH bs eq_refl y Hy) as (x & Hx & Hfx). exists x. split; [now right|exact Hfx].
Qed.

Lemma subseq_in {A} (l1 l2 : list A) : subseq l1 l2 -> forall x, In x l1 -> In x l2.
Proof.
  induction 1 as [|a l1 l2 _ IH|a l1 l2 _ IH]; intros x Hx.
  - contradiction.
  - destruct Hx as [<-|Hx]; [now left|right; now apply IH].
  - right. now apply IH.
Qed.

Lemma read_int_inv key vkey b sn v :
  read_binding key vkey "int" b = Ok (sn, v) ->
  exists raw n,
    getitem b key = Ok sn /\ getitem b vkey = Ok raw /\ py_int raw = Ok n /\ v = SInt n.
Proof.
  unfold read_binding. intros H.
  destruct (getitem b key) as [sn'|e]; simpl in H; [|discriminate].
  destruct (getitem b vkey) as [raw|e]; simpl in H; [|discriminate].
  rewrite StanzaGrouping.coerce_int in H.
  destruct (py_int raw) as [n|e] eqn:Hn; simpl in H; [|discriminate].
  injection H as <- <-. exists raw, n. repeat split. exact Hn.
Qed.

Lemma read_other_inv key vkey dt b sn v :
  other_flag dt ->
  read_binding key vkey dt b = Ok (sn, v) ->
  getitem b key = Ok sn /\ getitem b vkey = Ok v.
Proof.
  intros [H1 H2]. unfold read_binding. intros H.
  destruct (getitem b key) as [sn'|e]; simpl in H; [|discriminate].
  destruct (getitem b vkey) as [raw|e]; simpl in H; [|discriminate].
  rewrite (StanzaGrouping.coerce_other dt raw H1 H2) in H. simpl in H.
  injection H as <- <-. auto.
Qed.

(** The values of a returned grouping are values the loop read. *)
Lemma output_values_were_read key vkey dt rows out :
  group_feature_by_stanzas rows key vkey dt = Ok out ->
  exists pairs,
    traverse (read_binding key vkey dt) rows = Ok pairs /\
    forall v, In v (List.concat out) -> In v (map snd pairs).
Proof.
  intros H.
  destruct (GroupingEdges.group_ok_reads key vkey dt rows out H)
    as (pairs & g & Hread & Hloop & ->).
  exists pairs. split; [exact Hread|].
  apply subseq_in. exact (GroupingEdges.place_loop_subseq pairs start g Hloop).
Qed.

Lemma read_converted_rows key vkey rows : forall cells ns,
  traverse (raw_binding key vkey) rows = Ok cells ->
  traverse (fun cell => py_int (snd cell)) cells = Ok ns ->
  exists pairs,
    traverse (read_binding key vkey "int") rows = Ok pairs /\
    map fst pairs = map fst cells /\ map snd pairs = map SInt ns.
Proof.
  induction rows as [|b rows IH]; intros cells ns Hraw Hns; simpl in Hraw.
  - injection Hraw as <-. injection Hns as <-. exists []. auto.
  - destruct (raw_binding key vkey b) as [[sn raw]|e] eqn:Hb; simpl in Hraw; [|discriminate].
    destruct (traverse (raw_binding key vkey) rows) as [cs|e] eqn:Hcs; simpl in Hraw;
      [|discriminate].
    injection Hraw as <-. simpl in Hns.
    destruct (py_int raw) as [n|e] eqn:Hn; simpl in Hns; [|discriminate].
    destruct (traverse (fun cell => py_int (snd cell)) cs) as [ms|e] eqn:Hms; simpl in Hns;
      [|discriminate].
    injection Hns as <-.
    destruct (IH cs ms eq_refl Hms) as (pairs & Hread & Hfst & Hsnd).
    exists ((sn, SInt n) :: pairs). split; [|split].
    + simpl. unfold read_binding at 1. unfold raw_binding in Hb.
      destruct (getitem b key) as [sn'|e]; simpl in Hb; [|discriminate].
      destruct (getitem b vkey) as [raw'|e]; simpl in Hb; [|discriminate].
      injection Hb as -> ->. simpl. rewrite StanzaGrouping.coerce_int, Hn. simpl.
      now rewrite Hread.
    + simpl. now rewrite Hfst.
    + simpl. now rewrite Hsnd.
Qed.

Lemma read_unconverted_rows key vkey dt rows : forall cells,
  other_flag dt ->
  traverse (raw_binding key vkey) rows = Ok cells ->
  traverse (read_binding key vkey dt) rows = Ok cells.
Proof.
  intros cells [H1 H2]. revert cells.
  induction rows as [|b rows IH]; intros cells Hraw; simpl in Hraw.
  - exact Hraw.
  - destruct (raw_binding key vkey b) as [[sn raw]|e] eqn:Hb; simpl in Hraw; [|discriminate].
    destruct (traverse (raw_binding key vkey) rows) as [cs|e] eqn:Hcs; simpl in Hraw;
      [|discriminate].
    injection Hraw as <-. simpl. unfold read_binding at 1. unfold raw_binding in Hb.
    destruct (getitem b key) as [sn'|e]; simpl in Hb; [|discriminate].
    destruct (getitem b vkey) as [raw'|e]; simpl in Hb; [|discriminate].
    injection Hb as -> ->. simpl. rewrite (StanzaGrouping.coerce_other dt raw H1 H2). simpl.
    now rewrite (IH cs eq_refl).
Qed.

Lemma positive_by_stanza_numbers (pairs cells : list (scalar * scalar)) :
  map fst pairs = map fst cells ->
  Forall positive_stanza cells -> Forall positive_stanza pairs.
Proof.
  revert cells. induction pairs as [|p pairs IH]; intros cells Hfst Hpos; [constructor|].
  destruct cells as [|c cells]; [discriminate|].
  simpl in Hfst. injection Hfst as Hp Hrest.
  inversion Hpos as [|? ? Hc Hpos']; subst.
  constructor; [|now apply (IH cells)].
  unfold positive_stanza in *. now rewrite Hp.
Qed.

(** C8: under the flag "int" every value of the output is the [int()] of
    the value of a row, and a call returns only if [int()] accepted the
    value of every row, so a row whose value it refuses makes the call
    raise; under a flag that is neither an integer nor a string flag every
    value of the output is the value of a row as it went in.  On rows with
    positive stanza numbers the output holds, row for row, the integers of
    the values under "int" and the values themselves under such a flag.
    In particular the string "11" comes out as the integer 11 under "int"
    and as the string "11" under any such flag. *)
Theorem group_feature_by_stanzas_coerces :
  (forall rows key vkey out,
      group_feature_by_stanzas rows key vkey "int" = Ok out ->
      (forall b, In b rows ->
         exists raw n, getitem b vkey = Ok raw /\ py_int raw = Ok n) /\
      (forall v, In v (List.concat out) ->
         exists b raw n,
           In b rows /\ getitem b vkey = Ok raw /\ py_int raw = Ok n /\ v = SInt n)) /\
  (forall rows key vkey b raw e,
      In b rows -> getitem b vkey = Ok raw -> py_int raw = Raise e ->
      exists e', group_feature_by_stanzas rows key vkey "int" = Raise e') /\
  (forall rows key vkey dt out,
      other_flag dt ->
      group_feature_by_stanzas rows key vkey dt = Ok out ->
      forall v, In v (List.concat out) -> exists b, In b rows /\ getitem b vkey = Ok v) /\
  (forall rows key vkey cells ns,
      traverse (raw_binding key vkey) rows = Ok cells ->
      Forall positive_stanza cells ->
      traverse (fun cell => py_int (snd cell)) cells = Ok ns ->
      exists out,
        group_feature_by_stanzas rows key vkey "int" = Ok out /\
        List.concat out = map SInt ns) /\
  (forall rows key vkey dt cells,
      other_flag dt ->
      traverse (raw_binding key vkey) rows = Ok cells ->
      Forall positive_stanza cells ->
      exists out,
        group_feature_by_stanzas rows key vkey dt = Ok out /\
        List.concat out = map snd cells) /\
  group_feature_by_stanzas [row 1 "11"] "StanzaNo" "count" "int" = Ok [[SInt 11]] /\
  (forall dt,
      other_flag dt ->
      group_feature_by_stanzas [row 1 "11"] "StanzaNo" "count" dt = Ok [[SStr "11"]]).
Proof.
  assert (Hint : forall rows key vkey out,
      group_feature_by_stanzas rows key vkey "int" = Ok out ->
      (forall b, In b rows ->
         exists raw n, getitem b vkey = Ok raw /\ py_int raw = Ok n) /\
      (forall v, In v (List.concat out) ->
         exists b raw n,
           In b rows /\ getitem b vkey = Ok raw /\ py_int raw = Ok n /\ v = SInt n)).
  { intros rows key vkey out H.
    destruct (output_values_were_read key vkey "int" rows out H) as (pairs & Hread & Hin).
    split.
    - intros b Hb.
      destruct (traverse_ok_all _ rows pairs Hread b Hb) as ([sn v] & Hv & _).
      destruct (read_int_inv key vkey b sn v Hv) as (raw & n & _ & Hraw & Hn & _).
      exists raw, n. auto.
    - intros v Hv. apply Hin in Hv. apply in_map_iff in Hv as ([sn v'] & <- & Hp).
      destruct (traverse_ok_in _ rows pairs Hread (sn, v') Hp) as (b & Hb & Hrb).
      destruct (read_int_inv key vkey b sn v' Hrb) as (raw & n & _ & Hraw & Hn & ->).
      exists b, raw, n. auto. }
  assert (Hother : forall rows key vkey dt cells,
      other_flag dt ->
      traverse (raw_binding key vkey) rows = Ok cells ->
      Forall positive_stanza cells ->
      exists out,
        group_feature_by_stanzas rows key vkey dt = Ok out /\
        List.concat out = map snd cells).
  { intros rows key vkey dt cells Hdt Hraw Hpos.
    apply EndToEnd.group_positive_concat; [|exact Hpos].
    now apply read_unconverted_rows. }
  split; [exact Hint|]. split; [|split; [|split; [|split; [exact Hother|split]]]].
  - intros rows key vkey b raw e Hb Hraw He.
    destruct (group_feature_by_stanzas rows key vkey "int") as [out|e'] eqn:G.
    + destruct (proj1 (Hint rows key vkey out G) b Hb) as (raw' & n & Hraw' & Hn).
      congruence.
    + now exists e'.
  - intros rows key vkey dt out Hdt H v Hv.
    destruct (output_values_were_read key vkey dt rows out H) as (pairs & Hread & Hin).
    apply Hin in Hv. apply in_map_iff in Hv as ([sn v'] & <- & Hp).
    destruct (traverse_ok_in _ rows pairs Hread (sn, v') Hp) as (b & Hb & Hrb).
    destruct (read_other_inv key vkey dt b sn v' Hdt Hrb) as [_ Hraw].
    exists b. auto.
  - intros rows key vkey cells ns Hraw Hpos Hns.
    destruct (read_converted_rows key vkey rows cells ns Hraw Hns)
      as (pairs & Hread & Hfst & Hsnd).
    destruct (EndToEnd.group_positive_concat key vkey "int" rows pairs Hread
                (positive_by_stanza_numbers pairs cells Hfst Hpos)) as (out & Hout & Hcat).
    exists out. split; [exact Hout|]. now rewrite Hcat.
  - reflexivity.
  - intros dt Hdt. unfold group_feature_by_stanzas.
    rewrite (StanzaGrouping.for_loop_read "StanzaNo" "count" dt [row 1 "11"]
               [(SInt 1, SStr "11")] start
               (read_unconverted_rows "StanzaNo" "count" dt [row 1 "11"]
                  [(SInt 1, SStr "11")] Hdt eq_refl)).
    reflexivity.
Qed.

Lemma group_feature_by_stanzas_coerces_witness :
  ((forall b, In b [row 0 "7"; row 2 " 1_2 "; row 3 "9"] ->
      exists raw n, getitem b "count" = Ok raw /\ py_int raw = Ok n) /\
   (forall v, In v (List.concat [[SInt 12]; [SInt 9]]) ->
      exists b raw n,
        In b [row 0 "7"; row 2 " 1_2 "; row 3 "9"] /\
        getitem b "count" = Ok raw /\ py_int raw = Ok n /\ v = SInt n)) /\
  (exists e',
     group_feature_by_stanzas [row 1 "7"; row 1 "eleven"; row 2 "9"]
       "StanzaNo" "count" "int" = Raise e') /\
  (forall v, In v (List.concat [[SStr " 1_2 "]; [SStr "9"]]) ->
     exists b, In b [row 0 "7"; row 2 " 1_2 "; row 3 "9"] /\ getitem b "count" = Ok v) /\
  (exists out,
     group_feature_by_stanzas [row 1 "7"; row 2 " 1_2 "; row 2 "9"]
       "StanzaNo" "count" "int" = Ok out /\
     List.concat out = map SInt [7; 12; 9]) /\
  (exists out,
     group_feature_by_stanzas [row 1 "7"; row 2 " 1_2 "; row 2 "9"]
       "StanzaNo" "count" "raw" = Ok out /\
     List.concat out = map snd [(SInt 1, SStr "7"); (SInt 2, SStr " 1_2 "); (SInt 2, SStr "9")]) /\
  group_feature_by_stanzas [row 1 "11"] "StanzaNo" "count" "float" = Ok [[SStr "11"]].
Proof.
  destruct group_feature_by_stanzas_coerces
    as (Hint & Hraise & Hother & Hints & Hothers & _ & Hlit).
  split; [|split; [|split; [|split; [|split]]]].
  - apply (Hint [row 0 "7"; row 2 " 1_2 "; row 3 "9"] "StanzaNo" "count"). reflexivity.
  - apply (Hraise [row 1 "7"; row 1 "eleven"; row 2 "9"] "StanzaNo" "count"
             (row 1 "eleven") (SStr "eleven") ValueError).
    + right. left. reflexivity.
    + reflexivity.
    + reflexivity.
  - apply (Hother [row 0 "7"; row 2 " 1_2 "; row 3 "9"] "StanzaNo" "count" "raw").
    + split; reflexivity.
    + reflexivity.
  - apply (Hints [row 1 "7"; row 2 " 1_2 "; row 2 "9"] "StanzaNo" "count"
             [(SInt 1, SStr "7"); (SInt 2, SStr " 1_2 "); (SInt 2, SStr "9")]).
    + reflexivity.
    + repeat (constructor; [eexists; split; reflexivity|]). constructor.
    + reflexivity.
  - apply (Hothers [row 1 "7"; row 2 " 1_2 "; row 2 "9"] "StanzaNo" "count" "raw").
    + split; reflexivity.
    + reflexivity.
    + repeat (constructor; [eexists; split; reflexivity|]). constructor.
  - apply (Hlit "float"). split; reflexivity.
Defined.

End Coercion.
